(** * hyperlink-harvester: extract_links.py and scrape_links.py

    A shallow embedding of the two scripts of [script/] and of the parts of
    the Python libraries they call ([str], [urllib.parse], BeautifulSoup),
    followed by the properties of the URL normaliser, the sidebar finder
    and scorer, the link harvest and the orchestrators.

    Conventions.
    - A Python [str] is a [string]; its characters are read as the code
      points 0..255.
    - A function that can raise returns a [result].
    - The diagnostics that the scripts print are left out: they influence
      neither a return value nor a file.
    - A [Tag] is a node of the parsed document together with its position
      (the child indices from the root), which stands for object identity. *)

From Stdlib Require Import Ascii Sorted.
From stdpp Require Import gmap strings list.

Set Warnings "-register-all".

(** [simpl] unfolds the append of strings on a constructor. *)
#[global] Arguments String.append !s1 s2 : simpl nomatch.

(** ** Python [str] *)

Module Py.

Definition code (c : ascii) : nat := nat_of_ascii c.

Definition between (lo hi : nat) (c : ascii) : bool :=
  (lo <=? code c)%nat && (code c <=? hi)%nat.

(** [c in chars] for a character and a string of characters. *)
Fixpoint mem (c : ascii) (chars : string) : bool :=
  match chars with
  | EmptyString => false
  | String x r => Ascii.eqb c x || mem c r
  end.

(** [not s] *)
Definition is_empty (s : string) : bool :=
  match s with EmptyString => true | _ => false end.

(** [s.startswith(p)] *)
Fixpoint startswith (p s : string) : bool :=
  match p, s with
  | EmptyString, _ => true
  | String a p', String b s' => Ascii.eqb a b && startswith p' s'
  | String _ _, EmptyString => false
  end.

(** [s.startswith((p1, p2, ...))] *)
Definition startswith_any (ps : list string) (s : string) : bool :=
  existsb (fun p => startswith p s) ps.

(** [sub in s] *)
Fixpoint contains (sub s : string) : bool :=
  startswith sub s ||
  match s with
  | EmptyString => false
  | String _ r => contains sub r
  end.

Fixpoint all (p : ascii -> bool) (s : string) : bool :=
  match s with
  | EmptyString => true
  | String c r => p c && all p r
  end.

(** The longest prefix whose characters satisfy [p], and the rest. *)
Fixpoint span (p : ascii -> bool) (s : string) : string * string :=
  match s with
  | EmptyString => (EmptyString, EmptyString)
  | String c r =>
      if p c then let '(a, b) := span p r in (String c a, b)
      else (EmptyString, s)
  end.

(** [s.lstrip(chars)], [s.rstrip(chars)], [s.strip(chars)], with the set
    of characters given as a predicate. *)
Definition lstrip (p : ascii -> bool) (s : string) : string := snd (span p s).

Fixpoint rstrip (p : ascii -> bool) (s : string) : string :=
  match s with
  | EmptyString => EmptyString
  | String c r =>
      let r' := rstrip p r in
      if is_empty r' && p c then EmptyString else String c r'
  end.

Definition strip (p : ascii -> bool) (s : string) : string :=
  rstrip p (lstrip p s).

(** [s.replace(c, "")] for every character [c] that satisfies [p]. *)
Fixpoint remove (p : ascii -> bool) (s : string) : string :=
  match s with
  | EmptyString => EmptyString
  | String c r => if p c then remove p r else String c (remove p r)
  end.

(** [s.split(c, 1)] when [c in s]: the text before the first [c] and the
    text after it; [None] when [c] does not occur ([s.find(c) < 0]). *)
Fixpoint partition (c : ascii) (s : string) : option (string * string) :=
  match s with
  | EmptyString => None
  | String x r =>
      if Ascii.eqb x c then Some (EmptyString, r)
      else match partition c r with
           | Some (a, b) => Some (String x a, b)
           | None => None
           end
  end.

(** The split at the last [c]: [s[:s.rfind(c)]] and [s[s.rfind(c)+1:]]. *)
Fixpoint rpartition (c : ascii) (s : string) : option (string * string) :=
  match s with
  | EmptyString => None
  | String x r =>
      match rpartition c r with
      | Some (a, b) => Some (String x a, b)
      | None => if Ascii.eqb x c then Some (EmptyString, r) else None
      end
  end.

(** [s.split(c)] *)
Fixpoint split (c : ascii) (s : string) : list string :=
  match s with
  | EmptyString => [EmptyString]
  | String x r =>
      match split c r with
      | [] => [EmptyString]
      | h :: t => if Ascii.eqb x c then EmptyString :: h :: t
                  else String x h :: t
      end
  end.

(** [sep.join(parts)] *)
Fixpoint join (sep : string) (parts : list string) : string :=
  match parts with
  | [] => EmptyString
  | [x] => x
  | x :: r => x +:+ sep +:+ join sep r
  end.

(** [s[n:]] *)
Fixpoint drop (n : nat) (s : string) : string :=
  match n, s with
  | S n', String _ r => drop n' r
  | _, _ => s
  end.

(** [s[:n]] *)
Fixpoint take (n : nat) (s : string) : string :=
  match n, s with
  | S n', String c r => String c (take n' r)
  | _, _ => EmptyString
  end.

(** [str.lower] on the code points 0..255: the ASCII capitals and the
    Latin-1 capitals U+00C0..U+00DE other than the multiplication sign
    U+00D7 move up by 32. *)
Definition lower_char (c : ascii) : ascii :=
  if between 65 90 c || (between 192 222 c && negb (code c =? 215)%nat)
  then ascii_of_nat (code c + 32) else c.

Fixpoint lower (s : string) : string :=
  match s with
  | EmptyString => EmptyString
  | String c r => String (lower_char c) (lower r)
  end.

(** [c.isspace()] on the code points 0..255. *)
Definition isspace (c : ascii) : bool :=
  between 9 13 c || between 28 32 c || (code c =? 133)%nat || (code c =? 160)%nat.

(** The line feed, and a text between double quotes. *)
Definition newline : ascii := ascii_of_nat 10.
Definition quoted (s : string) : string :=
  String (ascii_of_nat 34) s +:+ String (ascii_of_nat 34) EmptyString.

(** [c.isascii()] and [c.isascii() and c.isalpha()] *)
Definition isascii (c : ascii) : bool := (code c <? 128)%nat.
Definition isascii_alpha (c : ascii) : bool :=
  between 65 90 c || between 97 122 c.

End Py.

(** ** Exceptions *)

(** The exceptions that reach the scripts: the [ValueError] of
    [urllib.parse.urlsplit] and the [OSError] of [os.makedirs]. *)
Inductive exn : Type := ValueError | OSError.

(** The outcome of a call that may raise. *)
Inductive result (A : Type) : Type :=
| Ok (a : A)
| Raise (e : exn).
Arguments Ok {A} a.
Arguments Raise {A} e.

#[global] Instance result_ret : MRet result := fun A a => Ok a.
#[global] Instance result_bind : MBind result := fun A B k r =>
  match r with
  | Ok a => k a
  | Raise e => Raise e
  end.

(** [for x in l: s = body(s, x)], stopping at the first exception. *)
Fixpoint for_each {A S : Type} (body : S -> A -> result S) (l : list A) (s : S)
  : result S :=
  match l with
  | [] => Ok s
  | x :: r => s' ← body s x ; for_each body r s'
  end.

(** [l.sort(key=key, reverse=True)]: the sort is stable, and with
    [reverse=True] elements with equal keys keep their original order. Each
    element is placed before the first element whose key is not greater. *)
Fixpoint insert_reverse {A : Type} (key : A -> Z) (x : A) (l : list A) : list A :=
  match l with
  | [] => [x]
  | y :: r => if (key y <=? key x)%Z then x :: l
              else y :: insert_reverse key x r
  end.

Fixpoint sort_reverse {A : Type} (key : A -> Z) (l : list A) : list A :=
  match l with
  | [] => []
  | x :: r => insert_reverse key x (sort_reverse key r)
  end.

(** ** [urllib.parse] (CPython 3.11, [Lib/urllib/parse.py]) *)

Module Urllib.

(** The two validations of [urlsplit] that call into [ipaddress], [re] and
    [unicodedata]; both are functions of the network location alone and
    raise [ValueError] when they fail.
    - [bracketed_netloc_ok netloc]: [_check_bracketed_netloc] accepts a
      network location that holds both brackets;
    - [nfkc_netloc_ok netloc]: the NFKC test of [_checknetloc] accepts a
      network location with a character outside ASCII. *)
Record validators : Type := {
  bracketed_netloc_ok : string -> bool;
  nfkc_netloc_ok : string -> bool
}.

Definition uses_relative : list string :=
  [""; "ftp"; "http"; "gopher"; "nntp"; "imap";
   "wais"; "file"; "https"; "shttp"; "mms";
   "prospero"; "rtsp"; "rtspu"; "sftp";
   "svn"; "svn+ssh"; "ws"; "wss"].

Definition uses_netloc : list string :=
  [""; "ftp"; "http"; "gopher"; "nntp"; "telnet";
   "imap"; "wais"; "file"; "mms"; "https"; "shttp";
   "snews"; "prospero"; "rtsp"; "rtspu"; "rsync";
   "svn"; "svn+ssh"; "sftp"; "nfs"; "git"; "git+ssh";
   "ws"; "wss"].

Definition uses_params : list string :=
  [""; "ftp"; "hdl"; "prospero"; "http"; "imap";
   "https"; "shttp"; "rtsp"; "rtspu"; "sip"; "sips";
   "mms"; "sftp"; "tel"].

(** [s in l] for a list of strings. *)
Definition among (s : string) (l : list string) : bool :=
  existsb (String.eqb s) l.

Definition scheme_chars : string :=
  "abcdefghijklmnopqrstuvwxyzABCDEFGHIJKLMNOPQRSTUVWXYZ0123456789+-.".

Definition scheme_char (c : ascii) : bool := Py.mem c scheme_chars.

(** [_WHATWG_C0_CONTROL_OR_SPACE]: the code points 0..32. *)
Definition c0_control_or_space (c : ascii) : bool := (Py.code c <=? 32)%nat.

(** [_UNSAFE_URL_BYTES_TO_REMOVE]: tab, carriage return, line feed. *)
Definition unsafe_byte (c : ascii) : bool :=
  (Py.code c =? 9)%nat || (Py.code c =? 13)%nat || (Py.code c =? 10)%nat.

(** The delimiters that end a network location: ['/?#']. *)
Definition netloc_delim (c : ascii) : bool := Py.mem c "/?#".

(** The scheme test of [urlsplit]: with [i = url.find(':')], when
    [i > 0], [url[0]] is an ASCII letter and every character of [url[:i]]
    is a scheme character, the scheme is [url[:i].lower()] and the rest
    [url[i+1:]]; otherwise the default scheme and the whole text. *)
Definition split_scheme (default url : string) : string * string :=
  match Py.partition ":" url with
  | Some (String c0 pre, rest) =>
      if Py.isascii_alpha c0 && Py.all scheme_char (String c0 pre)
      then (Py.lower (String c0 pre), rest)
      else (default, url)
  | _ => (default, url)
  end.

(** [_splitnetloc(url, 2)] on [url[2:]]: the network location ends at the
    earliest of the delimiters ['/?#'], or at the end. *)
Definition splitnetloc (after : string) : string * string :=
  Py.span (fun c => negb (netloc_delim c)) after.

(** The bracket tests of [urlsplit] on a network location. *)
Definition brackets_ok (V : validators) (netloc : string) : bool :=
  let o := Py.mem "[" netloc in
  let c := Py.mem "]" netloc in
  if (o && negb c) || (c && negb o) then false
  else if o && c then bracketed_netloc_ok V netloc
  else true.

(** [_checknetloc] *)
Definition checknetloc (V : validators) (netloc : string) : bool :=
  Py.is_empty netloc || Py.all Py.isascii netloc || nfkc_netloc_ok V netloc.

(** [url.split(c, 1)] guarded by [c in url]. *)
Definition split_tail (c : ascii) (url : string) : string * string :=
  match Py.partition c url with
  | Some (a, b) => (a, b)
  | None => (url, EmptyString)
  end.

(** [urlsplit(url, scheme)] with [allow_fragments=True]: the scheme, the
    network location, the path, the query and the fragment. *)
Definition urlsplit (V : validators) (url scheme : string)
  : result (string * string * string * string * string) :=
  let url := Py.lstrip c0_control_or_space url in
  let scheme := Py.strip c0_control_or_space scheme in
  let url := Py.remove unsafe_byte url in
  let scheme := Py.remove unsafe_byte scheme in
  let '(scheme, url) := split_scheme scheme url in
  '(netloc, url) ←
    (if Py.startswith "//" url
     then let '(netloc, rest) := splitnetloc (Py.drop 2 url) in
          if brackets_ok V netloc then Ok (netloc, rest) else Raise ValueError
     else Ok (EmptyString, url)) ;
  let '(url, fragment) := split_tail "#" url in
  let '(url, query) := split_tail "?" url in
  if checknetloc V netloc
  then Ok (scheme, netloc, url, query, fragment)
  else Raise ValueError.

(** [ParseResult] *)
Record ParseResult : Type := {
  scheme : string;
  netloc : string;
  path : string;
  params : string;
  query : string;
  fragment : string
}.

(** [_splitparams]: the parameters start at the first [';'] of the last
    path segment. *)
Definition splitparams (url : string) : string * string :=
  match Py.rpartition "/" url with
  | Some (dir, seg) =>
      match Py.partition ";" seg with
      | Some (a, b) => (dir +:+ "/" +:+ a, b)
      | None => (url, EmptyString)
      end
  | None =>
      match Py.partition ";" url with
      | Some (a, b) => (a, b)
      | None => (Py.take (String.length url - 1) url, url)
      end
  end.

(** [urlparse(url, scheme)] *)
Definition urlparse (V : validators) (url default : string)
  : result ParseResult :=
  '(scheme, netloc, url, query, fragment) ← urlsplit V url default ;
  let '(url, params) :=
    if among scheme uses_params && Py.mem ";" url
    then splitparams url else (url, EmptyString) in
  Ok {| scheme := scheme; netloc := netloc; path := url;
        params := params; query := query; fragment := fragment |}.

(** [urlunsplit((scheme, netloc, url, query, fragment))] *)
Definition urlunsplit (scheme netloc url query fragment : string) : string :=
  let url :=
    if negb (Py.is_empty netloc) ||
       (negb (Py.is_empty scheme) && among scheme uses_netloc &&
        negb (Py.startswith "//" url))
    then "//" +:+ netloc +:+
         (if negb (Py.is_empty url) && negb (Py.startswith "/" url)
          then "/" +:+ url else url)
    else url in
  let url := if Py.is_empty scheme then url else scheme +:+ ":" +:+ url in
  let url := if Py.is_empty query then url else url +:+ "?" +:+ query in
  if Py.is_empty fragment then url else url +:+ "#" +:+ fragment.

(** [urlunparse((scheme, netloc, url, params, query, fragment))] *)
Definition urlunparse (scheme netloc url params query fragment : string)
  : string :=
  let url := if Py.is_empty params then url else url +:+ ";" +:+ params in
  urlunsplit scheme netloc url query fragment.

Definition nonempty (s : string) : bool := negb (Py.is_empty s).

(** [segments[1:-1] = filter(None, segments[1:-1])] *)
Definition filter_middle (segments : list string) : list string :=
  match segments with
  | h :: (_ :: _) as t =>
      h :: filter (fun s => nonempty s = true) (removelast t) ++ [List.last t EmptyString]
  | _ => segments
  end.

(** The loop of [urljoin] over the segments: [".."] pops the resolved
    path (and is ignored when it is empty), ["."] is skipped, any other
    segment is appended. *)
Definition resolve_step (resolved : list string) (seg : string)
  : list string :=
  if String.eqb seg ".." then removelast resolved
  else if String.eqb seg "." then resolved
  else resolved ++ [seg].

Definition resolve (segments : list string) : list string :=
  let resolved := fold_left resolve_step segments [] in
  let final := List.last segments EmptyString in
  if String.eqb final "." || String.eqb final ".."
  then resolved ++ [EmptyString] else resolved.

(** [urljoin(base, url)] *)
Definition urljoin (V : validators) (base url : string) : result string :=
  if Py.is_empty base then Ok url
  else if Py.is_empty url then Ok base
  else
    b ← urlparse V base EmptyString ;
    u ← urlparse V url (scheme b) ;
    if negb (String.eqb (scheme u) (scheme b)) ||
       negb (among (scheme u) uses_relative)
    then Ok url
    else if among (scheme u) uses_netloc && nonempty (netloc u)
    then Ok (urlunparse (scheme u) (netloc u) (path u) (params u)
               (query u) (fragment u))
    else
      let netloc' :=
        if among (scheme u) uses_netloc then netloc b else netloc u in
      if Py.is_empty (path u) && Py.is_empty (params u)
      then Ok (urlunparse (scheme u) netloc' (path b) (params b)
                 (if Py.is_empty (query u) then query b else query u)
                 (fragment u))
      else
        let base_parts := Py.split "/" (path b) in
        let base_parts :=
          if nonempty (List.last base_parts EmptyString)
          then removelast base_parts else base_parts in
        let segments :=
          if Py.startswith "/" (path u) then Py.split "/" (path u)
          else filter_middle (base_parts ++ Py.split "/" (path u)) in
        let joined := Py.join "/" (resolve segments) in
        Ok (urlunparse (scheme u) netloc'
              (if Py.is_empty joined then "/" else joined)
              (params u) (query u) (fragment u)).

End Urllib.

(** ** BeautifulSoup ([bs4] with [html.parser], selectors by [soupsieve]) *)

Module Bs4.

(** The attribute dictionary of a tag. BeautifulSoup stores the value of
    a multi-valued attribute ([class], [rel], ...) as a list of strings
    and every other value as a string: [multi] holds the former, [single]
    the latter. *)
Record Attrs : Type := {
  single : gmap string string;
  multi : gmap string (list string)
}.

#[global] Instance Attrs_eq_dec : EqDecision Attrs.
Proof. solve_decision. Defined.

(** A node of the parsed tree: a string ([visible] for a
    [NavigableString] or [CData], not so for a [Comment], [Doctype] and
    the like, which [get_text] leaves out) or an element. *)
Inductive node : Type :=
| Text (visible : bool) (s : string)
| Element (name : string) (attrs : Attrs) (contents : list node).

(** A [Tag] object: an element and its position in the document, the
    list of child indices from the root. Two [Tag]s are the same object
    when their positions are equal. The [BeautifulSoup] object is the
    [Tag] named ["[document]"] at position [[]]. *)
Record Tag : Type := {
  tag_pos : list nat;
  tag_name : string;
  tag_attrs : Attrs;
  tag_contents : list node
}.

Definition BeautifulSoup (contents : list node) : Tag :=
  {| tag_pos := []; tag_name := "[document]";
     tag_attrs := {| single := ∅; multi := ∅ |};
     tag_contents := contents |}.

Definition same_object (a b : Tag) : bool :=
  bool_decide (tag_pos a = tag_pos b).

(** [tag.get(key, '')] for a string-valued attribute and
    [tag.get(key, [])] for a multi-valued one. *)
Definition get (t : Tag) (key : string) : string :=
  default EmptyString (single (tag_attrs t) !! key).
Definition get_list (t : Tag) (key : string) : list string :=
  default [] (multi (tag_attrs t) !! key).

(** [tag.has_attr(key)] *)
Definition has_attr (t : Tag) (key : string) : bool :=
  bool_decide (is_Some (single (tag_attrs t) !! key)) ||
  bool_decide (is_Some (multi (tag_attrs t) !! key)).

(** The elements below a position in document order, each with its
    ancestors, nearest first. *)
Fixpoint walk (ancestors : list Tag) (pos : list nat) (n : node)
  : list (Tag * list Tag) :=
  match n with
  | Text _ _ => []
  | Element name attrs contents =>
      let t := {| tag_pos := pos; tag_name := name; tag_attrs := attrs;
                  tag_contents := contents |} in
      (t, ancestors) ::
      (fix walk_from (i : nat) (l : list node) : list (Tag * list Tag) :=
         match l with
         | [] => []
         | c :: r => walk (t :: ancestors) (pos ++ [i]) c ++ walk_from (S i) r
         end) 0 contents
  end.

Fixpoint walk_list (ancestors : list Tag) (pos : list nat) (i : nat)
  (l : list node) : list (Tag * list Tag) :=
  match l with
  | [] => []
  | c :: r => walk ancestors (pos ++ [i]) c ++ walk_list ancestors pos (S i) r
  end.

(** [tag.descendants], restricted to elements. *)
Definition descendants (t : Tag) : list (Tag * list Tag) :=
  walk_list [t] (tag_pos t) 0 (tag_contents t).

(** [tag.find_all([name1, name2, ...])] *)
Definition find_all (t : Tag) (names : list string) : list Tag :=
  filter (fun d => Urllib.among (tag_name d) names = true)
    (fst <$> descendants t).

(** [tag.find_all(name, href=True)] *)
Definition find_all_href (t : Tag) (name : string) : list Tag :=
  filter (fun d => String.eqb (tag_name d) name && has_attr d "href" = true)
    (fst <$> descendants t).

(** The strings below a node that [get_text] collects, in document
    order. *)
Fixpoint strings (n : node) : list string :=
  match n with
  | Text visible s => if visible then [s] else []
  | Element _ _ contents => flat_map strings contents
  end.

(** [tag.get_text(separator=sep, strip=True)] *)
Definition get_text (t : Tag) (sep : string) : string :=
  Py.join sep
    (filter (fun s => Urllib.nonempty s = true)
       (Py.strip Py.isspace <$> flat_map strings (tag_contents t))).

(** [Tag.__eq__]: the same name, the same attributes and pairwise equal
    contents; strings compare as [str]. *)
Fixpoint node_eqb (a b : node) : bool :=
  match a, b with
  | Text _ s, Text _ s' => String.eqb s s'
  | Element n at1 c, Element n' at2 c' =>
      String.eqb n n' && bool_decide (at1 = at2) &&
      (length c =? length c')%nat &&
      (fix all2 (l l' : list node) : bool :=
         match l, l' with
         | x :: r, y :: r' => node_eqb x y && all2 r r'
         | _, _ => true
         end) c c'
  | _, _ => false
  end.

Definition to_node (t : Tag) : node :=
  Element (tag_name t) (tag_attrs t) (tag_contents t).

Definition tag_eqb (a b : Tag) : bool := node_eqb (to_node a) (to_node b).

(** [t in l] for a list of tags: some member is [t] itself or equals it. *)
Definition tag_in (t : Tag) (l : list Tag) : bool :=
  existsb (fun c => same_object t c || tag_eqb t c) l.

(** *** The selectors the scripts use *)

Inductive simple : Type :=
| SName (name : string)              (* [nav] *)
| SAttrEq (key value : string)       (* [[key="value"]] *)
| SAttrContainsI (key value : string)(* [[key*="value" i]] *)
| SClass (c : string)                (* [.c] *)
| SId (i : string).                  (* [#i] *)

Inductive selector : Type :=
| SCompound (c : list simple)                      (* [a[b]] *)
| SDescendant (outer : list simple) (c : list simple). (* [outer c] *)

(** The text a selector compares an attribute with: a list value is
    joined with spaces. *)
Definition attr_text (t : Tag) (key : string) : option string :=
  match single (tag_attrs t) !! key with
  | Some v => Some v
  | None => Py.join " " <$> multi (tag_attrs t) !! key
  end.

Definition match_simple (t : Tag) (s : simple) : bool :=
  match s with
  | SName name => String.eqb (tag_name t) name
  | SAttrEq key value =>
      match attr_text t key with
      | Some v => String.eqb v value
      | None => false
      end
  | SAttrContainsI key value =>
      match attr_text t key with
      | Some v => Py.contains (Py.lower value) (Py.lower v)
      | None => false
      end
  | SClass c => bool_decide (c ∈ get_list t "class")
  | SId i =>
      match single (tag_attrs t) !! "id" with
      | Some v => String.eqb v i
      | None => false
      end
  end.

Definition match_compound (c : list simple) (t : Tag) : bool :=
  forallb (match_simple t) c.

Definition match_selector (sel : selector) (d : Tag * list Tag) : bool :=
  match sel with
  | SCompound c => match_compound c (fst d)
  | SDescendant outer c =>
      match_compound c (fst d) && existsb (match_compound outer) (snd d)
  end.

(** [tag.select(selector)]: the matching descendants in document order. *)
Definition select (t : Tag) (sel : selector) : list Tag :=
  fst <$> filter (fun d => match_selector sel d = true) (descendants t).

End Bs4.

(** ** The outside world: the network and the file system *)

Module Os.

(** What [requests.get(...)] followed by [raise_for_status()] does: one of
    the four exceptions the scripts catch, or a response body. *)
Inductive http_outcome : Type :=
| Timeout
| ConnectionError
| HTTPError
| RequestException
| Response (body : string).

(** The surroundings of a run.
    - [http_get url]: the outcome of the HTTP request;
    - [selenium_available]: the module-level flag [SELENIUM_AVAILABLE];
    - [selenium_page url wait]: [driver.page_source] after the wait, or
      [None] when the browser raises;
    - [html_parser body]: the contents of [BeautifulSoup(body,
      'html.parser')];
    - [makedirs_fails dir], [open_fails file]: [os.makedirs] raises
      [OSError], [open(file, 'w')] raises [IOError]. *)
Record environment : Type := {
  http_get : string -> http_outcome;
  selenium_available : bool;
  selenium_page : string -> Z -> option string;
  html_parser : string -> list Bs4.node;
  makedirs_fails : string -> bool;
  open_fails : string -> bool
}.

(** The file system: the text of every file and the directories. *)
Record filesystem : Type := {
  files : gmap string string;
  directories : gset string
}.

(** [os.path.dirname(p)]: the text before the last slash, without its
    trailing slashes unless it consists of slashes only. *)
Definition dirname (p : string) : string :=
  match Py.rpartition "/" p with
  | Some (head, _) =>
      let head := head +:+ "/" in
      if Py.all (Ascii.eqb "/") head then head
      else Py.rstrip (Ascii.eqb "/") head
  | None => EmptyString
  end.

(** [os.makedirs(dir, exist_ok=True)] *)
Definition makedirs (E : environment) (dir : string) (fs : filesystem)
  : result filesystem :=
  if makedirs_fails E dir then Raise OSError
  else Ok {| files := files fs; directories := {[dir]} ∪ directories fs |}.

(** [with open(file, 'w') as f: f.write(text)]; [None] stands for the
    [IOError] of [open]. A failure of [f.write] once the file is open is
    not modelled. *)
Definition write_file (E : environment) (file text : string)
  (fs : filesystem) : option filesystem :=
  if open_fails E file then None
  else Some {| files := <[file := text]> (files fs);
               directories := directories fs |}.

End Os.

(** ** script/extract_links.py *)

Module ExtractLinks.

Import Urllib Bs4.

Section Script.

Variable V : validators.

(** [if normalized:] for an [Optional[str]]. *)
Definition truthy (o : option string) : bool :=
  match o with
  | Some s => nonempty s
  | None => false
  end.

Definition normalize_url (href base_url target_origin : string)
  : result (option string) :=
  if Py.is_empty href ||
     Py.startswith_any ["mailto:"; "tel:"; "javascript:"] href
  then Ok None
  else if Py.startswith "#" href then Ok None
  else
    absolute_url ← urljoin V base_url href ;
    parsed ← urlparse V absolute_url EmptyString ;
    target_parsed ← urlparse V target_origin EmptyString ;
    if negb (String.eqb (netloc parsed) (netloc target_parsed))
    then Ok None
    else
      let scheme := "https" in
      let fragment := EmptyString in
      let query := query parsed in
      let path :=
        if negb (String.eqb (Urllib.path parsed) "/")
        then Py.rstrip (Ascii.eqb "/") (Urllib.path parsed) else "/" in
      let normalized :=
        urlunparse scheme (netloc parsed) path EmptyString query fragment in
      Ok (Some normalized).

Definition count_internal_links (element : Tag)
  (base_url target_origin : string) : result Z :=
  for_each
    (fun count a_tag =>
       let href := get a_tag "href" in
       normalized ← normalize_url href base_url target_origin ;
       Ok (if truthy normalized then (count + 1)%Z else count))
    (find_all_href element "a") 0%Z.

(** [(element, reason, score)] *)
Definition candidate : Type := Tag * string * Z.

Definition element_of (c : candidate) : Tag := fst (fst c).
Definition reason_of (c : candidate) : string := snd (fst c).
Definition score_of (c : candidate) : Z := snd c.

Definition selector_strategies : list (selector * string) :=
  [ (SCompound [SName "nav"; SAttrEq "aria-label" "Navigation"],
     "nav with aria-label=" +:+ Py.quoted "Navigation");
    (SCompound [SName "nav"; SAttrEq "role" "navigation"],
     "nav with role=" +:+ Py.quoted "navigation");
    (SDescendant [SName "aside"] [SName "nav"],
     "nav inside aside element") ].

(** The first loop of [find_sidebar_container]: the matches of each
    selector, in the order of the selectors. *)
Definition selector_candidates (soup : Tag) : list candidate :=
  flat_map
    (fun '(sel, description) =>
       (fun el => (el, description, 0%Z)) <$> select soup sel)
    selector_strategies.

(** The body of the second loop: an element whose id or class holds one
    of the patterns is appended unless it is [in] the candidates. *)
Definition scan_step (candidates : list candidate) (tag : Tag)
  : list candidate :=
  let tag_id := get tag "id" in
  let tag_class := Py.join " " (get_list tag "class") in
  let combined := Py.lower (tag_id +:+ " " +:+ tag_class) in
  if Py.contains "sidebar" combined || Py.contains "md-nav" combined ||
     Py.contains "site-nav" combined
  then
    if negb (tag_in tag (element_of <$> candidates))
    then candidates ++
         [(tag,
           "element with id/class containing sidebar/nav pattern: " +:+
           (if nonempty tag_id then tag_id else Py.take 50 tag_class),
           0%Z)]
    else candidates
  else candidates.

Definition find_candidates (soup : Tag) : list candidate :=
  fold_left scan_step (find_all soup ["nav"; "aside"; "div"; "ul"])
    (selector_candidates soup).

Definition element_text (element : Tag) : string :=
  Py.lower (get_text element " ").

(** The body of the scoring loop. *)
Definition score_step (base_url target_origin : string)
  (scored_candidates : list candidate) (c : candidate)
  : result (list candidate) :=
  let element := element_of c in
  let reason := reason_of c in
  let element_text := element_text element in
  if Py.contains "on this page" element_text then Ok scored_candidates
  else
    let score := 0%Z in
    let score :=
      if Py.contains "navigation" element_text then (score + 100)%Z
      else score in
    link_count ← count_internal_links element base_url target_origin ;
    let score := (score + link_count)%Z in
    Ok (scored_candidates ++ [(element, reason, score)]).

Definition score_candidates (base_url target_origin : string)
  (candidates : list candidate) : result (list candidate) :=
  for_each (score_step base_url target_origin) candidates [].

(** [find_sidebar_container(soup, base_url, target_origin)]; the test
    [if not scored_candidates] is made on the sorted list, which is empty
    exactly when [scored_candidates] is. *)
Definition find_sidebar_container (soup : Tag)
  (base_url target_origin : string) : result (option Tag) :=
  let candidates := find_candidates soup in
  match candidates with
  | [] => Ok None
  | _ =>
      scored_candidates ← score_candidates base_url target_origin candidates ;
      match sort_reverse score_of scored_candidates with
      | [] => Ok None
      | (best_candidate, best_reason, best_score) :: _ => Ok (Some best_candidate)
      end
  end.

(** The harvest loop of [extract_sidebar_links]: the state is
    [(seen_urls, unique_links)]. *)
Definition harvest_step (start_url target_origin : string)
  (st : gset string * list string) (a_tag : Tag)
  : result (gset string * list string) :=
  let '(seen_urls, unique_links) := st in
  let href := get a_tag "href" in
  normalized ← normalize_url href start_url target_origin ;
  match normalized with
  | Some n =>
      if nonempty n && negb (bool_decide (n ∈ seen_urls))
      then Ok ({[n]} ∪ seen_urls, unique_links ++ [n])
      else Ok st
  | None => Ok st
  end.

Definition harvest (sidebar : Tag) (start_url target_origin : string)
  : result (list string) :=
  st ← for_each (harvest_step start_url target_origin)
         (find_all_href sidebar "a") (∅, []) ;
  Ok (snd st).

(** The text written to the output file: one link per line. *)
Definition output_text (unique_links : list string) : string :=
  fold_right (fun link acc => link +:+ String Py.newline acc) EmptyString
    unique_links.

(** [extract_sidebar_links(start_url, output_file)]: the exit status
    returned, or the exception that escapes, and the file system left
    behind. *)
Definition extract_sidebar_links (E : Os.environment)
  (start_url output_file : string) (fs : Os.filesystem)
  : result Z * Os.filesystem :=
  match urlparse V start_url EmptyString with
  | Raise e => (Raise e, fs)
  | Ok parsed_start =>
      let target_origin :=
        scheme parsed_start +:+ "://" +:+ netloc parsed_start in
      match Os.http_get E start_url with
      | Os.Timeout => (Ok 1%Z, fs)
      | Os.ConnectionError => (Ok 1%Z, fs)
      | Os.HTTPError => (Ok 1%Z, fs)
      | Os.RequestException => (Ok 1%Z, fs)
      | Os.Response content =>
          let soup := BeautifulSoup (Os.html_parser E content) in
          match find_sidebar_container soup start_url target_origin with
          | Raise e => (Raise e, fs)
          | Ok None => (Ok 1%Z, fs)
          | Ok (Some sidebar) =>
              match harvest sidebar start_url target_origin with
              | Raise e => (Raise e, fs)
              | Ok unique_links =>
                  let output_dir := Os.dirname output_file in
                  match
                    (if nonempty output_dir
                     then Os.makedirs E output_dir fs else Ok fs)
                  with
                  | Raise e => (Raise e, fs)
                  | Ok fs1 =>
                      match
                        Os.write_file E output_file
                          (output_text unique_links) fs1
                      with
                      | Some fs2 => (Ok 0%Z, fs2)
                      | None => (Ok 1%Z, fs1)
                      end
                  end
              end
          end
      end
  end.

End Script.

End ExtractLinks.

(** ** script/scrape_links.py *)

Module ScrapeLinks.

Import Urllib Bs4.

Section Script.

Variable V : validators.

Definition truthy : option string -> bool := ExtractLinks.truthy.

Definition normalize_url (href base_url : string) (strip_fragments : bool)
  : result (option string) :=
  if Py.is_empty href ||
     Py.startswith_any ["mailto:"; "tel:"; "javascript:"; "data:"] href
  then Ok None
  else if Py.startswith "#" href then Ok None
  else
    absolute_url ← urljoin V base_url href ;
    parsed ← urlparse V absolute_url EmptyString ;
    if negb (among (scheme parsed) ["http"; "https"]) then Ok None
    else
      let fragment :=
        if strip_fragments then EmptyString else fragment parsed in
      let path :=
        if negb (String.eqb (Urllib.path parsed) "/")
        then Py.rstrip (Ascii.eqb "/") (Urllib.path parsed) else "/" in
      let normalized :=
        urlunparse (scheme parsed) (netloc parsed) path EmptyString
          (query parsed) fragment in
      Ok (Some normalized).

Definition is_internal_url (url base_url : string) : result bool :=
  parsed_url ← urlparse V url EmptyString ;
  parsed_base ← urlparse V base_url EmptyString ;
  Ok (String.eqb (netloc parsed_url) (netloc parsed_base)).

Definition count_internal_links (element : Tag) (base_url : string)
  : result Z :=
  for_each
    (fun count a_tag =>
       let href := get a_tag "href" in
       normalized ← normalize_url href base_url true ;
       match normalized with
       | Some n =>
           if nonempty n
           then
             internal ← is_internal_url n base_url ;
             Ok (if internal : bool then (count + 1)%Z else count)
           else Ok count
       | None => Ok count
       end)
    (find_all_href element "a") 0%Z.

Definition candidate : Type := Tag * string * Z.

Definition element_of (c : candidate) : Tag := fst (fst c).
Definition reason_of (c : candidate) : string := snd (fst c).
Definition score_of (c : candidate) : Z := snd c.

Definition selector_strategies : list (selector * string) :=
  [ (SCompound [SName "nav"; SAttrEq "aria-label" "Navigation"],
     "nav with aria-label=" +:+ Py.quoted "Navigation");
    (SCompound [SName "nav"; SAttrContainsI "aria-label" "navigation"],
     "nav with aria-label containing navigation");
    (SCompound [SName "nav"; SAttrEq "role" "navigation"],
     "nav with role=" +:+ Py.quoted "navigation");
    (SDescendant [SName "aside"] [SName "nav"],
     "nav inside aside element");
    (SDescendant [SClass "sidebar"] [SName "nav"],
     "nav inside .sidebar");
    (SDescendant [SId "sidebar"] [SName "nav"],
     "nav inside #sidebar") ].

(** The first loop of [find_sidebar_container]; none of the selectors
    makes [select] raise, so the [except] branch is never taken. *)
Definition selector_candidates (soup : Tag) : list candidate :=
  flat_map
    (fun '(sel, description) =>
       (fun el => (el, description, 0%Z)) <$> select soup sel)
    selector_strategies.

Definition scan_step (candidates : list candidate) (tag : Tag)
  : list candidate :=
  let tag_id := get tag "id" in
  let tag_class := Py.join " " (get_list tag "class") in
  let combined := Py.lower (tag_id +:+ " " +:+ tag_class) in
  if Py.contains "sidebar" combined || Py.contains "sidenav" combined ||
     Py.contains "site-nav" combined
  then
    if negb (tag_in tag (element_of <$> candidates))
    then candidates ++
         [(tag,
           "element with sidebar/nav pattern: " +:+
           (if nonempty tag_id then tag_id else Py.take 50 tag_class),
           0%Z)]
    else candidates
  else candidates.

Definition find_candidates (soup : Tag) : list candidate :=
  fold_left scan_step (find_all soup ["nav"; "aside"; "div"; "ul"])
    (selector_candidates soup).

Definition element_text (element : Tag) : string :=
  Py.lower (get_text element " ").

Definition score_step (base_url : string)
  (scored_candidates : list candidate) (c : candidate)
  : result (list candidate) :=
  let element := element_of c in
  let reason := reason_of c in
  let element_text := element_text element in
  if Py.contains "on this page" element_text ||
     Py.contains "table of contents" element_text
  then Ok scored_candidates
  else
    let score := 0%Z in
    let score :=
      if Py.contains "navigation" element_text then (score + 100)%Z
      else score in
    link_count ← count_internal_links element base_url ;
    let score := (score + link_count)%Z in
    Ok (scored_candidates ++ [(element, reason, score)]).

Definition score_candidates (base_url : string)
  (candidates : list candidate) : result (list candidate) :=
  for_each (score_step base_url) candidates [].

Definition find_sidebar_container (soup : Tag) (base_url : string)
  : result (option Tag) :=
  let candidates := find_candidates soup in
  match candidates with
  | [] => Ok None
  | _ =>
      scored_candidates ← score_candidates base_url candidates ;
      match sort_reverse score_of scored_candidates with
      | [] => Ok None
      | (best_candidate, best_reason, best_score) :: _ => Ok (Some best_candidate)
      end
  end.

Definition fetch_page_html (E : Os.environment) (url : string)
  (use_js : bool) (wait_time : Z) : option string :=
  let rendered :=
    if use_js
    then if negb (Os.selenium_available E) then None
         else Os.selenium_page E url wait_time
    else None in
  match rendered with
  | Some html => Some html
  | None =>
      match Os.http_get E url with
      | Os.Response text => Some text
      | _ => None
      end
  end.

(** The harvest loop of [scrape_links]: the state is
    [(seen_urls, results)]. *)
Definition harvest_step (url scope : string) (include_text : bool)
  (st : gset string * list (string * string)) (a_tag : Tag)
  : result (gset string * list (string * string)) :=
  let '(seen_urls, results) := st in
  let href := get a_tag "href" in
  normalized ← normalize_url href url true ;
  match normalized with
  | None => Ok st
  | Some n =>
      if Py.is_empty n then Ok st
      else
        is_internal ← is_internal_url n url ;
        let skip :=
          if String.eqb scope "internal" || String.eqb scope "sidebar"
          then negb is_internal
          else if String.eqb scope "external" then is_internal
          else false in
        if skip : bool then Ok st
        else if negb (bool_decide (n ∈ seen_urls))
        then
          let link_text :=
            if include_text then get_text a_tag EmptyString
            else EmptyString in
          Ok ({[n]} ∪ seen_urls, results ++ [(n, link_text)])
        else Ok st
  end.

Definition harvest (container : Tag) (url scope : string)
  (include_text : bool) : result (list (string * string)) :=
  st ← for_each (harvest_step url scope include_text)
         (find_all_href container "a") (∅, []) ;
  Ok (snd st).

Definition output_text (include_text : bool)
  (results : list (string * string)) : string :=
  fold_right
    (fun '(link, text) acc =>
       if include_text && nonempty text
       then link +:+ " | " +:+ text +:+ String Py.newline acc
       else link +:+ String Py.newline acc)
    EmptyString results.

(** [scrape_links(url, output_file, scope, include_text, use_js,
    wait_time)] *)
Definition scrape_links (E : Os.environment) (url output_file scope : string)
  (include_text use_js : bool) (wait_time : Z) (fs : Os.filesystem)
  : result Z * Os.filesystem :=
  match fetch_page_html E url use_js wait_time with
  | None => (Ok 1%Z, fs)
  | Some html =>
      let soup := BeautifulSoup (Os.html_parser E html) in
      match
        (if String.eqb scope "sidebar"
         then find_sidebar_container soup url
         else Ok (Some soup))
      with
      | Raise e => (Raise e, fs)
      | Ok None => (Ok 1%Z, fs)
      | Ok (Some container) =>
          match harvest container url scope include_text with
          | Raise e => (Raise e, fs)
          | Ok results =>
              let output_dir := Os.dirname output_file in
              match
                (if nonempty output_dir
                 then Os.makedirs E output_dir fs else Ok fs)
              with
              | Raise e => (Raise e, fs)
              | Ok fs1 =>
                  match
                    Os.write_file E output_file
                      (output_text include_text results) fs1
                  with
                  | Some fs2 => (Ok 0%Z, fs2)
                  | None => (Ok 1%Z, fs1)
                  end
              end
          end
      end
  end.

End Script.

End ScrapeLinks.

(** * Properties *)

(** ** Loops and the sort *)

Section Loops.

Context {A S : Type}.

(** Two loop bodies that agree run alike. *)
Lemma for_each_ext (f g : S -> A -> result S) (l : list A) (s : S) :
  (forall s x, f s x = g s x) -> for_each f l s = for_each g l s.
Proof.
  intros Hfg. revert s. induction l as [|x r IH]; intros s; simpl; [done|].
  rewrite Hfg. destruct (g s x); simpl; auto.
Qed.

(** A loop whose every step returns, returns. *)
Lemma for_each_returns (f : S -> A -> result S) (l : list A) (s : S) :
  (forall s x, x ∈ l -> exists s', f s x = Ok s') ->
  exists s', for_each f l s = Ok s'.
Proof.
  revert s. induction l as [|x r IH]; intros s Hstep; simpl; [eauto|].
  destruct (Hstep s x) as [s1 ->]; [left|]. simpl.
  apply IH. intros s2 y Hy. apply Hstep. by right.
Qed.

End Loops.

Section Sort.

Context {A : Type} (key : A -> Z).

(** [x] is the first element of [l] whose key is maximal. *)
Definition first_max (l : list A) (x : A) : Prop :=
  exists pre post,
    l = pre ++ x :: post /\
    (forall y, y ∈ pre -> (key y < key x)%Z) /\
    (forall y, y ∈ post -> (key y <= key x)%Z).

Lemma insert_reverse_head (x : A) (l : list A) :
  hd_error (insert_reverse key x l) =
  match l with
  | [] => Some x
  | y :: _ => if (key y <=? key x)%Z then Some x else Some y
  end.
Proof. destruct l as [|y r]; simpl; [done|]. by destruct (key y <=? key x)%Z. Qed.

Lemma sort_reverse_nil (l : list A) : sort_reverse key l = [] -> l = [].
Proof.
  destruct l as [|x r]; [done|]. simpl. intros H.
  pose proof (insert_reverse_head x (sort_reverse key r)) as Hh.
  rewrite H in Hh. simpl in Hh.
  destruct (sort_reverse key r); [done|]. by destruct (key a <=? key x)%Z.
Qed.

(** The sorted list starts with the first element of maximal key. *)
Lemma sort_reverse_head (l : list A) (x : A) :
  hd_error (sort_reverse key l) = Some x -> first_max l x.
Proof.
  revert x. induction l as [|a r IH]; intros x; simpl; [done|].
  rewrite insert_reverse_head.
  destruct (sort_reverse key r) as [|y s] eqn:Hs.
  - intros [= ->]. apply sort_reverse_nil in Hs as ->.
    exists [], []. split_and!; [done|inversion 1|inversion 1].
  - destruct (IH y eq_refl) as (pre & post & -> & Hpre & Hpost).
    destruct (key y <=? key a)%Z eqn:Hle; intros [= <-].
    + apply Z.leb_le in Hle. exists [], (pre ++ y :: post).
      split_and!; [done|inversion 1|].
      intros z [Hz|Hz]%elem_of_app.
      * specialize (Hpre z Hz). lia.
      * apply elem_of_cons in Hz as [->|Hz]; [done|].
        specialize (Hpost z Hz). lia.
    + apply Z.leb_gt in Hle. exists (a :: pre), post.
      split_and!; [done| |done].
      intros z [->|Hz]%elem_of_cons; [done|]. by apply Hpre.
Qed.

Lemma insert_reverse_perm (x : A) (l : list A) :
  insert_reverse key x l ≡ₚ x :: l.
Proof.
  induction l as [|y r IH]; simpl; [done|].
  destruct (key y <=? key x)%Z; [done|]. rewrite IH. apply Permutation_swap.
Qed.

(** The sort rearranges the list. *)
Lemma sort_reverse_perm (l : list A) : sort_reverse key l ≡ₚ l.
Proof.
  induction l as [|x r IH]; simpl; [done|].
  by rewrite insert_reverse_perm, IH.
Qed.

Lemma first_max_elem (l : list A) (x : A) :
  first_max l x -> x ∈ l /\ forall y, y ∈ l -> (key y <= key x)%Z.
Proof.
  intros (pre & post & -> & Hpre & Hpost). split; [set_solver|].
  intros y [Hy|Hy]%elem_of_app.
  - specialize (Hpre y Hy). lia.
  - apply elem_of_cons in Hy as [->|Hy]; [done|]. by apply Hpost.
Qed.

End Sort.

(** ** Counting and scoring loops *)

Section Counting.

Context {A : Type} (test : A -> result bool).

Definition passes (a : A) : bool :=
  match test a with Ok true => true | _ => false end.

(** A loop that adds one for each element that passes counts them. *)
Lemma count_loop (l : list A) (c0 n : Z) :
  for_each (fun c a => v ← test a ; Ok (if v : bool then (c + 1)%Z else c)) l c0
    = Ok n ->
  n = (c0 + Z.of_nat (length (filter (fun a => passes a = true) l)))%Z.
Proof.
  revert c0. induction l as [|a r IH]; intros c0; simpl.
  - intros [= <-]. lia.
  - destruct (test a) as [[]|e] eqn:Ht; simpl; [| |done].
    + intros H%IH. rewrite filter_cons_True by (unfold passes; by rewrite Ht).
      rewrite length_cons. lia.
    + intros H%IH. rewrite filter_cons_False; [done|].
      unfold passes. by rewrite Ht.
Qed.

Lemma count_loop_returns (l : list A) (c0 : Z) :
  (forall a, a ∈ l -> exists v, test a = Ok v) ->
  exists n, for_each (fun c a => v ← test a ; Ok (if v : bool then (c + 1)%Z else c))
              l c0 = Ok n.
Proof.
  intros Hl. apply for_each_returns. intros c a Ha.
  destruct (Hl a Ha) as [v ->]. simpl. eauto.
Qed.

End Counting.

Section Scoring.

Import Bs4.

Context (excluded : Tag -> bool) (bonus : Tag -> Z) (count : Tag -> result Z).

(** The common shape of the two scoring loops. *)
Definition scoring_step (scored : list (Tag * string * Z))
  (c : Tag * string * Z) : result (list (Tag * string * Z)) :=
  if excluded c.1.1 then Ok scored
  else n ← count c.1.1 ; Ok (scored ++ [(c.1.1, c.1.2, (bonus c.1.1 + n)%Z)]).

(** [s] is the scored form of the candidate [c]. *)
Definition scored_as (c s : Tag * string * Z) : Prop :=
  s.1 = c.1 /\ exists n, count c.1.1 = Ok n /\ s.2 = (bonus c.1.1 + n)%Z.

Definition survives (c : Tag * string * Z) : Prop := excluded c.1.1 = false.

#[global] Instance survives_dec c : Decision (survives c).
Proof. unfold survives. apply _. Defined.

Lemma scoring_loop (cands acc scored : list (Tag * string * Z)) :
  for_each scoring_step cands acc = Ok scored ->
  exists new, scored = acc ++ new /\
              Forall2 scored_as (filter survives cands) new.
Proof.
  revert acc. induction cands as [|c r IH]; intros acc; cbn [for_each].
  - intros [= <-]. exists []. by rewrite app_nil_r.
  - destruct (scoring_step acc c) as [acc'|e] eqn:Hstep; [|done].
    cbn [mbind result_bind]. intros (new & -> & Hnew)%IH.
    unfold scoring_step in Hstep. destruct (excluded c.1.1) eqn:Hex.
    + injection Hstep as <-. exists new. split; [done|].
      rewrite filter_cons_False; [done|]. unfold survives. by rewrite Hex.
    + destruct (count c.1.1) as [n|e] eqn:Hn; [|done].
      injection Hstep as <-. eexists (_ :: new).
      split; [by rewrite <- app_assoc|].
      rewrite filter_cons_True by done. constructor; [|done].
      split; [by destruct c as [[??]?]|]. by exists n.
Qed.

Lemma scoring_loop_returns (cands acc : list (Tag * string * Z)) :
  (forall c, c ∈ cands -> survives c -> exists n, count c.1.1 = Ok n) ->
  exists scored, for_each scoring_step cands acc = Ok scored.
Proof.
  intros Hc. apply for_each_returns. intros s c Hin. unfold scoring_step.
  destruct (excluded c.1.1) eqn:Hex; [eauto|].
  destruct (Hc c Hin Hex) as [n ->]. simpl. eauto.
Qed.

(** The outcome of scoring, sorting and taking the head. *)
Definition pick (cands : list (Tag * string * Z)) : result (option Tag) :=
  match cands with
  | [] => Ok None
  | _ =>
      scored ← for_each scoring_step cands [] ;
      match sort_reverse snd scored with
      | [] => Ok None
      | (best, _, _) :: _ => Ok (Some best)
      end
  end.

Lemma pick_some (cands : list (Tag * string * Z)) (best : Tag) :
  pick cands = Ok (Some best) ->
  exists scored b,
    for_each scoring_step cands [] = Ok scored /\
    Forall2 scored_as (filter survives cands) scored /\
    b.1.1 = best /\ first_max snd scored b.
Proof.
  unfold pick. destruct cands as [|c0 r]; [done|].
  destruct (for_each scoring_step (c0 :: r) []) as [scored|e] eqn:Hrun;
    [|done].
  cbn [mbind result_bind].
  destruct (sort_reverse snd scored) as [|[[b rs] sc] rest] eqn:Hsort; [done|].
  intros [= <-]. exists scored, (b, rs, sc).
  destruct (scoring_loop _ _ _ Hrun) as (new & -> & Hnew).
  split_and!; [done|done|done|].
  apply sort_reverse_head. by rewrite Hsort.
Qed.

Lemma pick_none (cands : list (Tag * string * Z)) :
  pick cands = Ok None <-> for_each scoring_step cands [] = Ok [].
Proof.
  unfold pick. destruct cands as [|c0 r]; [done|].
  destruct (for_each scoring_step (c0 :: r) []) as [scored|e] eqn:Hrun;
    [|done].
  cbn [mbind result_bind].
  destruct (sort_reverse snd scored) as [|[[b rs] sc] rest] eqn:Hsort.
  - by apply sort_reverse_nil in Hsort as ->.
  - split; [done|]. intros [= ->]. done.
Qed.

Lemma pick_returns (cands scored : list (Tag * string * Z)) :
  for_each scoring_step cands [] = Ok scored -> scored <> [] ->
  exists best, pick cands = Ok (Some best).
Proof.
  intros Hrun Hne. unfold pick. destruct cands as [|c0 r].
  - simpl in Hrun. by inversion Hrun; subst.
  - rewrite Hrun. cbn [mbind result_bind].
    destruct (sort_reverse snd scored) as [|[[b rs] sc] rest] eqn:Hsort;
      [by apply sort_reverse_nil in Hsort|eauto].
Qed.

End Scoring.

Section Stability.

Context {A : Type} (key : A -> Z).

Lemma insert_reverse_filter (k : Z) (x : A) (l : list A) :
  filter (fun y => key y = k) (insert_reverse key x l) =
  filter (fun y => key y = k) (x :: l).
Proof.
  induction l as [|y r IH]; simpl; [done|].
  destruct (key y <=? key x)%Z eqn:Hle; [done|].
  apply Z.leb_gt in Hle.
  rewrite !filter_cons. rewrite IH. rewrite filter_cons.
  destruct (decide (key y = k)), (decide (key x = k)); try done. lia.
Qed.

(** The sort is stable: the elements of any one key keep their order. *)
Lemma sort_reverse_stable (k : Z) (l : list A) :
  filter (fun y => key y = k) (sort_reverse key l) =
  filter (fun y => key y = k) l.
Proof.
  induction l as [|x r IH]; simpl; [done|].
  by rewrite insert_reverse_filter, !filter_cons, IH.
Qed.

Lemma insert_reverse_sorted (x : A) (l : list A) :
  Sorted (fun a b => (key b <= key a)%Z) l ->
  Sorted (fun a b => (key b <= key a)%Z) (insert_reverse key x l).
Proof.
  induction 1 as [|y r Hr IH Hy]; simpl; [by repeat constructor|].
  destruct (key y <=? key x)%Z eqn:Hle.
  - apply Z.leb_le in Hle. by repeat constructor.
  - apply Z.leb_gt in Hle. constructor; [done|].
    destruct r as [|z r']; simpl; [constructor; lia|].
    destruct (key z <=? key x)%Z; constructor; [lia|].
    by inversion Hy.
Qed.

(** The sorted list is in descending order of key. *)
Lemma sort_reverse_sorted (l : list A) :
  Sorted (fun a b => (key b <= key a)%Z) (sort_reverse key l).
Proof.
  induction l as [|x r IH]; simpl; [constructor|].
  by apply insert_reverse_sorted.
Qed.

End Stability.

(** ** The sidebar scorer of extract_links.py *)

Module ExtractFacts.

Import Urllib Bs4 ExtractLinks.

Section Facts.

Context (V : validators) (base_url target_origin : string).

(** The exclusion test and the bonus, in the words of the heuristic. *)
Definition excluded (el : Tag) : bool :=
  Py.contains "on this page" (element_text el).

Definition navigation_bonus (el : Tag) : Z :=
  if Py.contains "navigation" (element_text el) then 100%Z else 0%Z.

(** An anchor whose href normalizes to an internal link. *)
Definition internal_link (a : Tag) : bool :=
  match normalize_url V (get a "href") base_url target_origin with
  | Ok (Some n) => nonempty n
  | _ => false
  end.

Definition internal_links (el : Tag) : list Tag :=
  filter (fun a => internal_link a = true) (find_all_href el "a").

Lemma extract_count_internal_links_spec (el : Tag) (n : Z) :
  count_internal_links V el base_url target_origin = Ok n ->
  n = Z.of_nat (length (internal_links el)).
Proof.
  unfold count_internal_links. intros H.
  rewrite (for_each_ext _
    (fun c a =>
       v ← (o ← normalize_url V (get a "href") base_url target_origin ;
            Ok (truthy o)) ;
       Ok (if v : bool then (c + 1)%Z else c))) in H.
  - apply count_loop in H. rewrite H, Z.add_0_l. do 2 f_equal.
    unfold internal_links. apply list_filter_iff. intros a.
    unfold passes, internal_link.
    destruct (normalize_url V (get a "href") base_url target_origin)
      as [[s|]|e]; simpl; [|done..].
    by destruct (nonempty s).
  - intros c a. cbv zeta.
    by destruct (normalize_url V (get a "href") base_url target_origin).
Qed.

Lemma extract_count_internal_links_returns (el : Tag) :
  (forall a, a ∈ find_all_href el "a" ->
     exists o, normalize_url V (get a "href") base_url target_origin = Ok o) ->
  exists n, count_internal_links V el base_url target_origin = Ok n.
Proof.
  intros Hl. apply for_each_returns. intros c a Ha. cbv zeta.
  destruct (Hl a Ha) as [o ->]. simpl. eauto.
Qed.

Lemma extract_find_sidebar_container_pick (soup : Tag) :
  find_sidebar_container V soup base_url target_origin =
  pick excluded navigation_bonus
    (fun el => count_internal_links V el base_url target_origin)
    (find_candidates soup).
Proof. reflexivity. Qed.

Lemma extract_score_candidates_loop (cands : list candidate) :
  score_candidates V base_url target_origin cands =
  for_each
    (scoring_step excluded navigation_bonus
       (fun el => count_internal_links V el base_url target_origin))
    cands [].
Proof. reflexivity. Qed.

End Facts.

End ExtractFacts.

Section Selection.

Import Bs4.

Context (excluded : Tag -> bool) (bonus : Tag -> Z) (count : Tag -> result Z).
Context (links : Tag -> Z).
Hypothesis count_links : forall el n, count el = Ok n -> n = links el.

Lemma scored_as_fst (cands scored : list (Tag * string * Z)) :
  Forall2 (scored_as bonus count) cands scored ->
  fst <$> scored = fst <$> cands.
Proof.
  induction 1 as [|c s cs ss [Hfst _] _ IH]; [done|].
  rewrite !fmap_cons. by f_equal.
Qed.

Lemma scored_as_elem (cands scored : list (Tag * string * Z)) s :
  Forall2 (scored_as bonus count) (filter (survives excluded) cands) scored ->
  s ∈ scored ->
  excluded s.1.1 = false /\ s.2 = (bonus s.1.1 + links s.1.1)%Z /\
  exists c, c ∈ cands /\ c.1 = s.1.
Proof.
  intros HF Hs. apply list_elem_of_lookup_1 in Hs as [i Hi].
  destruct (Forall2_lookup_r _ _ _ _ _ HF Hi)
    as (c & Hc & Hfst & n & Hn & Hsc).
  apply list_elem_of_lookup_2 in Hc.
  apply list_elem_of_filter in Hc as [Hsurv Hc].
  rewrite Hfst. split_and!; [done| |by exists c].
  rewrite Hsc. by rewrite (count_links _ _ Hn).
Qed.

(** What the scorer returns: the survivors in the order of the
    candidates, each with the score of the heuristic, and the first of
    those with the greatest score. *)
Lemma pick_spec (cands : list (Tag * string * Z)) (best : Tag) :
  pick excluded bonus count cands = Ok (Some best) ->
  exists scored pre b post,
    for_each (scoring_step excluded bonus count) cands [] = Ok scored /\
    fst <$> scored = fst <$> filter (survives excluded) cands /\
    (forall s, s ∈ scored ->
       excluded s.1.1 = false /\ s.2 = (bonus s.1.1 + links s.1.1)%Z) /\
    scored = pre ++ b :: post /\ b.1.1 = best /\
    (forall y, y ∈ pre -> (y.2 < b.2)%Z) /\
    (forall y, y ∈ post -> (y.2 <= b.2)%Z).
Proof.
  intros (scored & b & Hrun & HF & Hb & pre & post & -> & Hpre & Hpost)%pick_some.
  exists (pre ++ b :: post), pre, b, post.
  split_and!; [done|by eapply scored_as_fst| |done..].
  intros s Hs. destruct (scored_as_elem _ _ s HF Hs) as (? & ? & _). done.
Qed.

End Selection.

(** ** The sidebar scorer of scrape_links.py *)

Module ScrapeFacts.

Import Urllib Bs4 ScrapeLinks.

Section Facts.

Context (V : validators) (base_url : string).

Definition excluded (el : Tag) : bool :=
  Py.contains "on this page" (element_text el) ||
  Py.contains "table of contents" (element_text el).

Definition navigation_bonus (el : Tag) : Z :=
  if Py.contains "navigation" (element_text el) then 100%Z else 0%Z.

(** An anchor whose href normalizes to an internal link. *)
Definition internal_link (a : Tag) : bool :=
  match normalize_url V (get a "href") base_url true with
  | Ok (Some n) =>
      nonempty n &&
      match is_internal_url V n base_url with
      | Ok internal => internal
      | Raise _ => false
      end
  | _ => false
  end.

Definition internal_links (el : Tag) : list Tag :=
  filter (fun a => internal_link a = true) (find_all_href el "a").

(** The test of [count_internal_links] as one call. *)
Definition counted (a : Tag) : result bool :=
  normalized ← normalize_url V (get a "href") base_url true ;
  match normalized with
  | Some n => if nonempty n then is_internal_url V n base_url else Ok false
  | None => Ok false
  end.

Lemma scrape_count_internal_links_spec (el : Tag) (n : Z) :
  count_internal_links V el base_url = Ok n ->
  n = Z.of_nat (length (internal_links el)).
Proof.
  unfold count_internal_links. intros H.
  rewrite (for_each_ext _
    (fun c a => v ← counted a ; Ok (if v : bool then (c + 1)%Z else c))) in H.
  - apply count_loop in H. rewrite H, Z.add_0_l. do 2 f_equal.
    unfold internal_links. apply list_filter_iff. intros a.
    unfold passes, internal_link, counted.
    destruct (normalize_url V (get a "href") base_url true)
      as [[s|]|e]; simpl; [|done..].
    destruct (nonempty s); simpl; [|done].
    by destruct (is_internal_url V s base_url) as [[]|].
  - intros c a. unfold counted. cbv zeta.
    destruct (normalize_url V (get a "href") base_url true)
      as [[s|]|e]; simpl; [|done..].
    destruct (nonempty s); simpl; [|done].
    by destruct (is_internal_url V s base_url) as [[]|].
Qed.

Lemma scrape_find_sidebar_container_pick (soup : Tag) :
  find_sidebar_container V soup base_url =
  pick excluded navigation_bonus
    (fun el => count_internal_links V el base_url)
    (find_candidates soup).
Proof. reflexivity. Qed.

Lemma scrape_score_candidates_loop (cands : list candidate) :
  score_candidates V base_url cands =
  for_each
    (scoring_step excluded navigation_bonus
       (fun el => count_internal_links V el base_url))
    cands [].
Proof. reflexivity. Qed.

End Facts.

End ScrapeFacts.

(** ** Sample documents *)

Module Samples.

Import Urllib Bs4.

(** Validators that accept every network location. *)
Definition V0 : validators :=
  {| bracketed_netloc_ok := fun _ => true; nfkc_netloc_ok := fun _ => true |}.

Definition attrs (l : list (string * string)) (classes : list string) : Attrs :=
  {| single := list_to_map l;
     multi := match classes with
              | [] => ∅
              | _ => {[ "class" := classes ]}
              end |}.

(** [<a href="href">text</a>] *)
Definition anchor (href text : string) : node :=
  Element "a" (attrs [("href", href)] []) [Text true text].

(** [n] anchors with the hrefs [prefix], [prefix ++ "x"], ... *)
Definition anchors (n : nat) (prefix : string) : list node :=
  (fun i => anchor (prefix +:+ String.concat "" (replicate i "x")) "page")
    <$> seq 0 n.

(** [<nav aria-label="Navigation">Navigation</nav>] with five internal
    links, followed by [<div class="sidebar">] with fifty. *)
Definition doc_precedence : Tag :=
  BeautifulSoup
    [ Element "html" (attrs [] [])
        [ Element "nav" (attrs [("aria-label", "Navigation")] [])
            (Text true " Navigation " :: anchors 5 "/guide/");
          Element "div" (attrs [] ["sidebar"]) (anchors 50 "/api/") ] ].

(** The [Tag] of an element at a position. *)
Definition tag_at (pos : list nat) (n : node) : Tag :=
  match n with
  | Element name a contents =>
      {| tag_pos := pos; tag_name := name; tag_attrs := a;
         tag_contents := contents |}
  | Text _ _ => BeautifulSoup []
  end.

(** A table of contents that matches a selector and the scan, next to a
    plain sidebar. *)
Definition toc_nav : node :=
  Element "nav" (attrs [("role", "navigation")] ["site-nav"])
    (Text true "Navigation" :: Text true " On This Page " ::
     anchors 7 "/toc/").

Definition toc_sidebar : node :=
  Element "ul" (attrs [("id", "sidebar")] []) (anchors 2 "/s/").

Definition doc_toc : Tag := BeautifulSoup [toc_nav; toc_sidebar].

(** Two sidebars with the same score, after one with a lower score. *)
Definition tie_first : node :=
  Element "div" (attrs [] ["sidebar"]) (anchors 3 "/a/").

Definition doc_tie : Tag :=
  BeautifulSoup
    [ Element "div" (attrs [("id", "left-sidebar")] []) (anchors 1 "/z/");
      tie_first;
      Element "ul" (attrs [] ["sidebar"; "second"]) (anchors 3 "/b/") ].

(** One [nav] that matches two selectors. *)
Definition doc_twice : Tag :=
  BeautifulSoup
    [ Element "nav"
        (attrs [("aria-label", "Navigation"); ("role", "navigation")] [])
        [anchor "/a" "A"] ].

(** Anchors that repeat a URL under different spellings. *)
Definition repeats_sidebar : node :=
  Element "div" (attrs [] ["sidebar"])
    [ anchor "/docs/intro/" "Intro";
      anchor "/docs/setup" "Setup";
      anchor "/docs/intro#top" "Introduction";
      anchor "https://elsewhere.example/x" "Elsewhere";
      anchor "/docs/intro" "Again" ].

Definition doc_repeats : Tag := BeautifulSoup [repeats_sidebar].

(** Surroundings in which the fetch has the outcome [o], the parser
    yields [contents], no browser is installed and the disk works. *)
Definition env (o : Os.http_outcome) (contents : list node) : Os.environment :=
  {| Os.http_get := fun _ => o;
     Os.selenium_available := false;
     Os.selenium_page := fun _ _ => None;
     Os.html_parser := fun _ => contents;
     Os.makedirs_fails := fun _ => false;
     Os.open_fails := fun _ => false |}.

(** A file system with one file. *)
Definition fs0 : Os.filesystem :=
  {| Os.files := {[ "output/links.txt" := "https://old.example/" ]};
     Os.directories := {[ "output" ]} |}.

End Samples.

(** ** C1 to C3: scoring and selection *)

Section ScorerClaims.

Import Urllib Bs4.

(** The navigation candidate of 105 points beats the one of 50. *)
Lemma precedence_105_50 (score : Tag * string * Z -> Z) (links : Tag -> nat)
  (nav : Tag -> bool) (scored : list (Tag * string * Z))
  (b c1 c2 : Tag * string * Z) :
  (forall s, s ∈ scored ->
     s.2 = ((if nav s.1.1 then 100 else 0) + Z.of_nat (links s.1.1))%Z) ->
  b ∈ scored -> (forall s, s ∈ scored -> (s.2 <= b.2)%Z) ->
  c1 ∈ scored -> c2 ∈ scored ->
  nav c1.1.1 = true -> links c1.1.1 = 5 ->
  nav c2.1.1 = false -> links c2.1.1 = 50 ->
  c1.2 = 105%Z /\ c2.2 = 50%Z /\ b.1.1 <> c2.1.1.
Proof.
  intros Hscore Hb Hmax H1 H2 Hn1 Hl1 Hn2 Hl2.
  pose proof (Hscore _ H1) as E1. rewrite Hn1, Hl1 in E1.
  pose proof (Hscore _ H2) as E2. rewrite Hn2, Hl2 in E2.
  split_and!; [done|done|]. intros Heq.
  pose proof (Hscore _ Hb) as Eb. rewrite Heq, Hn2, Hl2 in Eb.
  specialize (Hmax _ H1). lia.
Qed.

End ScorerClaims.

(** C1. In both scripts every surviving candidate is scored 100 (when its
    lower-cased text contains "navigation") plus the number of anchors below
    it whose href normalizes to an internal link, and
    [find_sidebar_container] returns a survivor of maximal score, whenever
    there is a survivor; so a "navigation" candidate with 5 internal links
    (105) is returned rather than one without the word and with 50 links. *)
Theorem C1_score_and_selection (V : Urllib.validators) :
  (forall soup base_url target_origin,
     (forall best,
        ExtractLinks.find_sidebar_container V soup base_url target_origin
          = Ok (Some best) ->
        exists scored b,
          ExtractLinks.score_candidates V base_url target_origin
            (ExtractLinks.find_candidates soup) = Ok scored /\
          (forall s, s ∈ scored ->
             ExtractLinks.score_of s =
             ((if Py.contains "navigation"
                    (ExtractLinks.element_text (ExtractLinks.element_of s))
               then 100 else 0) +
              Z.of_nat (length (ExtractFacts.internal_links V base_url
                                  target_origin (ExtractLinks.element_of s))))%Z) /\
          b ∈ scored /\ ExtractLinks.element_of b = best /\
          (forall s, s ∈ scored ->
             (ExtractLinks.score_of s <= ExtractLinks.score_of b)%Z) /\
          (forall c1 c2, c1 ∈ scored -> c2 ∈ scored ->
             Py.contains "navigation"
               (ExtractLinks.element_text (ExtractLinks.element_of c1)) = true ->
             length (ExtractFacts.internal_links V base_url target_origin
                       (ExtractLinks.element_of c1)) = 5 ->
             Py.contains "navigation"
               (ExtractLinks.element_text (ExtractLinks.element_of c2)) = false ->
             length (ExtractFacts.internal_links V base_url target_origin
                       (ExtractLinks.element_of c2)) = 50 ->
             ExtractLinks.score_of c1 = 105%Z /\
             ExtractLinks.score_of c2 = 50%Z /\
             best <> ExtractLinks.element_of c2)) /\
     (forall scored,
        ExtractLinks.score_candidates V base_url target_origin
          (ExtractLinks.find_candidates soup) = Ok scored ->
        scored <> [] ->
        exists best,
          ExtractLinks.find_sidebar_container V soup base_url target_origin
            = Ok (Some best)))
  /\
  (forall soup base_url,
     (forall best,
        ScrapeLinks.find_sidebar_container V soup base_url = Ok (Some best) ->
        exists scored b,
          ScrapeLinks.score_candidates V base_url
            (ScrapeLinks.find_candidates soup) = Ok scored /\
          (forall s, s ∈ scored ->
             ScrapeLinks.score_of s =
             ((if Py.contains "navigation"
                    (ScrapeLinks.element_text (ScrapeLinks.element_of s))
               then 100 else 0) +
              Z.of_nat (length (ScrapeFacts.internal_links V base_url
                                  (ScrapeLinks.element_of s))))%Z) /\
          b ∈ scored /\ ScrapeLinks.element_of b = best /\
          (forall s, s ∈ scored ->
             (ScrapeLinks.score_of s <= ScrapeLinks.score_of b)%Z) /\
          (forall c1 c2, c1 ∈ scored -> c2 ∈ scored ->
             Py.contains "navigation"
               (ScrapeLinks.element_text (ScrapeLinks.element_of c1)) = true ->
             length (ScrapeFacts.internal_links V base_url
                       (ScrapeLinks.element_of c1)) = 5 ->
             Py.contains "navigation"
               (ScrapeLinks.element_text (ScrapeLinks.element_of c2)) = false ->
             length (ScrapeFacts.internal_links V base_url
                       (ScrapeLinks.element_of c2)) = 50 ->
             ScrapeLinks.score_of c1 = 105%Z /\
             ScrapeLinks.score_of c2 = 50%Z /\
             best <> ScrapeLinks.element_of c2)) /\
     (forall scored,
        ScrapeLinks.score_candidates V base_url
          (ScrapeLinks.find_candidates soup) = Ok scored ->
        scored <> [] ->
        exists best,
          ScrapeLinks.find_sidebar_container V soup base_url = Ok (Some best))).
Proof.
  split.
  - intros soup base_url target_origin. split.
    + intros best Hfind. rewrite ExtractFacts.extract_find_sidebar_container_pick in Hfind.
      apply (pick_spec _ _ _ _
               (ExtractFacts.extract_count_internal_links_spec V base_url target_origin))
        in Hfind as (scored & pre & b & post & Hrun & _ & Hsc & -> & Hb & Hpre & Hpost).
      assert (Hmax : forall s, s ∈ pre ++ b :: post -> (s.2 <= b.2)%Z).
      { intros s [Hs|Hs]%elem_of_app; [specialize (Hpre s Hs); lia|].
        apply elem_of_cons in Hs as [->|Hs]; [done|by apply Hpost]. }
      assert (Hin : b ∈ pre ++ b :: post) by (apply elem_of_app; right; left).
      exists (pre ++ b :: post), b.
      split_and!; [done|by intros s Hs; apply Hsc|done|done|done|].
      intros c1 c2 H1 H2 Hn1 Hl1 Hn2 Hl2. rewrite <- Hb.
      apply (precedence_105_50 snd
               (fun el => length (ExtractFacts.internal_links V base_url
                                    target_origin el))
               (fun el => Py.contains "navigation" (ExtractLinks.element_text el))
               (pre ++ b :: post)); try done.
      by intros s Hs; apply Hsc.
    + intros scored Hrun Hne. rewrite ExtractFacts.extract_find_sidebar_container_pick.
      by eapply pick_returns.
  - intros soup base_url. split.
    + intros best Hfind. rewrite ScrapeFacts.scrape_find_sidebar_container_pick in Hfind.
      apply (pick_spec _ _ _ _ (ScrapeFacts.scrape_count_internal_links_spec V base_url))
        in Hfind as (scored & pre & b & post & Hrun & _ & Hsc & -> & Hb & Hpre & Hpost).
      assert (Hmax : forall s, s ∈ pre ++ b :: post -> (s.2 <= b.2)%Z).
      { intros s [Hs|Hs]%elem_of_app; [specialize (Hpre s Hs); lia|].
        apply elem_of_cons in Hs as [->|Hs]; [done|by apply Hpost]. }
      assert (Hin : b ∈ pre ++ b :: post) by (apply elem_of_app; right; left).
      exists (pre ++ b :: post), b.
      split_and!; [done|by intros s Hs; apply Hsc|done|done|done|].
      intros c1 c2 H1 H2 Hn1 Hl1 Hn2 Hl2. rewrite <- Hb.
      apply (precedence_105_50 snd
               (fun el => length (ScrapeFacts.internal_links V base_url el))
               (fun el => Py.contains "navigation" (ScrapeLinks.element_text el))
               (pre ++ b :: post)); try done.
      by intros s Hs; apply Hsc.
    + intros scored Hrun Hne. rewrite ScrapeFacts.scrape_find_sidebar_container_pick.
      by eapply pick_returns.
Qed.

(** The [nav] of [doc_precedence]. *)
Definition nav_of_precedence : option Bs4.Tag :=
  head (Bs4.find_all Samples.doc_precedence ["nav"]).

Lemma C1_score_and_selection_witness :
  (ExtractLinks.find_sidebar_container Samples.V0 Samples.doc_precedence
     "https://docs.example/" "https://docs.example" = Ok nav_of_precedence /\
   exists scored b,
     ExtractLinks.score_candidates Samples.V0 "https://docs.example/"
       "https://docs.example"
       (ExtractLinks.find_candidates Samples.doc_precedence) = Ok scored /\
     b ∈ scored /\ Some (ExtractLinks.element_of b) = nav_of_precedence /\
     (forall s, s ∈ scored ->
        (ExtractLinks.score_of s <= ExtractLinks.score_of b)%Z)) /\
  (ScrapeLinks.find_sidebar_container Samples.V0 Samples.doc_precedence
     "https://docs.example/" = Ok nav_of_precedence /\
   exists scored b,
     ScrapeLinks.score_candidates Samples.V0 "https://docs.example/"
       (ScrapeLinks.find_candidates Samples.doc_precedence) = Ok scored /\
     b ∈ scored /\ Some (ScrapeLinks.element_of b) = nav_of_precedence /\
     (forall s, s ∈ scored ->
        (ScrapeLinks.score_of s <= ScrapeLinks.score_of b)%Z)).
Proof.
  destruct (C1_score_and_selection Samples.V0) as [HE HS].
  assert (E1 : ExtractLinks.find_sidebar_container Samples.V0
                 Samples.doc_precedence "https://docs.example/"
                 "https://docs.example" = Ok nav_of_precedence)
    by (vm_compute; reflexivity).
  assert (E2 : ScrapeLinks.find_sidebar_container Samples.V0
                 Samples.doc_precedence "https://docs.example/"
                 = Ok nav_of_precedence)
    by (vm_compute; reflexivity).
  split.
  - split; [exact E1|].
    destruct nav_of_precedence as [nav|] eqn:Hnav; [|discriminate Hnav].
    destruct (proj1 (HE _ _ _) nav E1) as (scored & b & H1 & _ & H3 & H4 & H5 & _).
    exists scored, b. rewrite H4. auto.
  - split; [exact E2|].
    destruct nav_of_precedence as [nav|] eqn:Hnav; [|discriminate Hnav].
    destruct (proj1 (HS _ _) nav E2) as (scored & b & H1 & _ & H3 & H4 & H5 & _).
    exists scored, b. rewrite H4. auto.
Defined.

(** C2. In both scripts a candidate whose lower-cased text contains "on
    this page" (in scrape_links.py also "table of contents") is left out of
    the scored candidates and is never the element that
    [find_sidebar_container] returns, whatever its links and whether or not
    its text contains "navigation". *)
Theorem C2_excluded_never_selected (V : Urllib.validators) :
  (forall soup base_url target_origin c,
     c ∈ ExtractLinks.find_candidates soup ->
     Py.contains "on this page"
       (ExtractLinks.element_text (ExtractLinks.element_of c)) = true ->
     ExtractLinks.find_sidebar_container V soup base_url target_origin
       <> Ok (Some (ExtractLinks.element_of c)) /\
     forall scored s,
       ExtractLinks.score_candidates V base_url target_origin
         (ExtractLinks.find_candidates soup) = Ok scored ->
       s ∈ scored -> ExtractLinks.element_of s <> ExtractLinks.element_of c)
  /\
  (forall soup base_url c,
     c ∈ ScrapeLinks.find_candidates soup ->
     Py.contains "on this page"
       (ScrapeLinks.element_text (ScrapeLinks.element_of c)) = true \/
     Py.contains "table of contents"
       (ScrapeLinks.element_text (ScrapeLinks.element_of c)) = true ->
     ScrapeLinks.find_sidebar_container V soup base_url
       <> Ok (Some (ScrapeLinks.element_of c)) /\
     forall scored s,
       ScrapeLinks.score_candidates V base_url
         (ScrapeLinks.find_candidates soup) = Ok scored ->
       s ∈ scored -> ScrapeLinks.element_of s <> ScrapeLinks.element_of c).
Proof.
  split.
  - intros soup base_url target_origin c _ Hex.
    assert (Hscored : forall scored s,
      ExtractLinks.score_candidates V base_url target_origin
        (ExtractLinks.find_candidates soup) = Ok scored ->
      s ∈ scored -> ExtractLinks.element_of s <> ExtractLinks.element_of c).
    { intros scored s Hrun Hs Heq.
      rewrite ExtractFacts.extract_score_candidates_loop in Hrun.
      apply scoring_loop in Hrun as (new & -> & HF).
      destruct (scored_as_elem _ _ _ _
                  (ExtractFacts.extract_count_internal_links_spec V base_url target_origin)
                  _ _ s HF Hs) as (Hs' & _).
      unfold ExtractLinks.element_of in Heq, Hex. rewrite Heq in Hs'.
      unfold ExtractFacts.excluded in Hs'. congruence. }
    split; [|done].
    intros Hfind. rewrite ExtractFacts.extract_find_sidebar_container_pick in Hfind.
    apply pick_some in Hfind as (scored & b & Hrun & _ & Hb & Hmax).
    apply first_max_elem in Hmax as [Hin _].
    by apply (Hscored scored b).
  - intros soup base_url c _ Hex.
    assert (Hscored : forall scored s,
      ScrapeLinks.score_candidates V base_url
        (ScrapeLinks.find_candidates soup) = Ok scored ->
      s ∈ scored -> ScrapeLinks.element_of s <> ScrapeLinks.element_of c).
    { intros scored s Hrun Hs Heq.
      rewrite ScrapeFacts.scrape_score_candidates_loop in Hrun.
      apply scoring_loop in Hrun as (new & -> & HF).
      destruct (scored_as_elem _ _ _ _
                  (ScrapeFacts.scrape_count_internal_links_spec V base_url)
                  _ _ s HF Hs) as (Hs' & _).
      unfold ScrapeLinks.element_of in Heq. rewrite Heq in Hs'.
      unfold ScrapeFacts.excluded in Hs'.
      apply orb_false_iff in Hs' as [? ?].
      unfold ScrapeLinks.element_of in Hex. destruct Hex; congruence. }
    split; [|done].
    intros Hfind. rewrite ScrapeFacts.scrape_find_sidebar_container_pick in Hfind.
    apply pick_some in Hfind as (scored & b & Hrun & _ & Hb & Hmax).
    apply first_max_elem in Hmax as [Hin _].
    by apply (Hscored scored b).
Qed.

Lemma C2_excluded_never_selected_witness :
  (let c := (Samples.tag_at [0] Samples.toc_nav,
             "nav with role=" +:+ Py.quoted "navigation", 0%Z) in
   c ∈ ExtractLinks.find_candidates Samples.doc_toc /\
   Py.contains "on this page"
     (ExtractLinks.element_text (ExtractLinks.element_of c)) = true /\
   ExtractLinks.find_sidebar_container Samples.V0 Samples.doc_toc
     "https://docs.example/" "https://docs.example"
     <> Ok (Some (ExtractLinks.element_of c))) /\
  (let c := (Samples.tag_at [0] Samples.toc_nav,
             "nav with role=" +:+ Py.quoted "navigation", 0%Z) in
   c ∈ ScrapeLinks.find_candidates Samples.doc_toc /\
   Py.contains "on this page"
     (ScrapeLinks.element_text (ScrapeLinks.element_of c)) = true /\
   ScrapeLinks.find_sidebar_container Samples.V0 Samples.doc_toc
     "https://docs.example/" <> Ok (Some (ScrapeLinks.element_of c))).
Proof.
  destruct (C2_excluded_never_selected Samples.V0) as [HE HS].
  split; intros c.
  - assert (Hin : c ∈ ExtractLinks.find_candidates Samples.doc_toc)
      by (apply (list_elem_of_lookup_2 _ 0); vm_compute; reflexivity).
    assert (Hex : Py.contains "on this page"
              (ExtractLinks.element_text (ExtractLinks.element_of c)) = true)
      by (vm_compute; reflexivity).
    split_and!; [exact Hin|exact Hex|].
    exact (proj1 (HE _ "https://docs.example/" "https://docs.example" c Hin Hex)).
  - assert (Hin : c ∈ ScrapeLinks.find_candidates Samples.doc_toc)
      by (apply (list_elem_of_lookup_2 _ 0); vm_compute; reflexivity).
    assert (Hex : Py.contains "on this page"
              (ScrapeLinks.element_text (ScrapeLinks.element_of c)) = true)
      by (vm_compute; reflexivity).
    split_and!; [exact Hin|exact Hex|].
    exact (proj1 (HS _ "https://docs.example/" c Hin (or_introl Hex))).
Defined.

(** C3. In both scripts, when several surviving candidates share the
    greatest score, [find_sidebar_container] returns the earliest of them
    in the order of the finder: the scored candidates are the survivors in
    candidate order, every one before the returned one has a smaller score,
    and the descending sort keeps candidates of equal score in order. *)
Theorem C3_ties_first_candidate_wins (V : Urllib.validators) :
  (forall soup base_url target_origin best,
     ExtractLinks.find_sidebar_container V soup base_url target_origin
       = Ok (Some best) ->
     exists scored pre b post,
       ExtractLinks.score_candidates V base_url target_origin
         (ExtractLinks.find_candidates soup) = Ok scored /\
       fst <$> scored =
         fst <$> filter (survives ExtractFacts.excluded)
                   (ExtractLinks.find_candidates soup) /\
       scored = pre ++ b :: post /\ ExtractLinks.element_of b = best /\
       (forall y, y ∈ pre ->
          (ExtractLinks.score_of y < ExtractLinks.score_of b)%Z) /\
       (forall y, y ∈ post ->
          (ExtractLinks.score_of y <= ExtractLinks.score_of b)%Z) /\
       (forall k,
          filter (fun c => ExtractLinks.score_of c = k)
            (sort_reverse ExtractLinks.score_of scored) =
          filter (fun c => ExtractLinks.score_of c = k) scored))
  /\
  (forall soup base_url best,
     ScrapeLinks.find_sidebar_container V soup base_url = Ok (Some best) ->
     exists scored pre b post,
       ScrapeLinks.score_candidates V base_url
         (ScrapeLinks.find_candidates soup) = Ok scored /\
       fst <$> scored =
         fst <$> filter (survives (ScrapeFacts.excluded))
                   (ScrapeLinks.find_candidates soup) /\
       scored = pre ++ b :: post /\ ScrapeLinks.element_of b = best /\
       (forall y, y ∈ pre ->
          (ScrapeLinks.score_of y < ScrapeLinks.score_of b)%Z) /\
       (forall y, y ∈ post ->
          (ScrapeLinks.score_of y <= ScrapeLinks.score_of b)%Z) /\
       (forall k,
          filter (fun c => ScrapeLinks.score_of c = k)
            (sort_reverse ScrapeLinks.score_of scored) =
          filter (fun c => ScrapeLinks.score_of c = k) scored)).
Proof.
  split.
  - intros soup base_url target_origin best Hfind.
    rewrite ExtractFacts.extract_find_sidebar_container_pick in Hfind.
    apply (pick_spec _ _ _ _
             (ExtractFacts.extract_count_internal_links_spec V base_url target_origin))
      in Hfind as (scored & pre & b & post & Hrun & Hfst & _ & -> & Hb & Hpre & Hpost).
    exists (pre ++ b :: post), pre, b, post.
    split_and!; try done. intros k. apply sort_reverse_stable.
  - intros soup base_url best Hfind.
    rewrite ScrapeFacts.scrape_find_sidebar_container_pick in Hfind.
    apply (pick_spec _ _ _ _ (ScrapeFacts.scrape_count_internal_links_spec V base_url))
      in Hfind as (scored & pre & b & post & Hrun & Hfst & _ & -> & Hb & Hpre & Hpost).
    exists (pre ++ b :: post), pre, b, post.
    split_and!; try done. intros k. apply sort_reverse_stable.
Qed.

Lemma C3_ties_first_candidate_wins_witness :
  (ExtractLinks.find_sidebar_container Samples.V0 Samples.doc_tie
     "https://docs.example/" "https://docs.example"
     = Ok (Some (Samples.tag_at [1] Samples.tie_first)) /\
   exists scored pre b post,
     ExtractLinks.score_candidates Samples.V0 "https://docs.example/"
       "https://docs.example" (ExtractLinks.find_candidates Samples.doc_tie)
       = Ok scored /\
     scored = pre ++ b :: post /\
     ExtractLinks.element_of b = Samples.tag_at [1] Samples.tie_first /\
     (forall y, y ∈ pre ->
        (ExtractLinks.score_of y < ExtractLinks.score_of b)%Z)) /\
  (ScrapeLinks.find_sidebar_container Samples.V0 Samples.doc_tie
     "https://docs.example/"
     = Ok (Some (Samples.tag_at [1] Samples.tie_first)) /\
   exists scored pre b post,
     ScrapeLinks.score_candidates Samples.V0 "https://docs.example/"
       (ScrapeLinks.find_candidates Samples.doc_tie) = Ok scored /\
     scored = pre ++ b :: post /\
     ScrapeLinks.element_of b = Samples.tag_at [1] Samples.tie_first /\
     (forall y, y ∈ pre ->
        (ScrapeLinks.score_of y < ScrapeLinks.score_of b)%Z)).
Proof.
  destruct (C3_ties_first_candidate_wins Samples.V0) as [HE HS].
  split.
  - assert (E : ExtractLinks.find_sidebar_container Samples.V0 Samples.doc_tie
                  "https://docs.example/" "https://docs.example"
                  = Ok (Some (Samples.tag_at [1] Samples.tie_first)))
      by (vm_compute; reflexivity).
    split; [exact E|].
    destruct (HE _ _ _ _ E) as (scored & pre & b & post & H1 & _ & H2 & H3 & H4 & _).
    exists scored, pre, b, post. auto.
  - assert (E : ScrapeLinks.find_sidebar_container Samples.V0 Samples.doc_tie
                  "https://docs.example/"
                  = Ok (Some (Samples.tag_at [1] Samples.tie_first)))
      by (vm_compute; reflexivity).
    split; [exact E|].
    destruct (HS _ _ _ E) as (scored & pre & b & post & H1 & _ & H2 & H3 & H4 & _).
    exists scored, pre, b, post. auto.
Defined.

(** ** The document walk *)

Section Walk.

Import Bs4.

(** Induction on a node with the hypothesis for every child. *)
Lemma node_forall_ind (P : node -> Prop) :
  (forall v s, P (Text v s)) ->
  (forall name a contents, Forall P contents -> P (Element name a contents)) ->
  forall n, P n.
Proof.
  intros HT HE. fix IH 1. intros [v s|name a contents]; [apply HT|].
  apply HE. induction contents as [|c r IHr]; constructor; [apply IH|apply IHr].
Qed.

Lemma walk_element (ancestors : list Tag) (pos : list nat) name a contents :
  walk ancestors pos (Element name a contents) =
  let t := {| tag_pos := pos; tag_name := name; tag_attrs := a;
              tag_contents := contents |} in
  (t, ancestors) :: walk_list (t :: ancestors) pos 0 contents.
Proof.
  simpl. f_equal.
  generalize ({| tag_pos := pos; tag_name := name; tag_attrs := a;
                 tag_contents := contents |}).
  intros t. generalize 0. induction contents as [|c r IH]; intros i;
    simpl; [done|]. by rewrite IH.
Qed.

(** Below a position every element has a longer position. *)
Definition below (pos : list nat) (i : nat) (p : list nat) : Prop :=
  exists j rest, i <= j /\ p = pos ++ j :: rest.

Definition walk_ok (n : node) : Prop :=
  forall ancestors pos,
    (forall d, d ∈ walk ancestors pos n -> exists rest, tag_pos d.1 = pos ++ rest) /\
    NoDup ((fun d => tag_pos d.1) <$> walk ancestors pos n).

Lemma walk_list_below (ancestors : list Tag) (pos : list nat) (i : nat)
  (l : list node) d :
  Forall walk_ok l -> d ∈ walk_list ancestors pos i l -> below pos i (tag_pos d.1).
Proof.
  intros Hl. revert i. induction Hl as [|c r Hc _ IH]; intros i; simpl.
  - inversion 1.
  - intros [Hd|Hd]%elem_of_app.
    + destruct (proj1 (Hc ancestors (pos ++ [i])) d Hd) as [rest Hrest].
      exists i, rest. split; [lia|]. by rewrite Hrest, <- app_assoc.
    + destruct (IH _ Hd) as (j & rest & Hj & Hp). exists j, rest.
      split; [lia|done].
Qed.

Lemma walk_list_NoDup (ancestors : list Tag) (pos : list nat) (i : nat)
  (l : list node) :
  Forall walk_ok l ->
  NoDup ((fun d => tag_pos d.1) <$> walk_list ancestors pos i l).
Proof.
  intros Hl. revert i. induction Hl as [|c r Hc Hr IH]; intros i; simpl.
  - constructor.
  - rewrite fmap_app. apply NoDup_app. split_and!.
    + apply Hc.
    + intros p (d & -> & Hd)%list_elem_of_fmap (d' & Hp & Hd')%list_elem_of_fmap.
      destruct (proj1 (Hc ancestors (pos ++ [i])) d Hd) as [rest Hrest].
      destruct (walk_list_below _ _ _ _ _ Hr Hd') as (j & rest' & Hj & Hp').
      rewrite Hrest, Hp', <- app_assoc in Hp.
      apply app_inv_head in Hp. simpl in Hp. injection Hp as Hij _. lia.
    + apply IH.
Qed.

Lemma walk_all_ok (n : node) : walk_ok n.
Proof.
  induction n as [v s|name a contents IH] using node_forall_ind;
    intros ancestors pos.
  - simpl. split; [inversion 1|constructor].
  - rewrite walk_element. cbv zeta. split.
    + intros d [->|Hd]%elem_of_cons.
      * exists []. by rewrite app_nil_r.
      * destruct (walk_list_below _ _ _ _ _ IH Hd) as (j & rest & _ & Hp).
        by exists (j :: rest).
    + rewrite fmap_cons. constructor; [|by apply walk_list_NoDup].
      intros (d & Hp & Hd)%list_elem_of_fmap. simpl in Hp.
      destruct (walk_list_below _ _ _ _ _ IH Hd) as (j & rest & _ & Hp').
      rewrite Hp' in Hp. apply (f_equal length) in Hp.
      rewrite length_app in Hp. simpl in Hp. lia.
Qed.

(** The descendants of a tag are pairwise distinct objects. *)
Lemma descendants_NoDup (t : Tag) :
  NoDup ((fun d => tag_pos d.1) <$> descendants t).
Proof.
  apply walk_list_NoDup. apply Forall_forall. intros n _. apply walk_all_ok.
Qed.

(** [select] lists an element at most once. *)
Lemma select_NoDup (t : Tag) (sel : selector) :
  NoDup (tag_pos <$> select t sel).
Proof.
  unfold select. rewrite <- list_fmap_compose.
  eapply sublist_NoDup; [apply (descendants_NoDup t)|].
  apply fmap_sublist, sublist_filter.
Qed.

Lemma find_all_NoDup (t : Tag) (names : list string) :
  NoDup (tag_pos <$> find_all t names).
Proof.
  unfold find_all.
  eapply sublist_NoDup; [|apply fmap_sublist, sublist_filter].
  rewrite <- list_fmap_compose. apply (descendants_NoDup t).
Qed.

End Walk.

(** ** C5: the candidate sequence *)

Section Scan.

Import Bs4.

Context (wanted : Tag -> bool) (mk : Tag -> Tag * string * Z).
Hypothesis mk_element : forall t, (mk t).1.1 = t.

(** The common shape of the two id/class scans. *)
Definition scan (cands : list (Tag * string * Z)) (tag : Tag)
  : list (Tag * string * Z) :=
  if wanted tag
  then if negb (tag_in tag ((fun c => c.1.1) <$> cands))
       then cands ++ [mk tag] else cands
  else cands.

(** From the index [k] on, no candidate is [in] the candidates before
    it. *)
Definition fresh_from (k : nat) (cands : list (Tag * string * Z)) : Prop :=
  forall j c, cands !! j = Some c -> k <= j ->
    tag_in c.1.1 ((fun c => c.1.1) <$> take j cands) = false.

Lemma scan_keeps (k : nat) (cands : list (Tag * string * Z)) (tag : Tag) :
  k <= length cands -> fresh_from k cands ->
  length cands <= length (scan cands tag) /\
  take (length cands) (scan cands tag) = cands /\
  fresh_from k (scan cands tag).
Proof.
  intros Hk Hfresh. unfold scan. destruct (wanted tag).
  2: { split_and!; [done|by rewrite firstn_all|done]. }
  destruct (tag_in tag ((fun c => c.1.1) <$> cands)) eqn:Hin; simpl.
  { split_and!; [done|by rewrite firstn_all|done]. }
  split_and!.
  - rewrite length_app. lia.
  - by rewrite take_app_length.
  - intros j c Hj Hkj. destruct (decide (j < length cands)) as [Hlt|Hge].
    + rewrite lookup_app_l in Hj by done.
      rewrite take_app_le by lia. by apply Hfresh.
    + assert (j = length cands) as ->.
      { apply lookup_lt_Some in Hj. rewrite length_app in Hj. simpl in Hj. lia. }
      rewrite list_lookup_middle in Hj by done. injection Hj as <-.
      by rewrite take_app_length, mk_element.
Qed.

Lemma scan_fold (tags : list Tag) (init : list (Tag * string * Z)) :
  take (length init) (fold_left scan tags init) = init /\
  fresh_from (length init) (fold_left scan tags init).
Proof.
  assert (H : forall cands,
    length init <= length cands -> take (length init) cands = init ->
    fresh_from (length init) cands ->
    take (length init) (fold_left scan tags cands) = init /\
    fresh_from (length init) (fold_left scan tags cands)).
  { induction tags as [|t r IH]; intros cands Hlen Htake Hfresh; simpl; [done|].
    destruct (scan_keeps _ cands t Hlen Hfresh) as (Hle & Hsame & Hfresh').
    apply IH; [lia| |done].
    rewrite <- Htake at 2. rewrite <- Hsame at 2.
    rewrite take_take. f_equal. lia. }
  apply H; [done|by rewrite firstn_all|].
  intros j c Hj Hlen. apply lookup_lt_Some in Hj. lia.
Qed.

(** A candidate from the scan is not the object of an earlier candidate
    and does not equal one. *)
Lemma fresh_from_distinct (k : nat) (cands : list (Tag * string * Z))
  (i j : nat) (ci cj : Tag * string * Z) :
  fresh_from k cands ->
  cands !! i = Some ci -> cands !! j = Some cj -> i < j -> k <= j ->
  tag_pos ci.1.1 <> tag_pos cj.1.1 /\ tag_eqb cj.1.1 ci.1.1 = false.
Proof.
  intros Hfresh Hi Hj Hij Hkj. specialize (Hfresh j cj Hj Hkj).
  unfold tag_in in Hfresh.
  assert (Hin : ci.1.1 ∈ (fun c => c.1.1) <$> take j cands).
  { apply list_elem_of_fmap. exists ci. split; [done|].
    apply list_elem_of_lookup. exists i. by rewrite lookup_take_lt. }
  apply list_elem_of_In in Hin.
  destruct (same_object cj.1.1 ci.1.1 || tag_eqb cj.1.1 ci.1.1) eqn:Hor.
  - rewrite (proj2 (existsb_exists _ _)) in Hfresh; [done|].
    by exists ci.1.1.
  - apply orb_false_iff in Hor as [Hsame Heq]. split; [|done].
    unfold same_object in Hsame. apply bool_decide_eq_false in Hsame. congruence.
Qed.

End Scan.

Lemma extract_find_candidates_scan (soup : Bs4.Tag) :
  ExtractLinks.find_candidates soup =
  fold_left
    (scan
       (fun tag =>
          let combined :=
            Py.lower (Bs4.get tag "id" +:+ " " +:+
                      Py.join " " (Bs4.get_list tag "class")) in
          Py.contains "sidebar" combined || Py.contains "md-nav" combined ||
          Py.contains "site-nav" combined)
       (fun tag =>
          (tag,
           "element with id/class containing sidebar/nav pattern: " +:+
           (if Urllib.nonempty (Bs4.get tag "id") then Bs4.get tag "id"
            else Py.take 50 (Py.join " " (Bs4.get_list tag "class"))),
           0%Z)))
    (Bs4.find_all soup ["nav"; "aside"; "div"; "ul"])
    (ExtractLinks.selector_candidates soup).
Proof. reflexivity. Qed.

Lemma scrape_find_candidates_scan (soup : Bs4.Tag) :
  ScrapeLinks.find_candidates soup =
  fold_left
    (scan
       (fun tag =>
          let combined :=
            Py.lower (Bs4.get tag "id" +:+ " " +:+
                      Py.join " " (Bs4.get_list tag "class")) in
          Py.contains "sidebar" combined || Py.contains "sidenav" combined ||
          Py.contains "site-nav" combined)
       (fun tag =>
          (tag,
           "element with sidebar/nav pattern: " +:+
           (if Urllib.nonempty (Bs4.get tag "id") then Bs4.get tag "id"
            else Py.take 50 (Py.join " " (Bs4.get_list tag "class"))),
           0%Z)))
    (Bs4.find_all soup ["nav"; "aside"; "div"; "ul"])
    (ScrapeLinks.selector_candidates soup).
Proof. reflexivity. Qed.

(** C5, as the claim states it, fails: a [nav] that matches two selector
    rules is listed once for each of them, in both scripts. *)
Lemma C5_counterexample :
  ~ NoDup ((fun c => Bs4.tag_pos (ExtractLinks.element_of c)) <$>
             ExtractLinks.find_candidates Samples.doc_twice) /\
  ~ NoDup ((fun c => Bs4.tag_pos (ScrapeLinks.element_of c)) <$>
             ScrapeLinks.find_candidates Samples.doc_twice).
Proof.
  assert (E1 : (fun c => Bs4.tag_pos (ExtractLinks.element_of c)) <$>
                 ExtractLinks.find_candidates Samples.doc_twice = [[0]; [0]])
    by (vm_compute; reflexivity).
  assert (E2 : (fun c => Bs4.tag_pos (ScrapeLinks.element_of c)) <$>
                 ScrapeLinks.find_candidates Samples.doc_twice = [[0]; [0]; [0]])
    by (vm_compute; reflexivity).
  rewrite E1, E2. split; intros [Hn _]%NoDup_cons; apply Hn; left.
Qed.

(** C5, amended. In both scripts the candidate sequence starts with the
    matches of the selector rules, where each rule lists an element at most
    once but an element is listed again by every further rule it matches;
    a candidate that the id/class scan appends is neither the same object
    as a candidate before it nor equal to one ([Tag.__eq__]: same name,
    attributes and contents). *)
Theorem C5_scan_appends_only_new_elements (soup : Bs4.Tag) :
  (take (length (ExtractLinks.selector_candidates soup))
     (ExtractLinks.find_candidates soup) = ExtractLinks.selector_candidates soup /\
   (forall i j ci cj,
      ExtractLinks.find_candidates soup !! i = Some ci ->
      ExtractLinks.find_candidates soup !! j = Some cj ->
      i < j -> length (ExtractLinks.selector_candidates soup) <= j ->
      Bs4.tag_pos (ExtractLinks.element_of ci)
        <> Bs4.tag_pos (ExtractLinks.element_of cj) /\
      Bs4.tag_eqb (ExtractLinks.element_of cj) (ExtractLinks.element_of ci)
        = false)) /\
  (take (length (ScrapeLinks.selector_candidates soup))
     (ScrapeLinks.find_candidates soup) = ScrapeLinks.selector_candidates soup /\
   (forall i j ci cj,
      ScrapeLinks.find_candidates soup !! i = Some ci ->
      ScrapeLinks.find_candidates soup !! j = Some cj ->
      i < j -> length (ScrapeLinks.selector_candidates soup) <= j ->
      Bs4.tag_pos (ScrapeLinks.element_of ci)
        <> Bs4.tag_pos (ScrapeLinks.element_of cj) /\
      Bs4.tag_eqb (ScrapeLinks.element_of cj) (ScrapeLinks.element_of ci)
        = false)) /\
  (forall sel, NoDup (Bs4.tag_pos <$> Bs4.select soup sel)).
Proof.
  split_and!.
  - rewrite extract_find_candidates_scan. eapply scan_fold. done.
  - intros i j ci cj. rewrite extract_find_candidates_scan.
    eapply fresh_from_distinct. eapply scan_fold. done.
  - rewrite scrape_find_candidates_scan. eapply scan_fold. done.
  - intros i j ci cj. rewrite scrape_find_candidates_scan.
    eapply fresh_from_distinct. eapply scan_fold. done.
  - apply select_NoDup.
Qed.

Lemma C5_scan_appends_only_new_elements_witness :
  (let c0 := (Samples.tag_at [0] Samples.toc_nav,
              "nav with role=" +:+ Py.quoted "navigation", 0%Z) in
   let c1 := (Samples.tag_at [1] Samples.toc_sidebar,
              "element with id/class containing sidebar/nav pattern: sidebar",
              0%Z) in
   ExtractLinks.find_candidates Samples.doc_toc !! 0 = Some c0 /\
   ExtractLinks.find_candidates Samples.doc_toc !! 1 = Some c1 /\
   0 < 1 /\ length (ExtractLinks.selector_candidates Samples.doc_toc) <= 1 /\
   Bs4.tag_pos (ExtractLinks.element_of c0)
     <> Bs4.tag_pos (ExtractLinks.element_of c1) /\
   Bs4.tag_eqb (ExtractLinks.element_of c1) (ExtractLinks.element_of c0) = false)
  /\
  (let c0 := (Samples.tag_at [0] Samples.toc_nav,
              "nav with role=" +:+ Py.quoted "navigation", 0%Z) in
   let c1 := (Samples.tag_at [1] Samples.toc_sidebar,
              "element with sidebar/nav pattern: sidebar", 0%Z) in
   ScrapeLinks.find_candidates Samples.doc_toc !! 0 = Some c0 /\
   ScrapeLinks.find_candidates Samples.doc_toc !! 1 = Some c1 /\
   0 < 1 /\ length (ScrapeLinks.selector_candidates Samples.doc_toc) <= 1 /\
   Bs4.tag_pos (ScrapeLinks.element_of c0)
     <> Bs4.tag_pos (ScrapeLinks.element_of c1) /\
   Bs4.tag_eqb (ScrapeLinks.element_of c1) (ScrapeLinks.element_of c0) = false).
Proof.
  destruct (C5_scan_appends_only_new_elements Samples.doc_toc)
    as ([_ HE] & [_ HS] & _).
  split; intros c0 c1.
  - assert (H0 : ExtractLinks.find_candidates Samples.doc_toc !! 0 = Some c0)
      by (vm_compute; reflexivity).
    assert (H1 : ExtractLinks.find_candidates Samples.doc_toc !! 1 = Some c1)
      by (vm_compute; reflexivity).
    assert (Hk : length (ExtractLinks.selector_candidates Samples.doc_toc) <= 1)
      by (vm_compute; lia).
    assert (H01 : 0 < 1) by lia.
    split_and!; [exact H0|exact H1|exact H01|exact Hk|..];
      apply (HE 0 1 c0 c1 H0 H1 H01 Hk).
  - assert (H0 : ScrapeLinks.find_candidates Samples.doc_toc !! 0 = Some c0)
      by (vm_compute; reflexivity).
    assert (H1 : ScrapeLinks.find_candidates Samples.doc_toc !! 1 = Some c1)
      by (vm_compute; reflexivity).
    assert (Hk : length (ScrapeLinks.selector_candidates Samples.doc_toc) <= 1)
      by (vm_compute; lia).
    assert (H01 : 0 < 1) by lia.
    split_and!; [exact H0|exact H1|exact H01|exact Hk|..];
      apply (HS 0 1 c0 c1 H0 H1 H01 Hk).
Defined.

(** The scan compares elements with [==]: of two equal elements at
    different places only the first becomes a candidate. *)
Example scan_skips_equal_element :
  let side := Bs4.Element "div" (Samples.attrs [] ["sidebar"])
                [Samples.anchor "/a" "A"] in
  (fun c => Bs4.tag_pos (ExtractLinks.element_of c)) <$>
    ExtractLinks.find_candidates (Bs4.BeautifulSoup [side; side]) = [[0]].
Proof. vm_compute. reflexivity. Qed.

(** ** C6: de-duplication *)

Section Dedup.

Context {A B : Type} (keep : A -> result (option B)) (key : B -> string).

(** The common shape of the two harvest loops: the state is the set of
    seen keys and the list of kept entries. *)
Definition dedup_step (st : gset string * list B) (a : A)
  : result (gset string * list B) :=
  o ← keep a ;
  match o with
  | Some b =>
      if negb (bool_decide (key b ∈ st.1))
      then Ok ({[key b]} ∪ st.1, st.2 ++ [b])
      else Ok st
  | None => Ok st
  end.

(** The entries of the elements that are kept, in order, repeats
    included. *)
Definition kept_of (l : list A) : list B :=
  omap (fun a => match keep a with Ok o => o | Raise _ => None end) l.

Lemma for_each_app {S' : Type} (f : S' -> A -> result S') (l1 l2 : list A) s :
  for_each f (l1 ++ l2) s = (s' ← for_each f l1 s ; for_each f l2 s').
Proof.
  revert s. induction l1 as [|x r IH]; intros s; simpl; [done|].
  destruct (f s x); simpl; [apply IH|done].
Qed.

(** Every entry of [res] is the first of its key in [all], and the
    entries before it in [res] have the keys that occur before it in
    [all]. *)
Definition firsts (all res : list B) : Prop :=
  forall before b after, res = before ++ b :: after ->
    exists pre post,
      all = pre ++ b :: post /\ (key b ∉ key <$> pre) /\
      forall u, u ∈ key <$> before <-> u ∈ key <$> pre.

Lemma snoc_split (l before after : list B) (x b : B) :
  l ++ [x] = before ++ b :: after ->
  (after = [] /\ before = l /\ b = x) \/
  (exists after', after = after' ++ [x] /\ l = before ++ b :: after').
Proof.
  destruct after as [|y after' _] using rev_ind.
  - intros H. apply app_inj_tail in H as [-> ->]. by left.
  - rewrite app_comm_cons, app_assoc.
    intros [-> ->]%app_inj_tail. right. by exists after'.
Qed.

Lemma dedup_loop (l : list A) (seen : gset string) (res : list B) :
  for_each dedup_step l (∅, []) = Ok (seen, res) ->
  (forall u, u ∈ seen <-> u ∈ key <$> res) /\
  NoDup (key <$> res) /\
  (forall u, u ∈ key <$> res <-> u ∈ key <$> kept_of l) /\
  res `sublist_of` kept_of l /\
  firsts (kept_of l) res.
Proof.
  revert seen res. induction l as [|a l IH] using rev_ind; intros seen res.
  - simpl. intros [= <- <-]. split_and!; try done.
    + intros u. cbn. by rewrite elem_of_empty, elem_of_nil.
    + constructor.
    + intros [|??] ???; discriminate.
  - rewrite for_each_app. destruct (for_each dedup_step l (∅, [])) as [[seen0 res0]|e]
      eqn:Hrun; [|done].
    destruct (IH _ _ eq_refl) as (Hseen & Hnd & Hmem & Hsub & Hfirst).
    cbn [mbind result_bind for_each]. unfold dedup_step at 1.
    unfold kept_of. rewrite omap_app. fold (kept_of l).
    change (omap _ [a]) with
      (match (match keep a with Ok o => o | Raise _ => None end) with
       | Some y => [y]
       | None => []
       end).
    destruct (keep a) as [[b|]|e]; cbn [mbind result_bind fst snd]; [| |done].
    + destruct (bool_decide (key b ∈ seen0)) eqn:Hb; cbn [negb].
      * apply bool_decide_eq_true in Hb. intros [= <- <-].
        split_and!; [done|done| | |].
        -- intros u. rewrite fmap_app, elem_of_app, <- Hmem. cbn.
           rewrite list_elem_of_singleton. split; [by left|].
           intros [?| ->]; [done|]. by apply Hseen.
        -- by apply sublist_inserts_r.
        -- intros before b' after Hres.
           destruct (Hfirst _ _ _ Hres) as (pre & post & -> & Hpre & Hkeys).
           exists pre, (post ++ [b]). by rewrite <- app_assoc.
      * apply bool_decide_eq_false in Hb. intros [= <- <-].
        assert (Hfresh : key b ∉ key <$> res0) by (by rewrite <- Hseen).
        split_and!.
        -- intros u. rewrite fmap_app, elem_of_app, elem_of_union,
             elem_of_singleton, Hseen. cbn. rewrite list_elem_of_singleton.
           tauto.
        -- rewrite fmap_app. apply NoDup_app. split_and!; [done| |].
           ++ intros u Hu [->|[]%elem_of_nil]%elem_of_cons. done.
           ++ cbn. apply NoDup_singleton.
        -- intros u. rewrite !fmap_app, !elem_of_app, Hmem. done.
        -- by apply sublist_app.
        -- intros before b' after
             [(-> & -> & ->)|(after' & -> & Hres)]%snoc_split.
           ++ exists (kept_of l), []. split_and!; [done|by rewrite <- Hmem|done].
           ++ destruct (Hfirst _ _ _ Hres) as (pre & post & -> & Hpre & Hkeys).
              exists pre, (post ++ [b]). by rewrite <- app_assoc.
    + intros [= <- <-]. rewrite app_nil_r. done.
Qed.

(** With one entry for each key, a key that occurs has exactly one. *)
Lemma exactly_one (res : list B) (u : string) :
  NoDup (key <$> res) -> u ∈ key <$> res ->
  length (filter (fun b => key b = u) res) = 1.
Proof.
  induction res as [|b r IH]; [by inversion 2|].
  rewrite fmap_cons. intros [Hb Hr]%NoDup_cons Hu. rewrite filter_cons.
  destruct (decide (key b = u)) as [<-|Hne].
  - simpl. f_equal. clear IH Hr Hu.
    induction r as [|b' r IHr]; [done|]. rewrite fmap_cons in Hb.
    apply not_elem_of_cons in Hb as [Hne Hb].
    rewrite filter_cons_False by done. by apply IHr.
  - apply IH; [done|]. apply elem_of_cons in Hu as [?|?]; [congruence|done].
Qed.

End Dedup.

Section Harvests.

Import Urllib Bs4.

Context (V : validators).

(** extract_links.py: the normalized URL of an anchor that is kept. *)
Definition extract_link (start_url target_origin : string) (a_tag : Tag)
  : result (option string) :=
  normalized ← ExtractLinks.normalize_url V (get a_tag "href") start_url
                 target_origin ;
  Ok (match normalized with
      | Some n => if nonempty n then Some n else None
      | None => None
      end).

(** scrape_links.py: whether a link passes the scope filter. *)
Definition in_scope (scope : string) (is_internal : bool) : bool :=
  if String.eqb scope "internal" || String.eqb scope "sidebar"
  then is_internal
  else if String.eqb scope "external" then negb is_internal
  else true.

(** scrape_links.py: the normalized URL and the text of an anchor that
    is kept, under the scope of the run. *)
Definition scrape_link (url scope : string) (include_text : bool)
  (a_tag : Tag) : result (option (string * string)) :=
  normalized ← ScrapeLinks.normalize_url V (get a_tag "href") url true ;
  match normalized with
  | Some n =>
      if nonempty n
      then
        is_internal ← ScrapeLinks.is_internal_url V n url ;
        Ok (if in_scope scope is_internal
            then Some (n, if include_text then get_text a_tag EmptyString
                          else EmptyString)
            else None)
      else Ok None
  | None => Ok None
  end.

Lemma extract_harvest_step start_url target_origin st a_tag :
  ExtractLinks.harvest_step V start_url target_origin st a_tag =
  dedup_step (extract_link start_url target_origin) id st a_tag.
Proof.
  destruct st as [seen links].
  unfold ExtractLinks.harvest_step, dedup_step, extract_link. cbv zeta.
  destruct (ExtractLinks.normalize_url V (get a_tag "href") start_url
              target_origin) as [[n|]|e]; cbn; [|done..].
  by destruct (nonempty n).
Qed.

Lemma scrape_harvest_step url scope include_text st a_tag :
  ScrapeLinks.harvest_step V url scope include_text st a_tag =
  dedup_step (scrape_link url scope include_text) fst st a_tag.
Proof.
  destruct st as [seen results].
  unfold ScrapeLinks.harvest_step, dedup_step, scrape_link, in_scope.
  cbv zeta.
  destruct (ScrapeLinks.normalize_url V (get a_tag "href") url true)
    as [[n|]|e]; cbn; [|done..].
  unfold nonempty. destruct (Py.is_empty n); cbn; [done|].
  destruct (ScrapeLinks.is_internal_url V n url) as [internal|e]; cbn; [|done].
  destruct (String.eqb scope "internal" || String.eqb scope "sidebar").
  - by destruct internal.
  - destruct (String.eqb scope "external"); [by destruct internal|done].
Qed.

Lemma extract_harvest_loop sidebar start_url target_origin links :
  ExtractLinks.harvest V sidebar start_url target_origin = Ok links ->
  exists seen,
    for_each (dedup_step (extract_link start_url target_origin) id)
      (find_all_href sidebar "a") (∅, []) = Ok (seen, links).
Proof.
  unfold ExtractLinks.harvest.
  rewrite (for_each_ext _ _ _ _ (extract_harvest_step start_url target_origin)).
  destruct (for_each _ _ _) as [[seen res]|e]; [|done].
  intros [= <-]. by exists seen.
Qed.

Lemma scrape_harvest_loop container url scope include_text results :
  ScrapeLinks.harvest V container url scope include_text = Ok results ->
  exists seen,
    for_each (dedup_step (scrape_link url scope include_text) fst)
      (find_all_href container "a") (∅, []) = Ok (seen, results).
Proof.
  unfold ScrapeLinks.harvest.
  rewrite (for_each_ext _ _ _ _ (scrape_harvest_step url scope include_text)).
  destruct (for_each _ _ _) as [[seen res]|e]; [|done].
  intros [= <-]. by exists seen.
Qed.

End Harvests.

(** C6. In both scripts, when several anchors of the searched subtree
    normalize (under the rules of the run's scope) to one URL, the harvest
    holds exactly one entry for that URL; the entry is that of the first
    such anchor in traversal order, with its display text when the text is
    emitted, and the entries before it are those of the URLs met before
    it. *)
Theorem C6_one_entry_per_url_first_seen (V : Urllib.validators) :
  (forall sidebar start_url target_origin links,
     ExtractLinks.harvest V sidebar start_url target_origin = Ok links ->
     let kept := kept_of (extract_link V start_url target_origin)
                   (Bs4.find_all_href sidebar "a") in
     NoDup links /\
     (forall u, u ∈ kept -> length (filter (fun l => l = u) links) = 1) /\
     links `sublist_of` kept /\
     (forall before u after, links = before ++ u :: after ->
        exists pre post,
          kept = pre ++ u :: post /\ (u ∉ pre) /\
          forall v, v ∈ before <-> v ∈ pre))
  /\
  (forall container url scope include_text results,
     ScrapeLinks.harvest V container url scope include_text = Ok results ->
     let kept := kept_of (scrape_link V url scope include_text)
                   (Bs4.find_all_href container "a") in
     NoDup results.*1 /\
     (forall u, u ∈ kept.*1 ->
        length (filter (fun r => r.1 = u) results) = 1) /\
     results `sublist_of` kept /\
     (forall before u text after, results = before ++ (u, text) :: after ->
        exists pre post,
          kept = pre ++ (u, text) :: post /\ (u ∉ pre.*1) /\
          forall v, v ∈ before.*1 <-> v ∈ pre.*1)).
Proof.
  split.
  - intros sidebar start_url target_origin links
      [seen (Hseen & Hnd & Hmem & Hsub & Hfirst)%dedup_loop]%extract_harvest_loop.
    rewrite list_fmap_id in Hnd. cbv zeta. split_and!; [done| |done|].
    + intros u Hu. apply (exactly_one id); [by rewrite list_fmap_id|].
      apply Hmem. by rewrite list_fmap_id.
    + intros before u after Hl.
      destruct (Hfirst _ _ _ Hl) as (pre & post & Hk & Hu & Hkeys).
      exists pre, post. rewrite !list_fmap_id in *. done.
  - intros container url scope include_text results
      [seen (Hseen & Hnd & Hmem & Hsub & Hfirst)%dedup_loop]%scrape_harvest_loop.
    cbv zeta. split_and!; [done| |done|].
    + intros u Hu. apply (exactly_one fst); [done|]. by apply Hmem.
    + intros before u text after Hl.
      destruct (Hfirst _ _ _ Hl) as (pre & post & Hk & Hu & Hkeys).
      by exists pre, post.
Qed.

Lemma C6_one_entry_per_url_first_seen_witness :
  (let links := ["https://docs.example/docs/intro";
                 "https://docs.example/docs/setup"] in
   let kept := kept_of (extract_link Samples.V0 "https://docs.example/"
                          "https://docs.example")
                 (Bs4.find_all_href
                    (Samples.tag_at [0] Samples.repeats_sidebar) "a") in
   ExtractLinks.harvest Samples.V0 (Samples.tag_at [0] Samples.repeats_sidebar)
     "https://docs.example/" "https://docs.example" = Ok links /\
   "https://docs.example/docs/intro" ∈ kept /\
   NoDup links /\
   length (filter (fun l => l = "https://docs.example/docs/intro") links) = 1 /\
   links `sublist_of` kept) /\
  (let results := [("https://docs.example/docs/intro", "Intro");
                   ("https://docs.example/docs/setup", "Setup");
                   ("https://elsewhere.example/x", "Elsewhere")] in
   let kept := kept_of (scrape_link Samples.V0 "https://docs.example/" "all" true)
                 (Bs4.find_all_href Samples.doc_repeats "a") in
   ScrapeLinks.harvest Samples.V0 Samples.doc_repeats "https://docs.example/"
     "all" true = Ok results /\
   "https://docs.example/docs/intro" ∈ kept.*1 /\
   NoDup results.*1 /\
   length (filter (fun r => r.1 = "https://docs.example/docs/intro") results) = 1 /\
   results `sublist_of` kept).
Proof.
  destruct (C6_one_entry_per_url_first_seen Samples.V0) as [HE HS].
  split.
  - intros links kept.
    assert (Hrun : ExtractLinks.harvest Samples.V0
                     (Samples.tag_at [0] Samples.repeats_sidebar)
                     "https://docs.example/" "https://docs.example" = Ok links)
      by (vm_compute; reflexivity).
    assert (Hin : "https://docs.example/docs/intro" ∈ kept)
      by (apply (list_elem_of_lookup_2 _ 0); vm_compute; reflexivity).
    destruct (HE _ _ _ _ Hrun) as (H1 & H2 & H3 & _).
    split_and!; [exact Hrun|exact Hin|exact H1|exact (H2 _ Hin)|exact H3].
  - intros results kept.
    assert (Hrun : ScrapeLinks.harvest Samples.V0 Samples.doc_repeats
                     "https://docs.example/" "all" true = Ok results)
      by (vm_compute; reflexivity).
    assert (Hin : "https://docs.example/docs/intro" ∈ kept.*1)
      by (apply (list_elem_of_lookup_2 _ 0); vm_compute; reflexivity).
    destruct (HS _ _ _ _ _ Hrun) as (H1 & H2 & H3 & _).
    split_and!; [exact Hrun|exact Hin|exact H1|exact (H2 _ Hin)|exact H3].
Defined.

(** ** C9: failures leave the file system alone *)

(** The four failures of the page fetch. *)
Definition fetch_failed (o : Os.http_outcome) : Prop :=
  o = Os.Timeout \/ o = Os.ConnectionError \/ o = Os.HTTPError \/
  o = Os.RequestException.

Lemma fetch_page_html_none (E : Os.environment) (url : string) (use_js : bool)
  (wait_time : Z) :
  ScrapeLinks.fetch_page_html E url use_js wait_time = None <->
  fetch_failed (Os.http_get E url) /\
  (use_js = false \/ Os.selenium_available E = false \/
   Os.selenium_page E url wait_time = None).
Proof.
  unfold ScrapeLinks.fetch_page_html, fetch_failed.
  destruct use_js, (Os.selenium_available E),
    (Os.selenium_page E url wait_time), (Os.http_get E url); simpl;
    intuition congruence.
Qed.

(** C9. In both scripts, when the page fetch fails (timeout, connection
    failure, HTTP error or another request failure) or, in sidebar scope,
    [find_sidebar_container] finds no sidebar, the run ends with a status
    other than 0 and the file system is the one it started with; and a run
    that changes the file system has fetched the page, found its container
    and finished the harvest before. *)
Theorem C9_failure_leaves_no_output (V : Urllib.validators) (E : Os.environment)
  (fs : Os.filesystem) :
  (forall start_url output_file,
     let run := ExtractLinks.extract_sidebar_links V E start_url output_file fs in
     (fetch_failed (Os.http_get E start_url) ->
      run.1 <> Ok 0%Z /\ run.2 = fs) /\
     (forall content parsed_start,
        Os.http_get E start_url = Os.Response content ->
        Urllib.urlparse V start_url EmptyString = Ok parsed_start ->
        ExtractLinks.find_sidebar_container V
          (Bs4.BeautifulSoup (Os.html_parser E content)) start_url
          (Urllib.scheme parsed_start +:+ "://" +:+ Urllib.netloc parsed_start)
          = Ok None ->
        run = (Ok 1%Z, fs)) /\
     (run.2 <> fs ->
      exists content parsed_start sidebar links,
        Os.http_get E start_url = Os.Response content /\
        Urllib.urlparse V start_url EmptyString = Ok parsed_start /\
        ExtractLinks.find_sidebar_container V
          (Bs4.BeautifulSoup (Os.html_parser E content)) start_url
          (Urllib.scheme parsed_start +:+ "://" +:+ Urllib.netloc parsed_start)
          = Ok (Some sidebar) /\
        ExtractLinks.harvest V sidebar start_url
          (Urllib.scheme parsed_start +:+ "://" +:+ Urllib.netloc parsed_start)
          = Ok links))
  /\
  (forall url output_file scope include_text use_js wait_time,
     let run := ScrapeLinks.scrape_links V E url output_file scope include_text
                  use_js wait_time fs in
     (ScrapeLinks.fetch_page_html E url use_js wait_time = None ->
      run = (Ok 1%Z, fs)) /\
     (forall html,
        ScrapeLinks.fetch_page_html E url use_js wait_time = Some html ->
        scope = "sidebar" ->
        ScrapeLinks.find_sidebar_container V
          (Bs4.BeautifulSoup (Os.html_parser E html)) url = Ok None ->
        run = (Ok 1%Z, fs)) /\
     (run.2 <> fs ->
      exists html container results,
        ScrapeLinks.fetch_page_html E url use_js wait_time = Some html /\
        (if String.eqb scope "sidebar"
         then ScrapeLinks.find_sidebar_container V
                (Bs4.BeautifulSoup (Os.html_parser E html)) url
         else Ok (Some (Bs4.BeautifulSoup (Os.html_parser E html))))
          = Ok (Some container) /\
        ScrapeLinks.harvest V container url scope include_text = Ok results)).
Proof.
  split.
  - intros start_url output_file run. subst run.
    unfold ExtractLinks.extract_sidebar_links.
    destruct (Urllib.urlparse V start_url EmptyString) as [parsed_start|e].
    2: { split_and!; [done|done|]. intros H. by destruct H. }
    split_and!.
    + intros [-> |[-> |[-> | ->]]]; done.
    + intros content p -> [= <-] ->. done.
    + destruct (Os.http_get E start_url) as [| | | |content];
        try (intros H; by destruct H).
      destruct (ExtractLinks.find_sidebar_container V _ start_url _)
        as [[sidebar|]|e] eqn:Hfind; try (intros H; by destruct H).
      destruct (ExtractLinks.harvest V sidebar start_url _)
        as [links|e] eqn:Hharvest; try (intros H; by destruct H).
      intros _. by exists content, parsed_start, sidebar, links.
  - intros url output_file scope include_text use_js wait_time run. subst run.
    unfold ScrapeLinks.scrape_links.
    destruct (ScrapeLinks.fetch_page_html E url use_js wait_time) as [html|].
    2: { split_and!; [done|done|]. intros H. by destruct H. }
    split_and!.
    + done.
    + intros ? [= <-] -> Hfind. simpl. by rewrite Hfind.
    + destruct (if String.eqb scope "sidebar" then _ else _)
        as [[container|]|e] eqn:Hfind; try (intros H; by destruct H).
      destruct (ScrapeLinks.harvest V container url scope include_text)
        as [results|e] eqn:Hharvest; try (intros H; by destruct H).
      intros _. by exists html, container, results.
Qed.

Lemma C9_failure_leaves_no_output_witness :
  (let E := Samples.env Os.Timeout [] in
   let run := ExtractLinks.extract_sidebar_links Samples.V0 E
                "https://docs.example/" "output/links.txt" Samples.fs0 in
   fetch_failed (Os.http_get E "https://docs.example/") /\
   run.1 <> Ok 0%Z /\ run.2 = Samples.fs0) /\
  (let E := Samples.env (Os.Response "<html>") [Samples.toc_nav] in
   let origin := {| Urllib.scheme := "https"; Urllib.netloc := "docs.example";
                    Urllib.path := "/"; Urllib.params := "";
                    Urllib.query := ""; Urllib.fragment := "" |} in
   Os.http_get E "https://docs.example/" = Os.Response "<html>" /\
   Urllib.urlparse Samples.V0 "https://docs.example/" "" = Ok origin /\
   ExtractLinks.find_sidebar_container Samples.V0
     (Bs4.BeautifulSoup (Os.html_parser E "<html>")) "https://docs.example/"
     (Urllib.scheme origin +:+ "://" +:+ Urllib.netloc origin) = Ok None /\
   ExtractLinks.extract_sidebar_links Samples.V0 E "https://docs.example/"
     "output/links.txt" Samples.fs0 = (Ok 1%Z, Samples.fs0)) /\
  (let E := Samples.env Os.ConnectionError [] in
   ScrapeLinks.fetch_page_html E "https://docs.example/" true 3 = None /\
   ScrapeLinks.scrape_links Samples.V0 E "https://docs.example/"
     "output/links.txt" "all" false true 3 Samples.fs0
     = (Ok 1%Z, Samples.fs0)) /\
  (let E := Samples.env (Os.Response "<html>") [Samples.toc_nav] in
   ScrapeLinks.fetch_page_html E "https://docs.example/" false 3
     = Some "<html>" /\
   ScrapeLinks.find_sidebar_container Samples.V0
     (Bs4.BeautifulSoup (Os.html_parser E "<html>")) "https://docs.example/"
     = Ok None /\
   ScrapeLinks.scrape_links Samples.V0 E "https://docs.example/"
     "output/links.txt" "sidebar" false false 3 Samples.fs0
     = (Ok 1%Z, Samples.fs0)).
Proof.
  split_and!.
  - intros E run.
    assert (H : fetch_failed (Os.http_get E "https://docs.example/"))
      by (left; reflexivity).
    split; [exact H|].
    exact (proj1 (proj1 (C9_failure_leaves_no_output Samples.V0 E Samples.fs0)
                    "https://docs.example/" "output/links.txt") H).
  - intros E origin.
    assert (H1 : Os.http_get E "https://docs.example/" = Os.Response "<html>")
      by reflexivity.
    assert (H2 : Urllib.urlparse Samples.V0 "https://docs.example/" ""
                 = Ok origin) by (vm_compute; reflexivity).
    assert (H3 : ExtractLinks.find_sidebar_container Samples.V0
                   (Bs4.BeautifulSoup (Os.html_parser E "<html>"))
                   "https://docs.example/"
                   (Urllib.scheme origin +:+ "://" +:+ Urllib.netloc origin)
                 = Ok None) by (vm_compute; reflexivity).
    split_and!; [exact H1|exact H2|exact H3|].
    exact (proj1 (proj2 (proj1 (C9_failure_leaves_no_output Samples.V0 E
                                  Samples.fs0)
                           "https://docs.example/" "output/links.txt"))
             _ _ H1 H2 H3).
  - intros E.
    assert (H : ScrapeLinks.fetch_page_html E "https://docs.example/" true 3
                = None) by reflexivity.
    split; [exact H|].
    exact (proj1 (proj2 (C9_failure_leaves_no_output Samples.V0 E Samples.fs0)
                    "https://docs.example/" "output/links.txt" "all" false
                    true 3%Z) H).
  - intros E.
    assert (H1 : ScrapeLinks.fetch_page_html E "https://docs.example/" false 3
                 = Some "<html>") by reflexivity.
    assert (H2 : ScrapeLinks.find_sidebar_container Samples.V0
                   (Bs4.BeautifulSoup (Os.html_parser E "<html>"))
                   "https://docs.example/" = Ok None)
      by (vm_compute; reflexivity).
    split_and!; [exact H1|exact H2|].
    exact (proj1 (proj2 (proj2 (C9_failure_leaves_no_output Samples.V0 E
                                  Samples.fs0)
                           "https://docs.example/" "output/links.txt"
                           "sidebar" false false 3%Z))
             _ H1 eq_refl H2).
Defined.

(** ** Strings *)

Section Strings.

Lemma append_assoc (a b c : string) : (a +:+ b) +:+ c = a +:+ b +:+ c.
Proof. induction a as [|x a IH]; simpl; [done|]. by f_equal. Qed.

Lemma append_nil_r (a : string) : a +:+ "" = a.
Proof. induction a as [|x a IH]; simpl; [done|]. by f_equal. Qed.

Lemma append_length (a b : string) :
  String.length (a +:+ b) = String.length a + String.length b.
Proof. induction a as [|x a IH]; simpl; [done|]. by f_equal. Qed.

Lemma append_inv_head (a b c : string) : a +:+ b = a +:+ c -> b = c.
Proof. induction a as [|x a IH]; simpl; [done|]. intros [= H]. auto. Qed.

End Strings.

(** ** C4 and C10: schemes and network locations *)

Lemma startswith_app (p s t : string) :
  Py.startswith p s = true -> Py.startswith p (s +:+ t) = true.
Proof.
  revert s. induction p as [|a p IH]; intros [|b s]; simpl; try done.
  intros [-> Hp]%andb_prop. simpl. by apply IH.
Qed.

Lemma urlunsplit_scheme_prefix (scheme netloc url query fragment : string) :
  Py.is_empty scheme = false ->
  Py.startswith (scheme +:+ ":")
    (Urllib.urlunsplit scheme netloc url query fragment) = true.
Proof.
  intros Hs. unfold Urllib.urlunsplit. rewrite Hs. cbv iota zeta.
  assert (H : forall x, Py.startswith (scheme +:+ ":") (scheme +:+ ":" +:+ x) = true).
  { intros x. clear. induction scheme as [|c r IH]; simpl; [done|].
    by rewrite Ascii.eqb_refl. }
  destruct (Py.is_empty query), (Py.is_empty fragment);
    first [ apply H
          | apply startswith_app;
            first [apply H | apply startswith_app; apply H] ].
Qed.

(** What the two normalisers test on the resolved URL. *)
Lemma normalize_url_gates (V : Urllib.validators) :
  (forall href base_url strip_fragments absolute_url parsed,
     Urllib.urljoin V base_url href = Ok absolute_url ->
     Urllib.urlparse V absolute_url "" = Ok parsed ->
     Urllib.scheme parsed <> "http" -> Urllib.scheme parsed <> "https" ->
     ScrapeLinks.normalize_url V href base_url strip_fragments = Ok None)
  /\
  (forall href base_url target_origin absolute_url parsed target_parsed,
     Urllib.urljoin V base_url href = Ok absolute_url ->
     Urllib.urlparse V absolute_url "" = Ok parsed ->
     Urllib.urlparse V target_origin "" = Ok target_parsed ->
     Urllib.netloc parsed <> Urllib.netloc target_parsed ->
     ExtractLinks.normalize_url V href base_url target_origin = Ok None).
Proof.
  split.
  - intros href base_url sf absolute_url parsed Hjoin Hparse Hhttp Hhttps.
    unfold ScrapeLinks.normalize_url.
    destruct (Py.is_empty href || Py.startswith_any _ href); [done|].
    destruct (Py.startswith "#" href); [done|].
    rewrite Hjoin. cbn [mbind result_bind]. rewrite Hparse.
    cbn [mbind result_bind].
    apply String.eqb_neq in Hhttp, Hhttps.
    unfold Urllib.among. cbn [existsb]. by rewrite Hhttp, Hhttps.
  - intros href base_url target_origin absolute_url parsed target_parsed
      Hjoin Hparse Htarget Hne.
    unfold ExtractLinks.normalize_url.
    destruct (Py.is_empty href || Py.startswith_any _ href); [done|].
    destruct (Py.startswith "#" href); [done|].
    rewrite Hjoin. cbn [mbind result_bind]. rewrite Hparse.
    cbn [mbind result_bind]. rewrite Htarget. cbn [mbind result_bind].
    apply String.eqb_neq in Hne. by rewrite Hne.
Qed.

(** C4 fails for extract_links.py: an [ftp] link to the target host is not
    rejected but rewritten to [https]. *)
Lemma C4_counterexample :
  Urllib.urljoin Samples.V0 "https://docs.example/" "ftp://docs.example/files"
    = Ok "ftp://docs.example/files" /\
  Urllib.scheme <$> (match Urllib.urlparse Samples.V0 "ftp://docs.example/files" ""
                     with Ok p => Some p | Raise _ => None end) = Some "ftp" /\
  ExtractLinks.normalize_url Samples.V0 "ftp://docs.example/files"
    "https://docs.example/" "https://docs.example"
    = Ok (Some "https://docs.example/files").
Proof. split_and!; vm_compute; reflexivity. Qed.

(** C4, amended. [normalize_url] of scrape_links.py returns [None] for
    every href whose resolution has a scheme other than [http] and [https].
    [normalize_url] of extract_links.py does not look at the scheme: it
    returns [None] when the resolved network location differs from the
    target's, and every URL it returns has the scheme [https]. *)
Theorem C4_scheme_validation (V : Urllib.validators) :
  (forall href base_url strip_fragments absolute_url parsed,
     Urllib.urljoin V base_url href = Ok absolute_url ->
     Urllib.urlparse V absolute_url "" = Ok parsed ->
     Urllib.scheme parsed <> "http" -> Urllib.scheme parsed <> "https" ->
     ScrapeLinks.normalize_url V href base_url strip_fragments = Ok None)
  /\
  (forall href base_url target_origin absolute_url parsed target_parsed,
     Urllib.urljoin V base_url href = Ok absolute_url ->
     Urllib.urlparse V absolute_url "" = Ok parsed ->
     Urllib.urlparse V target_origin "" = Ok target_parsed ->
     (Urllib.netloc parsed <> Urllib.netloc target_parsed ->
      ExtractLinks.normalize_url V href base_url target_origin = Ok None) /\
     (forall normalized,
        ExtractLinks.normalize_url V href base_url target_origin
          = Ok (Some normalized) ->
        Urllib.netloc parsed = Urllib.netloc target_parsed /\
        Py.startswith "https:" normalized = true)).
Proof.
  split.
  - intros href base_url sf absolute_url parsed Hjoin Hparse Hhttp Hhttps.
    unfold ScrapeLinks.normalize_url.
    destruct (Py.is_empty href || Py.startswith_any _ href); [done|].
    destruct (Py.startswith "#" href); [done|].
    rewrite Hjoin. cbn [mbind result_bind]. rewrite Hparse.
    cbn [mbind result_bind].
    apply String.eqb_neq in Hhttp, Hhttps.
    unfold Urllib.among. cbn [existsb]. by rewrite Hhttp, Hhttps.
  - intros href base_url target_origin absolute_url parsed target_parsed
      Hjoin Hparse Htarget.
    unfold ExtractLinks.normalize_url.
    destruct (Py.is_empty href || Py.startswith_any _ href); [done|].
    destruct (Py.startswith "#" href); [done|].
    rewrite Hjoin. cbn [mbind result_bind]. rewrite Hparse.
    cbn [mbind result_bind]. rewrite Htarget. cbn [mbind result_bind].
    destruct (String.eqb (Urllib.netloc parsed) (Urllib.netloc target_parsed))
      eqn:Heq; cbn [negb].
    + apply String.eqb_eq in Heq. split; [done|].
      intros normalized [= <-]. split; [done|].
      by apply (urlunsplit_scheme_prefix "https").
    + apply String.eqb_neq in Heq. split; [done|]. done.
Qed.

Lemma C4_scheme_validation_witness :
  (Urllib.urljoin Samples.V0 "https://docs.example/" "ftp://docs.example/files"
     = Ok "ftp://docs.example/files" /\
   ScrapeLinks.normalize_url Samples.V0 "ftp://docs.example/files"
     "https://docs.example/" true = Ok None) /\
  (Urllib.urljoin Samples.V0 "https://docs.example/" "//other.example/x"
     = Ok "https://other.example/x" /\
   ExtractLinks.normalize_url Samples.V0 "//other.example/x"
     "https://docs.example/" "https://docs.example" = Ok None).
Proof.
  destruct (C4_scheme_validation Samples.V0) as [HS HE].
  split.
  - assert (H1 : Urllib.urljoin Samples.V0 "https://docs.example/"
                   "ftp://docs.example/files" = Ok "ftp://docs.example/files")
      by (vm_compute; reflexivity).
    split; [exact H1|].
    apply (HS _ _ true _
             {| Urllib.scheme := "ftp"; Urllib.netloc := "docs.example";
                Urllib.path := "/files"; Urllib.params := "";
                Urllib.query := ""; Urllib.fragment := "" |} H1);
      [vm_compute; reflexivity|discriminate|discriminate].
  - assert (H1 : Urllib.urljoin Samples.V0 "https://docs.example/"
                   "//other.example/x" = Ok "https://other.example/x")
      by (vm_compute; reflexivity).
    split; [exact H1|].
    apply (HE _ _ "https://docs.example" _
             {| Urllib.scheme := "https"; Urllib.netloc := "other.example";
                Urllib.path := "/x"; Urllib.params := "";
                Urllib.query := ""; Urllib.fragment := "" |}
             {| Urllib.scheme := "https"; Urllib.netloc := "docs.example";
                Urllib.path := ""; Urllib.params := "";
                Urllib.query := ""; Urllib.fragment := "" |} H1);
      [vm_compute; reflexivity|vm_compute; reflexivity|discriminate].
Defined.

Lemma host_port_neq (host p1 p2 : string) :
  p1 <> p2 -> host +:+ ":" +:+ p1 <> host +:+ ":" +:+ p2.
Proof.
  intros Hne Heq. apply Hne.
  apply append_inv_head in Heq. simpl in Heq. by injection Heq.
Qed.

(** C10. Origins are compared by the whole network location, host and
    port together. [is_internal_url] returns the equality of the two
    network locations, so it is [False] for two URLs whose network
    locations are one host with different ports, or a host with and
    without a port; and [normalize_url] of extract_links.py returns [None]
    for an href that resolves to the target's host on another port. *)
Theorem C10_origin_is_host_and_port (V : Urllib.validators) :
  (forall url base_url parsed_url parsed_base,
     Urllib.urlparse V url "" = Ok parsed_url ->
     Urllib.urlparse V base_url "" = Ok parsed_base ->
     ScrapeLinks.is_internal_url V url base_url =
       Ok (String.eqb (Urllib.netloc parsed_url) (Urllib.netloc parsed_base)) /\
     (forall host port1 port2,
        Urllib.netloc parsed_url = host +:+ ":" +:+ port1 ->
        Urllib.netloc parsed_base = host +:+ ":" +:+ port2 ->
        port1 <> port2 ->
        ScrapeLinks.is_internal_url V url base_url = Ok false) /\
     (forall host port,
        Urllib.netloc parsed_url = host +:+ ":" +:+ port ->
        Urllib.netloc parsed_base = host ->
        ScrapeLinks.is_internal_url V url base_url = Ok false))
  /\
  (forall href base_url target_origin absolute_url parsed target_parsed
          host port1 port2,
     Urllib.urljoin V base_url href = Ok absolute_url ->
     Urllib.urlparse V absolute_url "" = Ok parsed ->
     Urllib.urlparse V target_origin "" = Ok target_parsed ->
     Urllib.netloc parsed = host +:+ ":" +:+ port1 ->
     Urllib.netloc target_parsed = host +:+ ":" +:+ port2 ->
     port1 <> port2 ->
     ExtractLinks.normalize_url V href base_url target_origin = Ok None).
Proof.
  split.
  - intros url base_url parsed_url parsed_base Hu Hb.
    assert (Heq : ScrapeLinks.is_internal_url V url base_url =
                  Ok (String.eqb (Urllib.netloc parsed_url)
                        (Urllib.netloc parsed_base))).
    { unfold ScrapeLinks.is_internal_url. by rewrite Hu, Hb. }
    split_and!; [done| |].
    + intros host port1 port2 H1 H2 Hne. rewrite Heq, H1, H2. f_equal.
      apply String.eqb_neq. by apply host_port_neq.
    + intros host port H1 H2. rewrite Heq, H1, H2. f_equal.
      apply String.eqb_neq. intros Habs.
      apply (f_equal String.length) in Habs.
      rewrite !append_length in Habs. simpl in Habs. lia.
  - intros href base_url target_origin absolute_url parsed target_parsed
      host port1 port2 Hjoin Hparse Htarget H1 H2 Hne.
    eapply (proj2 (normalize_url_gates V)); [done..|].
    rewrite H1, H2. by apply host_port_neq.
Qed.

Lemma C10_origin_is_host_and_port_witness :
  (let parsed_url := {| Urllib.scheme := "https";
                        Urllib.netloc := "docs.example:8443";
                        Urllib.path := "/a"; Urllib.params := "";
                        Urllib.query := ""; Urllib.fragment := "" |} in
   let parsed_base := {| Urllib.scheme := "https";
                         Urllib.netloc := "docs.example:443";
                         Urllib.path := "/a"; Urllib.params := "";
                         Urllib.query := ""; Urllib.fragment := "" |} in
   Urllib.urlparse Samples.V0 "https://docs.example:8443/a" "" = Ok parsed_url /\
   Urllib.urlparse Samples.V0 "https://docs.example:443/a" "" = Ok parsed_base /\
   ScrapeLinks.is_internal_url Samples.V0 "https://docs.example:8443/a"
     "https://docs.example:443/a" = Ok false) /\
  (Urllib.urljoin Samples.V0 "https://docs.example:443/" "//docs.example:8443/a"
     = Ok "https://docs.example:8443/a" /\
   ExtractLinks.normalize_url Samples.V0 "//docs.example:8443/a"
     "https://docs.example:443/" "https://docs.example:443" = Ok None).
Proof.
  destruct (C10_origin_is_host_and_port Samples.V0) as [HS HE].
  split.
  - intros parsed_url parsed_base.
    assert (H1 : Urllib.urlparse Samples.V0 "https://docs.example:8443/a" ""
                 = Ok parsed_url) by (vm_compute; reflexivity).
    assert (H2 : Urllib.urlparse Samples.V0 "https://docs.example:443/a" ""
                 = Ok parsed_base) by (vm_compute; reflexivity).
    split_and!; [exact H1|exact H2|].
    apply (proj1 (proj2 (HS _ _ _ _ H1 H2)) "docs.example" "8443" "443");
      [reflexivity|reflexivity|discriminate].
  - assert (H1 : Urllib.urljoin Samples.V0 "https://docs.example:443/"
                   "//docs.example:8443/a" = Ok "https://docs.example:8443/a")
      by (vm_compute; reflexivity).
    split; [exact H1|].
    apply (HE _ _ "https://docs.example:443" _
             {| Urllib.scheme := "https"; Urllib.netloc := "docs.example:8443";
                Urllib.path := "/a"; Urllib.params := "";
                Urllib.query := ""; Urllib.fragment := "" |}
             {| Urllib.scheme := "https"; Urllib.netloc := "docs.example:443";
                Urllib.path := ""; Urllib.params := "";
                Urllib.query := ""; Urllib.fragment := "" |}
             "docs.example" "8443" "443" H1);
      [vm_compute; reflexivity|vm_compute; reflexivity|reflexivity|reflexivity
      |discriminate].
Defined.

(** ** Facts on the string operations *)

Section StringOps.

Implicit Types (p : ascii -> bool) (c : ascii) (s a b : string).

Lemma all_app p a b : Py.all p (a +:+ b) = Py.all p a && Py.all p b.
Proof.
  induction a as [|x a IH]; simpl; [done|]. by rewrite IH, andb_assoc.
Qed.

Lemma mem_app c a b : Py.mem c (a +:+ b) = Py.mem c a || Py.mem c b.
Proof.
  induction a as [|x a IH]; simpl; [done|]. by rewrite IH, orb_assoc.
Qed.

Lemma span_spec p s a b :
  Py.span p s = (a, b) ->
  s = a +:+ b /\ Py.all p a = true /\
  (b = "" \/ exists c r, b = String c r /\ p c = false).
Proof.
  revert a b. induction s as [|x s IH]; simpl; intros a b.
  - intros [= <- <-]. auto.
  - destruct (p x) eqn:Hx.
    + destruct (Py.span p s) as [a' b']. intros [= <- <-].
      destruct (IH _ _ eq_refl) as (-> & Ha & Hb). simpl. by rewrite Hx, Ha.
    + intros [= <- <-]. split_and!; [done|done|]. right. by exists x, s.
Qed.

Lemma span_app p a b :
  Py.all p a = true ->
  (b = "" \/ exists c r, b = String c r /\ p c = false) ->
  Py.span p (a +:+ b) = (a, b).
Proof.
  intros Ha Hb. induction a as [|x a IH]; simpl.
  - destruct Hb as [->|(c & r & -> & Hc)]; simpl; [done|]. by rewrite Hc.
  - simpl in Ha. apply andb_prop in Ha as [Hx Ha]. by rewrite Hx, (IH Ha).
Qed.

Lemma remove_all p s : Py.all (fun c => negb (p c)) (Py.remove p s) = true.
Proof.
  induction s as [|x s IH]; simpl; [done|].
  destruct (p x) eqn:Hx; simpl; [done|]. by rewrite Hx, IH.
Qed.

Lemma remove_id p s :
  Py.all (fun c => negb (p c)) s = true -> Py.remove p s = s.
Proof.
  induction s as [|x s IH]; simpl; [done|].
  intros [Hx Hs]%andb_prop. apply negb_true_iff in Hx. by rewrite Hx, IH.
Qed.

Lemma partition_spec c s a b :
  Py.partition c s = Some (a, b) ->
  s = a +:+ String c b /\ Py.mem c a = false.
Proof.
  revert a. induction s as [|x s IH]; simpl; intros a; [done|].
  destruct (Ascii.eqb_spec x c) as [->|Hne].
  - by intros [= <- <-].
  - destruct (Py.partition c s) as [[a' b']|]; [|done]. intros [= <- <-].
    destruct (IH _ eq_refl) as [-> Ha]. simpl. rewrite Ha, orb_false_r.
    split; [done|]. destruct (Ascii.eqb_spec c x); [congruence|done].
Qed.

Lemma partition_none c s : Py.partition c s = None <-> Py.mem c s = false.
Proof.
  induction s as [|x s IH]; simpl; [done|].
  rewrite (Ascii.eqb_sym c x).
  destruct (Ascii.eqb x c); simpl; [done|].
  destruct (Py.partition c s) as [[a' b']|]; [|tauto].
  split; [done|]. intros H%IH. done.
Qed.

Lemma partition_app c a b :
  Py.mem c a = false -> Py.partition c (a +:+ String c b) = Some (a, b).
Proof.
  induction a as [|x a IH]; simpl.
  - by rewrite Ascii.eqb_refl.
  - intros [Hx Ha]%orb_false_elim. rewrite (Ascii.eqb_sym x c), Hx.
    by rewrite (IH Ha).
Qed.

Lemma rpartition_spec c s a b :
  Py.rpartition c s = Some (a, b) ->
  s = a +:+ String c b /\ Py.mem c b = false.
Proof.
  revert a. induction s as [|x s IH]; simpl; intros a; [done|].
  destruct (Py.rpartition c s) as [[a' b']|] eqn:Hr.
  - intros [= <- <-]. destruct (IH _ eq_refl) as [-> Hb]. done.
  - destruct (Ascii.eqb_spec x c) as [->|]; [|done]. intros [= <- <-].
    split; [done|]. clear IH. revert Hr. generalize s as t.
    induction t as [|y t IHt]; simpl; [done|].
    destruct (Py.rpartition c t) as [[??]|]; [done|].
    destruct (Ascii.eqb_spec y c) as [->|Hne]; [done|]. intros _.
    rewrite IHt by done. rewrite orb_false_r.
    destruct (Ascii.eqb_spec c y); [congruence|done].
Qed.

Lemma rpartition_none c s : Py.rpartition c s = None -> Py.mem c s = false.
Proof.
  induction s as [|x s IH]; simpl; [done|].
  destruct (Py.rpartition c s) as [[??]|]; [done|].
  rewrite (Ascii.eqb_sym c x). destruct (Ascii.eqb x c); [done|].
  intros _. by rewrite IH.
Qed.

(** [rstrip] keeps a prefix, which satisfies what the string does. *)
Lemma rstrip_prefix p s : exists t, s = Py.rstrip p s +:+ t.
Proof.
  induction s as [|x s [t IH]]; simpl; [by exists ""|].
  destruct (Py.is_empty (Py.rstrip p s) && p x).
  - by exists (String x s).
  - exists t. simpl. by rewrite <- IH.
Qed.

Lemma rstrip_idem p s : Py.rstrip p (Py.rstrip p s) = Py.rstrip p s.
Proof.
  induction s as [|x s IH]; simpl; [done|].
  destruct (Py.is_empty (Py.rstrip p s) && p x) eqn:Hc; simpl; [done|].
  by rewrite IH, Hc.
Qed.

(** A stripped string does not end with a stripped character. *)
Lemma rstrip_no_trailing p s t c :
  Py.rstrip p s = t +:+ String c "" -> p c = false.
Proof.
  revert t. induction s as [|x s IH]; simpl; intros t.
  - by destruct t.
  - destruct (Py.is_empty (Py.rstrip p s) && p x) eqn:Hc; [by destruct t|].
    destruct t as [|y t]; simpl.
    + intros [= -> Hs]. rewrite Hs in Hc. simpl in Hc. done.
    + intros [= -> Hs]. by apply (IH t).
Qed.

(** What [rstrip] removes consists of stripped characters. *)
Lemma rstrip_removed p s :
  exists t, s = Py.rstrip p s +:+ t /\ Py.all p t = true.
Proof.
  induction s as [|x s (t & IH & Ht)]; simpl; [by exists ""|].
  destruct (Py.is_empty (Py.rstrip p s) && p x) eqn:Hc.
  - apply andb_prop in Hc as [He Hx]. exists (String x s). split; [done|].
    simpl. rewrite Hx. destruct (Py.rstrip p s); [|done]. simpl in IH.
    by rewrite IH.
  - exists t. simpl. by rewrite <- IH.
Qed.

End StringOps.

(** ** Facts on [urllib.parse] *)

Section UrllibFacts.

Import Urllib.

Context (V : validators).

(** No tab, carriage return or line feed. *)
Definition clean (s : string) : Prop :=
  Py.all (fun c => negb (unsafe_byte c)) s = true.

(** None of the delimiters ['/?#']. *)
Definition no_delim (s : string) : Prop :=
  Py.all (fun c => negb (netloc_delim c)) s = true.

(** What [urlsplit] guarantees about the network location, the path, the
    query and the fragment it returns. *)
Record split_wf (n p q f : string) : Prop := {
  wf_netloc_clean : clean n;
  wf_netloc_delim : no_delim n;
  wf_netloc_brackets : brackets_ok V n = true;
  wf_netloc_check : checknetloc V n = true;
  wf_path_clean : clean p;
  wf_path_hash : Py.mem "#" p = false;
  wf_path_question : Py.mem "?" p = false;
  wf_path_root : n <> "" -> p = "" \/ Py.startswith "/" p = true;
  wf_query_clean : clean q;
  wf_query_hash : Py.mem "#" q = false;
  wf_fragment_clean : clean f
}.

Lemma clean_app a b : clean (a +:+ b) <-> clean a /\ clean b.
Proof. unfold clean. rewrite all_app. apply andb_true_iff. Qed.

Lemma split_tail_spec c u a b :
  split_tail c u = (a, b) ->
  Py.mem c a = false /\ ((u = a /\ b = "") \/ u = a +:+ String c b).
Proof.
  unfold split_tail. destruct (Py.partition c u) as [[a' b']|] eqn:Hp.
  - intros [= <- <-]. apply partition_spec in Hp as [-> Ha]. auto.
  - intros [= <- <-]. apply partition_none in Hp. auto.
Qed.

Lemma split_scheme_clean d u s u' :
  split_scheme d u = (s, u') -> clean u -> clean u'.
Proof.
  unfold split_scheme.
  destruct (Py.partition ":" u) as [[[|c0 pre] rest]|] eqn:Hp;
    try (by intros [= <- <-]).
  destruct (Py.isascii_alpha c0 && Py.all scheme_char (String c0 pre));
    [|by intros [= <- <-]].
  intros [= <- <-] Hu. apply partition_spec in Hp as [-> _].
  apply clean_app in Hu as [_ Hu]. simpl in Hu. unfold clean.
  by apply andb_prop in Hu as [_ ?].
Qed.

Lemma netloc_delim_cases c :
  netloc_delim c = true -> c = "/"%char \/ c = "?"%char \/ c = "#"%char.
Proof.
  unfold netloc_delim. simpl.
  destruct (Ascii.eqb_spec c "/"); [auto|].
  destruct (Ascii.eqb_spec c "?"); [auto|].
  destruct (Ascii.eqb_spec c "#"); [auto|done].
Qed.

Lemma startswith_drop p s :
  Py.startswith p s = true -> s = p +:+ Py.drop (String.length p) s.
Proof.
  revert s. induction p as [|a p IH]; intros [|b s]; simpl; try done.
  intros [->%Ascii.eqb_eq Hp]%andb_prop. f_equal. by apply IH.
Qed.

(** The path that follows a network location is empty or starts with a
    slash. *)
Lemma path_after_netloc rest x f p q :
  (rest = "" \/ exists c r, rest = String c r /\ negb (netloc_delim c) = false) ->
  split_tail "#" rest = (x, f) -> split_tail "?" x = (p, q) ->
  p = "" \/ Py.startswith "/" p = true.
Proof.
  intros Hrest [Hx Hx']%split_tail_spec [Hp Hp']%split_tail_spec.
  destruct p as [|c0 p']; [by left|]. right.
  assert (Hhead : exists r, rest = String c0 r).
  { destruct Hp' as [[-> _]| ->]; (destruct Hx' as [[-> _]| ->]; simpl; eauto). }
  destruct Hhead as [r Hr]. destruct Hrest as [->|(c & r' & Hr' & Hc)]; [done|].
  rewrite Hr in Hr'. injection Hr' as -> ->.
  apply negb_false_iff, netloc_delim_cases in Hc as [->|[->| ->]].
  - done.
  - simpl in Hp. done.
  - destruct Hp' as [[-> _]| ->]; simpl in Hx; done.
Qed.

Lemma urlsplit_wf url d s n p q f :
  urlsplit V url d = Ok (s, n, p, q, f) -> split_wf n p q f.
Proof.
  unfold urlsplit.
  set (u0 := Py.remove unsafe_byte (Py.lstrip c0_control_or_space url)).
  assert (Hu0 : clean u0) by apply remove_all.
  destruct (split_scheme _ u0) as [s' u1] eqn:Hscheme.
  pose proof (split_scheme_clean _ _ _ _ Hscheme Hu0) as Hu1.
  destruct (Py.startswith "//" u1) eqn:Hslashes.
  - destruct (splitnetloc (Py.drop 2 u1)) as [n' rest] eqn:Hnet.
    apply span_spec in Hnet as (Hdrop & Hn & Hrest).
    apply startswith_drop in Hslashes. simpl in Hslashes.
    rewrite Hslashes in Hu1. simpl in Hu1.
    change (Py.drop 2 u1) with (Py.drop 2 u1) in Hdrop.
    assert (Hclean : clean (n' +:+ rest)).
    { rewrite <- Hdrop. unfold clean in *. simpl in Hu1. done. }
    apply clean_app in Hclean as [Hcn Hcrest].
    destruct (brackets_ok V n') eqn:Hbr; [|done].
    cbn [mbind result_bind].
    destruct (split_tail "#" rest) as [x f'] eqn:Hx.
    destruct (split_tail "?" x) as [p' q'] eqn:Hp.
    destruct (checknetloc V n') eqn:Hck; [|done]. intros [= <- <- <- <- <-].
    pose proof (path_after_netloc _ _ _ _ _ Hrest Hx Hp) as Hroot.
    apply split_tail_spec in Hx as [Hxh Hx], Hp as [Hpq Hp].
    assert (Hcx : clean x /\ clean f').
    { destruct Hx as [[-> ->]| ->]; [done|].
      apply clean_app in Hcrest as [? Hf]. split; [done|].
      unfold clean in *. simpl in Hf. done. }
    destruct Hcx as [Hcx Hcf].
    assert (Hcp : clean p' /\ clean q' /\ Py.mem "#" p' = false /\
                  Py.mem "#" q' = false).
    { destruct Hp as [[-> ->]| ->]; [done|].
      rewrite mem_app in Hxh. apply orb_false_elim in Hxh as [? Hq].
      apply clean_app in Hcx as [? Hq']. unfold clean in *.
      simpl in Hq, Hq'. done. }
    destruct Hcp as (? & ? & ? & ?). by constructor.
  - cbn [mbind result_bind].
    destruct (split_tail "#" u1) as [x f'] eqn:Hx.
    destruct (split_tail "?" x) as [p' q'] eqn:Hp.
    cbn [checknetloc Py.is_empty orb]. intros [= <- <- <- <- <-].
    apply split_tail_spec in Hx as [Hxh Hx], Hp as [Hpq Hp].
    assert (Hcx : clean x /\ clean f').
    { destruct Hx as [[-> ->]| ->]; [done|].
      apply clean_app in Hu1 as [? Hf]. split; [done|].
      unfold clean in *. simpl in Hf. done. }
    destruct Hcx as [Hcx Hcf].
    assert (Hcp : clean p' /\ clean q' /\ Py.mem "#" p' = false /\
                  Py.mem "#" q' = false).
    { destruct Hp as [[-> ->]| ->]; [done|].
      rewrite mem_app in Hxh. apply orb_false_elim in Hxh as [? Hq].
      apply clean_app in Hcx as [? Hq']. unfold clean in *.
      simpl in Hq, Hq'. done. }
    destruct Hcp as (? & ? & ? & ?). by constructor.
Qed.

(** A scheme as [urlsplit] returns it: empty, or lower-case scheme
    characters after an ASCII letter. *)
Definition scheme_ok (s : string) : Prop :=
  match s with
  | EmptyString => True
  | String c0 _ =>
      Py.isascii_alpha c0 = true /\ Py.all scheme_char s = true /\
      Py.lower s = s
  end.

Lemma scheme_char_facts c :
  scheme_char c = true ->
  unsafe_byte c = false /\ Ascii.eqb c ":" = false /\
  c0_control_or_space c = false.
Proof.
  destruct c as [[] [] [] [] [] [] [] []]; intros H; vm_compute in H |- *;
    solve [discriminate H | auto].
Qed.

Lemma scheme_chars_facts s :
  Py.all scheme_char s = true -> clean s /\ Py.mem ":" s = false.
Proof.
  unfold clean. induction s as [|c s IH]; cbn [Py.all Py.mem]; [done|].
  intros [Hc Hs]%andb_prop. destruct (IH Hs) as [-> ->].
  destruct (scheme_char_facts c Hc) as (-> & Hcolon & _).
  rewrite Ascii.eqb_sym, Hcolon. done.
Qed.

Lemma urlunsplit_netloc s n p q f :
  n <> "" -> (p = "" \/ Py.startswith "/" p = true) ->
  urlunsplit s n p q f =
  (if Py.is_empty s then "" else s +:+ ":") +:+ "//" +:+ n +:+ p +:+
  (if Py.is_empty q then "" else "?" +:+ q) +:+
  (if Py.is_empty f then "" else "#" +:+ f).
Proof.
  intros Hn Hp. unfold urlunsplit.
  assert (Py.is_empty n = false) as -> by (by destruct n).
  assert (negb (Py.is_empty p) && negb (Py.startswith "/" p) = false) as ->.
  { destruct Hp as [->| ->]; [done|]. by rewrite andb_false_r. }
  cbn [negb orb].
  destruct (Py.is_empty s), (Py.is_empty q), (Py.is_empty f); simpl;
    rewrite ?append_assoc, ?append_nil_r; simpl; rewrite ?append_assoc;
    simpl; rewrite ?append_nil_r; done.
Qed.

(** The scheme step of [urlsplit] on a URL put together from a scheme and
    a rest that starts with a slash. *)
Lemma split_scheme_rebuilt s d y :
  scheme_ok s -> (s = "" -> d = "") -> clean y ->
  let url := (if Py.is_empty s then "" else s +:+ ":") +:+ String "/" y in
  Py.remove unsafe_byte (Py.lstrip c0_control_or_space url) = url /\
  split_scheme (Py.remove unsafe_byte (Py.strip c0_control_or_space d)) url
    = (s, String "/" y).
Proof.
  intros Hs Hd Hy. destruct s as [|c0 r]; cbn [Py.is_empty]; cbv zeta.
  - rewrite (Hd eq_refl). simpl. rewrite (remove_id _ _ Hy). split; [done|].
    unfold split_scheme. simpl.
    by destruct (Py.partition ":" y) as [[a b]|].
  - destruct Hs as (Halpha & Hchars & Hlower).
    pose proof (scheme_chars_facts _ Hchars) as [Hclean Hcolon].
    simpl in Hchars. apply andb_prop in Hchars as [Hc0 Hr].
    destruct (scheme_char_facts _ Hc0) as (Hu0 & _ & Hsp0).
    assert (Hwhole : clean (String c0 r +:+ ":" +:+ String "/" y)).
    { apply clean_app. split; [done|]. unfold clean in *. simpl. done. }
    rewrite append_assoc. split.
    + unfold Py.lstrip. simpl. rewrite Hsp0. simpl.
      change (String c0 (Py.remove unsafe_byte ?x)) with
        (String c0 (Py.remove unsafe_byte x)).
      unfold clean in Hwhole. simpl in Hwhole. rewrite Hu0 in Hwhole |- *.
      simpl in Hwhole |- *. by rewrite (remove_id _ _ Hwhole).
    + unfold split_scheme.
      change (String c0 r +:+ ":" +:+ String "/" y) with
        (String c0 r +:+ String ":" (String "/" y)).
      rewrite (partition_app _ _ _ Hcolon). rewrite Halpha.
      cbn [Py.all andb]. rewrite Hc0, Hr. cbn [andb]. by rewrite Hlower.
Qed.

(** Splitting what [urlunsplit] put together gives the parts back, for a
    URL with a network location. *)
Lemma urlsplit_urlunsplit s n p q f d :
  scheme_ok s -> (s = "" -> d = "") -> n <> "" -> split_wf n p q f ->
  urlsplit V (urlunsplit s n p q f) d = Ok (s, n, p, q, f).
Proof.
  intros Hs Hd Hn [Hcn Hdn Hbr Hck Hcp Hph Hpq Hroot Hcq Hqh Hcf].
  specialize (Hroot Hn). rewrite (urlunsplit_netloc _ _ _ _ _ Hn Hroot).
  set (Q := if Py.is_empty q then "" else "?" +:+ q).
  set (F := if Py.is_empty f then "" else "#" +:+ f).
  assert (HcQ : clean Q) by (subst Q; destruct (Py.is_empty q); done).
  assert (HcF : clean F) by (subst F; destruct (Py.is_empty f); done).
  assert (Hy : clean (String "/" (n +:+ p +:+ Q +:+ F))).
  { change (clean ("/" +:+ n +:+ p +:+ Q +:+ F)).
    repeat (apply clean_app; split); done. }
  destruct (split_scheme_rebuilt s d _ Hs Hd Hy) as [Hpre Hscheme].
  unfold urlsplit. cbv zeta in Hpre, Hscheme.
  change ("//" +:+ n +:+ p +:+ Q +:+ F) with
    (String "/" (String "/" (n +:+ p +:+ Q +:+ F))).
  rewrite Hpre, Hscheme.
  change (Py.startswith "//" (String "/" (String "/" (n +:+ p +:+ Q +:+ F))))
    with true.
  change (Py.drop 2 (String "/" (String "/" (n +:+ p +:+ Q +:+ F))))
    with (n +:+ p +:+ Q +:+ F).
  cbv iota.
  assert (Hnet : splitnetloc (n +:+ p +:+ Q +:+ F) = (n, p +:+ Q +:+ F)).
  { apply span_app; [done|].
    destruct Hroot as [->|Hp].
    - subst Q F. destruct (Py.is_empty q), (Py.is_empty f); simpl; eauto.
    - destruct p as [|c p']; [done|]. cbn [Py.startswith] in Hp.
      apply andb_prop in Hp as [Hc _]. apply Ascii.eqb_eq in Hc as <-.
      right. by eexists _, _. }
  rewrite Hnet, Hbr. cbn [mbind result_bind].
  assert (HF : split_tail "#" (p +:+ Q +:+ F) = (p +:+ Q, f)).
  { unfold split_tail. subst F. destruct f as [|cf f']; cbn [Py.is_empty].
    - rewrite append_nil_r.
      assert (Py.partition "#" (p +:+ Q) = None) as ->; [|done].
      apply partition_none. rewrite mem_app, Hph. subst Q.
      destruct (Py.is_empty q); simpl; [done|]. by rewrite Hqh.
    - rewrite <- append_assoc.
      change ("#" +:+ String cf f') with (String "#" (String cf f')).
      rewrite partition_app; [done|]. rewrite mem_app, Hph. subst Q.
      destruct (Py.is_empty q); simpl; [done|]. by rewrite Hqh. }
  rewrite HF.
  assert (HQ : split_tail "?" (p +:+ Q) = (p, q)).
  { unfold split_tail. subst Q. destruct q as [|cq q']; cbn [Py.is_empty].
    - rewrite append_nil_r.
      by assert (Py.partition "?" p = None) as -> by by apply partition_none.
    - change ("?" +:+ String cq q') with (String "?" (String cq q')).
      by rewrite partition_app. }
  rewrite HQ, Hck. done.
Qed.

(** The last segment of a path: the text after its last slash. *)
Definition last_segment (p : string) : string :=
  match Py.rpartition "/" p with
  | Some (_, seg) => seg
  | None => p
  end.

(** The trailing-slash policy of the two normalisers. *)
Definition stripped_path (p : string) : string :=
  if negb (String.eqb p "/") then Py.rstrip (Ascii.eqb "/") p else "/".

Lemma splitparams_none s p :
  Py.mem ";" (last_segment p) = false ->
  (if among s uses_params && Py.mem ";" p then splitparams p
   else (p, EmptyString)) = (p, EmptyString).
Proof.
  intros Hseg. destruct (among s uses_params && Py.mem ";" p) eqn:Hc; [|done].
  apply andb_prop in Hc as [_ Hc]. unfold splitparams, last_segment in *.
  destruct (Py.rpartition "/" p) as [[dir seg]|]; [|congruence].
  apply partition_none in Hseg. by rewrite Hseg.
Qed.

Lemma take_prefix n s : exists t, s = Py.take n s +:+ t.
Proof.
  revert s. induction n as [|n IH]; intros [|c s]; simpl; eauto.
  destruct (IH s) as [t Ht]. exists t. by rewrite <- Ht.
Qed.

Lemma splitparams_prefix u : exists t, u = (splitparams u).1 +:+ t.
Proof.
  unfold splitparams. destruct (Py.rpartition "/" u) as [[dir seg]|] eqn:Hr.
  - apply rpartition_spec in Hr as [-> _].
    destruct (Py.partition ";" seg) as [[a b]|] eqn:Hp; simpl.
    + apply partition_spec in Hp as [-> _]. exists (String ";" b).
      by rewrite !append_assoc.
    + exists "". by rewrite append_nil_r.
  - destruct (Py.partition ";" u) as [[a b]|] eqn:Hp; simpl.
    + apply partition_spec in Hp as [-> _]. by exists (String ";" b).
    + apply take_prefix.
Qed.

(** A prefix of a well-formed path is a well-formed path. *)
Lemma split_wf_prefix n p t q f f' :
  split_wf n (p +:+ t) q f -> clean f' -> split_wf n p q f'.
Proof.
  intros [Hcn Hdn Hbr Hck Hcp Hph Hpq Hroot Hcq Hqh Hcf] Hf'.
  apply clean_app in Hcp as [Hcp _].
  rewrite mem_app in Hph, Hpq.
  apply orb_false_elim in Hph as [Hph _], Hpq as [Hpq _].
  constructor; try done.
  intros Hn. destruct p as [|c p']; [by left|]. right.
  destruct (Hroot Hn) as [Hnil|Hs]; [done|]. simpl in Hs |- *.
  apply andb_prop in Hs as [-> _]. done.
Qed.

Lemma urlparse_wf url d r :
  urlparse V url d = Ok r ->
  split_wf (netloc r) (path r) (query r) (fragment r).
Proof.
  unfold urlparse.
  destruct (urlsplit V url d) as [[[[[s n] p] q] f]|e] eqn:Hsplit; [|done].
  apply urlsplit_wf in Hsplit. cbn [mbind result_bind].
  destruct (among s uses_params && Py.mem ";" p).
  - destruct (splitparams_prefix p) as [t Ht].
    destruct (splitparams p) as [p' params] eqn:Hsp. simpl in Ht.
    intros [= <-]. simpl. rewrite Ht in Hsplit.
    eapply split_wf_prefix; [done|]. by destruct Hsplit.
  - by intros [= <-].
Qed.

Lemma stripped_path_prefix p : exists t, p = stripped_path p +:+ t.
Proof.
  unfold stripped_path. destruct (String.eqb_spec p "/") as [->|_]; simpl.
  - by exists "".
  - apply rstrip_prefix.
Qed.

Lemma stripped_path_idem p : stripped_path (stripped_path p) = stripped_path p.
Proof.
  unfold stripped_path. destruct (String.eqb p "/") eqn:Hp; simpl; [done|].
  destruct (String.eqb (Py.rstrip (Ascii.eqb "/") p) "/") eqn:E; simpl.
  - symmetry. by apply String.eqb_eq.
  - apply rstrip_idem.
Qed.

(** Parsing what [urlunparse] put together, without parameters, gives the
    parts back, for a URL with a network location whose last path segment
    holds no semicolon. *)
Lemma urlparse_urlunparse s n p q f d :
  scheme_ok s -> (s = "" -> d = "") -> n <> "" -> split_wf n p q f ->
  Py.mem ";" (last_segment p) = false ->
  urlparse V (urlunparse s n p "" q f) d =
  Ok {| scheme := s; netloc := n; path := p; params := "";
        query := q; fragment := f |}.
Proof.
  intros Hs Hd Hn Hwf Hseg. unfold urlparse, urlunparse. cbn [Py.is_empty].
  rewrite (urlsplit_urlunsplit _ _ _ _ _ _ Hs Hd Hn Hwf).
  cbn [mbind result_bind]. by rewrite (splitparams_none _ _ Hseg).
Qed.

Lemma urljoin_base_parsed base href a :
  urljoin V base href = Ok a -> Py.is_empty href = false ->
  Py.is_empty base = true \/ exists b, urlparse V base "" = Ok b.
Proof.
  unfold urljoin. destruct (Py.is_empty base); [by left|].
  intros H He. right. rewrite He in H.
  destruct (urlparse V base "") as [b|e]; [eauto|done].
Qed.

(** Joining an absolute URL with a network location returns it. *)
Lemma urljoin_absolute base s n p q f :
  (Py.is_empty base = true \/ exists b, urlparse V base "" = Ok b) ->
  scheme_ok s -> s <> "" -> among s uses_netloc = true ->
  n <> "" -> split_wf n p q f -> Py.mem ";" (last_segment p) = false ->
  urljoin V base (urlunparse s n p "" q f) = Ok (urlunparse s n p "" q f).
Proof.
  intros Hbase Hs Hne Hnet Hn Hwf Hseg. unfold urljoin.
  destruct (Py.is_empty base) eqn:Hb; [done|].
  destruct Hbase as [?|[b Hparse]]; [done|].
  assert (Py.is_empty (urlunparse s n p "" q f) = false) as ->.
  { pose proof (urlunsplit_scheme_prefix s n p q f) as Hpre.
    unfold urlunparse. cbn [Py.is_empty].
    destruct s as [|c0 r]; [done|]. specialize (Hpre eq_refl).
    by destruct (urlunsplit (String c0 r) n p q f). }
  rewrite Hparse. cbn [mbind result_bind].
  rewrite (urlparse_urlunparse _ _ _ _ _ _ Hs (fun H => False_ind _ (Hne H))
             Hn Hwf Hseg).
  cbn [mbind result_bind scheme netloc path params query fragment].
  destruct (negb (String.eqb s (scheme b)) || negb (among s uses_relative));
    [done|].
  rewrite Hnet. unfold nonempty.
  assert (Py.is_empty n = false) as -> by (by destruct n). done.
Qed.

End UrllibFacts.

(** ** C7: normalizing a normalized URL *)

Section Renormalize.

Import Urllib.

Context (V : validators).

(** A URL that starts with the letter [h] passes the first tests of the
    two normalisers. *)
Lemma h_prefix_guards x r :
  Py.startswith (String "h" x) r = true ->
  Py.is_empty r = false /\
  Py.startswith_any ["mailto:"; "tel:"; "javascript:"; "data:"] r = false /\
  Py.startswith_any ["mailto:"; "tel:"; "javascript:"] r = false /\
  Py.startswith "#" r = false.
Proof.
  destruct r as [|c r]; [done|]. cbn [Py.startswith].
  intros [Hc _]%andb_prop. apply Ascii.eqb_eq in Hc as <-. done.
Qed.

Lemma http_or_https s :
  among s ["http"; "https"] = true -> s = "http" \/ s = "https".
Proof.
  unfold among. cbn [existsb]. rewrite orb_false_r.
  intros [H|H]%orb_prop; apply String.eqb_eq in H; auto.
Qed.

Lemma scrape_normalize_url_some href base_url strip_fragments r :
  ScrapeLinks.normalize_url V href base_url strip_fragments = Ok (Some r) ->
  Py.is_empty href = false /\
  exists absolute_url parsed,
    urljoin V base_url href = Ok absolute_url /\
    urlparse V absolute_url "" = Ok parsed /\
    among (scheme parsed) ["http"; "https"] = true /\
    r = urlunparse (scheme parsed) (netloc parsed)
          (stripped_path (path parsed)) "" (query parsed)
          (if strip_fragments then "" else fragment parsed).
Proof.
  unfold ScrapeLinks.normalize_url.
  destruct (Py.is_empty href); [done|]. cbn [orb].
  destruct (Py.startswith_any _ href); [done|].
  destruct (Py.startswith "#" href); [done|].
  destruct (urljoin V base_url href) as [absolute_url|e] eqn:Hj; [|done].
  cbn [mbind result_bind].
  destruct (urlparse V absolute_url "") as [parsed|e] eqn:Hp; [|done].
  cbn [mbind result_bind].
  destruct (among (scheme parsed) ["http"; "https"]) eqn:Hs; [|done].
  intros [= <-]. split; [done|]. exists absolute_url, parsed.
  split_and!; done.
Qed.

Lemma extract_normalize_url_some href base_url target_origin r :
  ExtractLinks.normalize_url V href base_url target_origin = Ok (Some r) ->
  Py.is_empty href = false /\
  exists absolute_url parsed target_parsed,
    urljoin V base_url href = Ok absolute_url /\
    urlparse V absolute_url "" = Ok parsed /\
    urlparse V target_origin "" = Ok target_parsed /\
    netloc parsed = netloc target_parsed /\
    r = urlunparse "https" (netloc parsed) (stripped_path (path parsed)) ""
          (query parsed) "".
Proof.
  unfold ExtractLinks.normalize_url.
  destruct (Py.is_empty href); [done|]. cbn [orb].
  destruct (Py.startswith_any _ href); [done|].
  destruct (Py.startswith "#" href); [done|].
  destruct (urljoin V base_url href) as [absolute_url|e] eqn:Hj; [|done].
  cbn [mbind result_bind].
  destruct (urlparse V absolute_url "") as [parsed|e] eqn:Hp; [|done].
  cbn [mbind result_bind].
  destruct (urlparse V target_origin "") as [target_parsed|e] eqn:Ht; [|done].
  cbn [mbind result_bind].
  destruct (String.eqb_spec (netloc parsed) (netloc target_parsed)) as [Heq|];
    [|done].
  intros [= <-]. split; [done|]. exists absolute_url, parsed, target_parsed.
  split_and!; done.
Qed.

(** The stripped path of a parsed URL is a well-formed path. *)
Lemma stripped_wf url d parsed f' :
  urlparse V url d = Ok parsed -> clean f' ->
  split_wf V (netloc parsed) (stripped_path (path parsed)) (query parsed) f'.
Proof.
  intros Hwf%urlparse_wf Hf'.
  destruct (stripped_path_prefix (path parsed)) as [t Ht].
  rewrite Ht in Hwf. by eapply split_wf_prefix.
Qed.

End Renormalize.

(** C7 fails as stated: the href ["/guide;v2/"] normalizes to a URL whose
    own normalization is another URL, in both scripts. Stripping the
    trailing slash moves [";v2"] into the last path segment, where the next
    parse reads it as parameters, which the normalisers drop. *)
Lemma C7_counterexample :
  (ScrapeLinks.normalize_url Samples.V0 "/guide;v2/" "https://docs.example/" true
     = Ok (Some "https://docs.example/guide;v2") /\
   ScrapeLinks.normalize_url Samples.V0 "https://docs.example/guide;v2"
     "https://docs.example/" true = Ok (Some "https://docs.example/guide")) /\
  (ExtractLinks.normalize_url Samples.V0 "/guide;v2/" "https://docs.example/"
     "https://docs.example" = Ok (Some "https://docs.example/guide;v2") /\
   ExtractLinks.normalize_url Samples.V0 "https://docs.example/guide;v2"
     "https://docs.example/" "https://docs.example"
     = Ok (Some "https://docs.example/guide")).
Proof. split_and!; vm_compute; reflexivity. Qed.

(** C7, amended. In both scripts, when [normalize_url] returns [r] for an
    href whose resolution has a network location and whose path, once its
    trailing slashes are stripped, has no [';'] in its last segment,
    [normalize_url] returns [r] for [r]. *)
Theorem C7_normalize_fixed_point (V : Urllib.validators) :
  (forall href base_url strip_fragments absolute_url parsed r,
     Urllib.urljoin V base_url href = Ok absolute_url ->
     Urllib.urlparse V absolute_url "" = Ok parsed ->
     Urllib.netloc parsed <> "" ->
     Py.mem ";" (last_segment (stripped_path (Urllib.path parsed))) = false ->
     ScrapeLinks.normalize_url V href base_url strip_fragments = Ok (Some r) ->
     ScrapeLinks.normalize_url V r base_url strip_fragments = Ok (Some r))
  /\
  (forall href base_url target_origin absolute_url parsed r,
     Urllib.urljoin V base_url href = Ok absolute_url ->
     Urllib.urlparse V absolute_url "" = Ok parsed ->
     Urllib.netloc parsed <> "" ->
     Py.mem ";" (last_segment (stripped_path (Urllib.path parsed))) = false ->
     ExtractLinks.normalize_url V href base_url target_origin = Ok (Some r) ->
     ExtractLinks.normalize_url V r base_url target_origin = Ok (Some r)).
Proof.
  split.
  - intros href base_url sf absolute_url parsed r Hjoin Hparse Hn Hseg Hnorm.
    apply scrape_normalize_url_some in Hnorm
      as (Hhref & a' & p' & Hjoin' & Hparse' & Hscheme & ->).
    rewrite Hjoin in Hjoin'. injection Hjoin' as <-.
    rewrite Hparse in Hparse'. injection Hparse' as <-.
    set (f' := if sf then "" else Urllib.fragment parsed).
    assert (Hf' : clean f').
    { subst f'. destruct sf; [done|]. by destruct (urlparse_wf V _ _ _ Hparse). }
    pose proof (stripped_wf V _ _ _ f' Hparse Hf') as Hwf.
    pose proof (urljoin_base_parsed V _ _ _ Hjoin Hhref) as Hbase.
    assert (Hs : scheme_ok (Urllib.scheme parsed) /\ Urllib.scheme parsed <> "" /\
                 Urllib.among (Urllib.scheme parsed) Urllib.uses_netloc = true /\
                 exists x, Urllib.scheme parsed +:+ ":" = String "h" x).
    { destruct (http_or_https _ Hscheme) as [-> | ->];
        (split_and!; [done|done|done|by eexists]). }
    destruct Hs as (Hok & Hne & Hnet & x & Hx).
    set (r := Urllib.urlunparse (Urllib.scheme parsed) (Urllib.netloc parsed)
                (stripped_path (Urllib.path parsed)) ""
                (Urllib.query parsed) f').
    assert (Hguards : Py.startswith (String "h" x) r = true).
    { rewrite <- Hx. apply urlunsplit_scheme_prefix. by destruct (Urllib.scheme parsed). }
    apply h_prefix_guards in Hguards as (G1 & G2 & _ & G3).
    unfold ScrapeLinks.normalize_url. rewrite G1, G2, G3. cbn [orb].
    subst r. rewrite (urljoin_absolute V _ _ _ _ _ _ Hbase Hok Hne Hnet Hn Hwf Hseg).
    cbn [mbind result_bind].
    rewrite (urlparse_urlunparse V _ _ _ _ _ "" Hok (fun _ => eq_refl) Hn Hwf Hseg).
    cbn [mbind result_bind Urllib.scheme Urllib.netloc Urllib.path
         Urllib.query Urllib.fragment].
    rewrite Hscheme. cbn [negb]. do 2 f_equal.
    change (if negb (String.eqb ?p "/") then Py.rstrip (Ascii.eqb "/") ?p else "/")
      with (stripped_path p).
    fold (stripped_path (stripped_path (Urllib.path parsed))).
    rewrite stripped_path_idem. subst f'. by destruct sf.
  - intros href base_url target_origin absolute_url parsed r Hjoin Hparse Hn
      Hseg Hnorm.
    apply extract_normalize_url_some in Hnorm
      as (Hhref & a' & p' & tp & Hjoin' & Hparse' & Htarget & Hsame & ->).
    rewrite Hjoin in Hjoin'. injection Hjoin' as <-.
    rewrite Hparse in Hparse'. injection Hparse' as <-.
    pose proof (stripped_wf V _ _ _ "" Hparse eq_refl) as Hwf.
    pose proof (urljoin_base_parsed V _ _ _ Hjoin Hhref) as Hbase.
    set (r := Urllib.urlunparse "https" (Urllib.netloc parsed)
                (stripped_path (Urllib.path parsed)) ""
                (Urllib.query parsed) "").
    assert (Hguards : Py.startswith "https:" r = true)
      by (by apply (urlunsplit_scheme_prefix "https")).
    apply h_prefix_guards in Hguards as (G1 & _ & G2 & G3).
    unfold ExtractLinks.normalize_url. rewrite G1, G2, G3. cbn [orb].
    subst r.
    rewrite (urljoin_absolute V _ "https" _ _ _ _ Hbase); try done.
    cbn [mbind result_bind].
    rewrite (urlparse_urlunparse V "https" _ _ _ _ ""); try done.
    cbn [mbind result_bind]. rewrite Htarget.
    cbn [mbind result_bind Urllib.scheme Urllib.netloc Urllib.path
         Urllib.query Urllib.fragment].
    rewrite Hsame, String.eqb_refl. cbn [negb]. do 2 f_equal.
    fold (stripped_path (stripped_path (Urllib.path parsed))).
    by rewrite stripped_path_idem.
Qed.

Lemma C7_normalize_fixed_point_witness :
  (let parsed := {| Urllib.scheme := "https"; Urllib.netloc := "docs.example";
                    Urllib.path := "/docs/intro/"; Urllib.params := "";
                    Urllib.query := "v=2"; Urllib.fragment := "top" |} in
   Urllib.urljoin Samples.V0 "https://docs.example/guide/"
     "../docs/intro/?v=2#top" = Ok "https://docs.example/docs/intro/?v=2#top" /\
   Urllib.urlparse Samples.V0 "https://docs.example/docs/intro/?v=2#top" ""
     = Ok parsed /\
   Urllib.netloc parsed <> "" /\
   Py.mem ";" (last_segment (stripped_path (Urllib.path parsed))) = false /\
   ScrapeLinks.normalize_url Samples.V0 "../docs/intro/?v=2#top"
     "https://docs.example/guide/" true
     = Ok (Some "https://docs.example/docs/intro?v=2") /\
   ScrapeLinks.normalize_url Samples.V0 "https://docs.example/docs/intro?v=2"
     "https://docs.example/guide/" true
     = Ok (Some "https://docs.example/docs/intro?v=2")) /\
  (let parsed := {| Urllib.scheme := "http"; Urllib.netloc := "docs.example";
                    Urllib.path := "/docs/intro/"; Urllib.params := "";
                    Urllib.query := ""; Urllib.fragment := "" |} in
   Urllib.urljoin Samples.V0 "http://docs.example/guide/" "/docs/intro/"
     = Ok "http://docs.example/docs/intro/" /\
   Urllib.urlparse Samples.V0 "http://docs.example/docs/intro/" "" = Ok parsed /\
   Urllib.netloc parsed <> "" /\
   Py.mem ";" (last_segment (stripped_path (Urllib.path parsed))) = false /\
   ExtractLinks.normalize_url Samples.V0 "/docs/intro/"
     "http://docs.example/guide/" "http://docs.example"
     = Ok (Some "https://docs.example/docs/intro") /\
   ExtractLinks.normalize_url Samples.V0 "https://docs.example/docs/intro"
     "http://docs.example/guide/" "http://docs.example"
     = Ok (Some "https://docs.example/docs/intro")).
Proof.
  destruct (C7_normalize_fixed_point Samples.V0) as [HS HE].
  split; intros parsed.
  - assert (H1 : Urllib.urljoin Samples.V0 "https://docs.example/guide/"
                   "../docs/intro/?v=2#top"
                 = Ok "https://docs.example/docs/intro/?v=2#top")
      by (vm_compute; reflexivity).
    assert (H2 : Urllib.urlparse Samples.V0
                   "https://docs.example/docs/intro/?v=2#top" "" = Ok parsed)
      by (vm_compute; reflexivity).
    assert (H3 : Urllib.netloc parsed <> "") by discriminate.
    assert (H4 : Py.mem ";" (last_segment (stripped_path (Urllib.path parsed)))
                 = false) by (vm_compute; reflexivity).
    assert (H5 : ScrapeLinks.normalize_url Samples.V0 "../docs/intro/?v=2#top"
                   "https://docs.example/guide/" true
                 = Ok (Some "https://docs.example/docs/intro?v=2"))
      by (vm_compute; reflexivity).
    split_and!; [exact H1|exact H2|exact H3|exact H4|exact H5|].
    exact (HS _ _ _ _ _ _ H1 H2 H3 H4 H5).
  - assert (H1 : Urllib.urljoin Samples.V0 "http://docs.example/guide/"
                   "/docs/intro/" = Ok "http://docs.example/docs/intro/")
      by (vm_compute; reflexivity).
    assert (H2 : Urllib.urlparse Samples.V0 "http://docs.example/docs/intro/" ""
                 = Ok parsed) by (vm_compute; reflexivity).
    assert (H3 : Urllib.netloc parsed <> "") by discriminate.
    assert (H4 : Py.mem ";" (last_segment (stripped_path (Urllib.path parsed)))
                 = false) by (vm_compute; reflexivity).
    assert (H5 : ExtractLinks.normalize_url Samples.V0 "/docs/intro/"
                   "http://docs.example/guide/" "http://docs.example"
                 = Ok (Some "https://docs.example/docs/intro"))
      by (vm_compute; reflexivity).
    split_and!; [exact H1|exact H2|exact H3|exact H4|exact H5|].
    exact (HE _ _ _ _ _ _ H1 H2 H3 H4 H5).
Defined.

(** Without a network location the result need not be a fixed point
    either: against the base ["http:/x/"] the href ["////"] normalizes to
    ["http://"], which resolves against the base path when it is normalized
    again. *)
Example renormalize_without_netloc :
  ScrapeLinks.normalize_url Samples.V0 "////" "http:/x/" true
    = Ok (Some "http://") /\
  ScrapeLinks.normalize_url Samples.V0 "http://" "http:/x/" true
    = Ok (Some "http:///x").
Proof. split; vm_compute; reflexivity. Qed.

(** ** C8: trailing slashes *)

Section TrailingSlash.

Import Urllib.

Context (V : validators).

(** The default scheme as [urlsplit] cleans it. *)
Definition cleaned (d : string) : string :=
  Py.remove unsafe_byte (Py.strip c0_control_or_space d).

(** The two hrefs of the trailing-slash policy. *)
Definition policy_href (h : string) : Prop :=
  h = "/docs/intro/" \/ h = "/docs/intro".

Lemma among_elem s l : among s l = true -> s ∈ l.
Proof.
  unfold among. intros (x & Hx & ->%String.eqb_eq)%existsb_exists.
  by apply list_elem_of_In.
Qed.

Lemma urlparse_policy_href h d :
  policy_href h ->
  urlparse V h d =
  Ok {| scheme := cleaned d; netloc := ""; path := h; params := "";
        query := ""; fragment := "" |}.
Proof.
  intros Hh.
  assert (Hsplit : urlsplit V h d = Ok (cleaned d, "", h, "", ""))
    by (destruct Hh as [-> | ->]; reflexivity).
  unfold urlparse. rewrite Hsplit. cbn [mbind result_bind].
  assert (Py.mem ";" h = false) as -> by (by destruct Hh as [-> | ->]).
  by rewrite andb_false_r.
Qed.

Lemma uses_relative_facts s :
  among s uses_relative = true ->
  among s uses_netloc = true /\ scheme_ok s.
Proof.
  intros H%among_elem. unfold uses_relative in H.
  repeat (apply elem_of_cons in H as [->|H]);
    [split; [reflexivity|vm_compute; auto]..|by apply elem_of_nil in H].
Qed.

(** Resolving a policy href: it is returned as it is when the base has no
    scheme that allows relative URLs, and put after the scheme and the
    network location of the base otherwise. *)
Lemma urljoin_policy_href h base :
  policy_href h ->
  urljoin V base h =
  if Py.is_empty base then Ok h
  else
    b ← urlparse V base "" ;
    if negb (String.eqb (cleaned (scheme b)) (scheme b)) ||
       negb (among (cleaned (scheme b)) uses_relative)
    then Ok h
    else Ok (urlunparse (scheme b) (netloc b) h "" "" "").
Proof.
  intros Hh. unfold urljoin. destruct (Py.is_empty base); [done|].
  assert (Py.is_empty h = false) as -> by (by destruct Hh as [-> | ->]).
  destruct (urlparse V base "") as [b|e]; [|done]. cbn [mbind result_bind].
  rewrite (urlparse_policy_href _ _ Hh). cbn [mbind result_bind].
  cbn [scheme netloc path params query fragment].
  destruct (String.eqb_spec (cleaned (scheme b)) (scheme b)) as [Heq|]; [|done].
  cbn [negb orb]. destruct (among (cleaned (scheme b)) uses_relative) eqn:Hrel;
    [|done].
  cbn [negb]. destruct (uses_relative_facts _ Hrel) as [Hnet _].
  rewrite Hnet. cbn [nonempty Py.is_empty negb andb]. rewrite Heq.
  by destruct Hh as [-> | ->].
Qed.

(** Parsing a resolved policy href gives its parts back. *)
Lemma urlparse_resolved_policy_href h base b :
  policy_href h -> urlparse V base "" = Ok b ->
  among (scheme b) uses_relative = true ->
  urlparse V (urlunparse (scheme b) (netloc b) h "" "" "") "" =
  Ok {| scheme := scheme b; netloc := netloc b; path := h; params := "";
        query := ""; fragment := "" |}.
Proof.
  intros Hh Hb Hrel. destruct (uses_relative_facts _ Hrel) as [_ Hok].
  destruct (netloc b) as [|c n] eqn:Hn.
  - apply among_elem in Hrel. unfold uses_relative in Hrel.
    repeat (apply elem_of_cons in Hrel as [->|Hrel]);
      [destruct Hh as [-> | ->]; vm_compute; reflexivity..
      |by apply elem_of_nil in Hrel].
  - apply urlparse_urlunparse; [done|done|done| |by destruct Hh as [-> | ->]].
    pose proof (urlparse_wf V _ _ _ Hb) as [Hcn Hdn Hbr Hck _ _ _ _ _ _ _].
    rewrite Hn in *. by constructor; auto; destruct Hh as [-> | ->]; auto.
Qed.

(** What strips to what. *)
Lemma stripped_path_spec p :
  (p = "/" /\ stripped_path p = "/") \/
  (p <> "/" /\
   exists t, p = stripped_path p +:+ t /\ Py.all (Ascii.eqb "/") t = true /\
             forall u c, stripped_path p = u +:+ String c "" -> c <> "/"%char).
Proof.
  unfold stripped_path. destruct (String.eqb_spec p "/") as [->|Hne]; simpl.
  - by left.
  - right. split; [done|].
    destruct (rstrip_removed (Ascii.eqb "/") p) as (t & Ht & Hall).
    exists t. split_and!; [done|done|].
    intros u c Hu ->. by apply rstrip_no_trailing in Hu.
Qed.

(** What the normaliser of scrape_links.py returns for a policy href: the
    value does not depend on which of the two it is. *)
Lemma scrape_policy_value h base_url strip_fragments :
  policy_href h ->
  ScrapeLinks.normalize_url V h base_url strip_fragments =
  if Py.is_empty base_url then Ok None
  else
    b ← urlparse V base_url "" ;
    if negb (String.eqb (cleaned (scheme b)) (scheme b)) ||
       negb (among (cleaned (scheme b)) uses_relative)
    then Ok None
    else if negb (among (scheme b) ["http"; "https"]) then Ok None
    else Ok (Some (urlunparse (scheme b) (netloc b) "/docs/intro" "" "" "")).
Proof.
  intros Hh.
  assert (Hunfold : ScrapeLinks.normalize_url V h base_url strip_fragments =
    (absolute_url ← urljoin V base_url h ;
     parsed ← urlparse V absolute_url "" ;
     if negb (among (scheme parsed) ["http"; "https"]) then Ok None
     else Ok (Some (urlunparse (scheme parsed) (netloc parsed)
                      (stripped_path (path parsed)) "" (query parsed)
                      (if strip_fragments then "" else fragment parsed)))))
    by (destruct Hh as [-> | ->]; reflexivity).
  rewrite Hunfold, (urljoin_policy_href _ _ Hh).
  assert (Hplain : (parsed ← urlparse V h "" ;
     if negb (among (scheme parsed) ["http"; "https"]) then Ok None
     else Ok (Some (urlunparse (scheme parsed) (netloc parsed)
                      (stripped_path (path parsed)) "" (query parsed)
                      (if strip_fragments then "" else fragment parsed))))
     = Ok None)
    by (by rewrite (urlparse_policy_href _ _ Hh)).
  destruct (Py.is_empty base_url); [exact Hplain|].
  destruct (urlparse V base_url "") as [b|e] eqn:Hb; [|done].
  cbn [mbind result_bind].
  destruct (negb (String.eqb (cleaned (scheme b)) (scheme b)) ||
            negb (among (cleaned (scheme b)) uses_relative)) eqn:Hcond;
    [exact Hplain|].
  cbn [mbind result_bind].
  apply orb_false_elim in Hcond as [Heq Hrel].
  apply negb_false_iff in Heq, Hrel. apply String.eqb_eq in Heq.
  rewrite Heq in Hrel.
  rewrite (urlparse_resolved_policy_href _ _ _ Hh Hb Hrel).
  cbn [mbind result_bind scheme netloc path query fragment].
  assert (stripped_path h = "/docs/intro") as ->
    by (by destruct Hh as [-> | ->]).
  by destruct strip_fragments.
Qed.

(** The same for the normaliser of extract_links.py. *)
Lemma extract_policy_value h base_url target_origin :
  policy_href h ->
  ExtractLinks.normalize_url V h base_url target_origin =
  netloc' ←
    (if Py.is_empty base_url then Ok ""
     else
       b ← urlparse V base_url "" ;
       if negb (String.eqb (cleaned (scheme b)) (scheme b)) ||
          negb (among (cleaned (scheme b)) uses_relative)
       then Ok "" else Ok (netloc b)) ;
  target_parsed ← urlparse V target_origin "" ;
  if negb (String.eqb netloc' (netloc target_parsed)) then Ok None
  else Ok (Some (urlunparse "https" netloc' "/docs/intro" "" "" "")).
Proof.
  intros Hh.
  assert (Hunfold : ExtractLinks.normalize_url V h base_url target_origin =
    (absolute_url ← urljoin V base_url h ;
     parsed ← urlparse V absolute_url "" ;
     target_parsed ← urlparse V target_origin "" ;
     if negb (String.eqb (netloc parsed) (netloc target_parsed)) then Ok None
     else Ok (Some (urlunparse "https" (netloc parsed)
                      (stripped_path (path parsed)) "" (query parsed) ""))))
    by (destruct Hh as [-> | ->]; reflexivity).
  rewrite Hunfold, (urljoin_policy_href _ _ Hh).
  assert (Hs : stripped_path h = "/docs/intro")
    by (by destruct Hh as [-> | ->]).
  assert (Hplain : (parsed ← urlparse V h "" ;
     target_parsed ← urlparse V target_origin "" ;
     if negb (String.eqb (netloc parsed) (netloc target_parsed)) then Ok None
     else Ok (Some (urlunparse "https" (netloc parsed)
                      (stripped_path (path parsed)) "" (query parsed) "")))
     = (target_parsed ← urlparse V target_origin "" ;
        if negb (String.eqb "" (netloc target_parsed)) then Ok None
        else Ok (Some (urlunparse "https" "" "/docs/intro" "" "" ""))))
    by (rewrite (urlparse_policy_href _ _ Hh); cbn [mbind result_bind netloc
          path query]; by rewrite Hs).
  destruct (Py.is_empty base_url); [exact Hplain|].
  destruct (urlparse V base_url "") as [b|e] eqn:Hb; [|done].
  cbn [mbind result_bind].
  destruct (negb (String.eqb (cleaned (scheme b)) (scheme b)) ||
            negb (among (cleaned (scheme b)) uses_relative)) eqn:Hcond;
    [exact Hplain|].
  cbn [mbind result_bind].
  apply orb_false_elim in Hcond as [Heq Hrel].
  apply negb_false_iff in Heq, Hrel. apply String.eqb_eq in Heq.
  rewrite Heq in Hrel.
  rewrite (urlparse_resolved_policy_href _ _ _ Hh Hb Hrel).
  cbn [mbind result_bind scheme netloc path query fragment].
  by rewrite Hs.
Qed.

End TrailingSlash.

(** C8. In both scripts [normalize_url] gives the hrefs ["/docs/intro/"]
    and ["/docs/intro"] the same result against every base URL. The path
    the normalisers put into the result is ["/"] when the resolved path is
    exactly ["/"], and otherwise the resolved path without its trailing
    slashes; a result made from the root path of a URL with a network
    location parses with the path ["/"] again. *)
Theorem C8_trailing_slash_policy (V : Urllib.validators) :
  (forall base_url strip_fragments,
     ScrapeLinks.normalize_url V "/docs/intro/" base_url strip_fragments =
     ScrapeLinks.normalize_url V "/docs/intro" base_url strip_fragments) /\
  (forall base_url target_origin,
     ExtractLinks.normalize_url V "/docs/intro/" base_url target_origin =
     ExtractLinks.normalize_url V "/docs/intro" base_url target_origin) /\
  (forall href base_url strip_fragments r,
     ScrapeLinks.normalize_url V href base_url strip_fragments = Ok (Some r) ->
     exists absolute_url parsed,
       Urllib.urljoin V base_url href = Ok absolute_url /\
       Urllib.urlparse V absolute_url "" = Ok parsed /\
       r = Urllib.urlunparse (Urllib.scheme parsed) (Urllib.netloc parsed)
             (stripped_path (Urllib.path parsed)) "" (Urllib.query parsed)
             (if strip_fragments then "" else Urllib.fragment parsed) /\
       ((Urllib.path parsed = "/" /\ stripped_path (Urllib.path parsed) = "/") \/
        (Urllib.path parsed <> "/" /\
         exists slashes,
           Urllib.path parsed = stripped_path (Urllib.path parsed) +:+ slashes /\
           Py.all (Ascii.eqb "/") slashes = true /\
           forall u c, stripped_path (Urllib.path parsed) = u +:+ String c "" ->
                       c <> "/"%char)) /\
       (Urllib.path parsed = "/" -> Urllib.netloc parsed <> "" ->
        exists reparsed,
          Urllib.urlparse V r "" = Ok reparsed /\ Urllib.path reparsed = "/")) /\
  (forall href base_url target_origin r,
     ExtractLinks.normalize_url V href base_url target_origin = Ok (Some r) ->
     exists absolute_url parsed,
       Urllib.urljoin V base_url href = Ok absolute_url /\
       Urllib.urlparse V absolute_url "" = Ok parsed /\
       r = Urllib.urlunparse "https" (Urllib.netloc parsed)
             (stripped_path (Urllib.path parsed)) "" (Urllib.query parsed) "" /\
       ((Urllib.path parsed = "/" /\ stripped_path (Urllib.path parsed) = "/") \/
        (Urllib.path parsed <> "/" /\
         exists slashes,
           Urllib.path parsed = stripped_path (Urllib.path parsed) +:+ slashes /\
           Py.all (Ascii.eqb "/") slashes = true /\
           forall u c, stripped_path (Urllib.path parsed) = u +:+ String c "" ->
                       c <> "/"%char)) /\
       (Urllib.path parsed = "/" -> Urllib.netloc parsed <> "" ->
        exists reparsed,
          Urllib.urlparse V r "" = Ok reparsed /\ Urllib.path reparsed = "/")).
Proof.
  split_and!.
  - intros base_url sf.
    rewrite !scrape_policy_value; [done|by right|by left].
  - intros base_url target_origin.
    rewrite !extract_policy_value; [done|by right|by left].
  - intros href base_url sf r
      (Hhref & a & parsed & Hjoin & Hparse & Hscheme & ->)%scrape_normalize_url_some.
    exists a, parsed. split_and!; [done|done|done|apply stripped_path_spec|].
    intros Hroot Hn.
    set (f' := if sf then "" else Urllib.fragment parsed).
    exists {| Urllib.scheme := Urllib.scheme parsed;
              Urllib.netloc := Urllib.netloc parsed; Urllib.path := "/";
              Urllib.params := ""; Urllib.query := Urllib.query parsed;
              Urllib.fragment := f' |}.
    split; [|reflexivity].
    assert (Hf' : clean f').
    { subst f'. destruct sf; [done|]. by destruct (urlparse_wf V _ _ _ Hparse). }
    pose proof (stripped_wf V _ _ _ f' Hparse Hf') as Hwf.
    rewrite Hroot in Hwf |- *.
    apply urlparse_urlunparse; try done.
    by destruct (http_or_https _ Hscheme) as [-> | ->].
  - intros href base_url target_origin r
      (Hhref & a & parsed & tp & Hjoin & Hparse & Htarget & Hsame & ->)
        %extract_normalize_url_some.
    exists a, parsed. split_and!; [done|done|done|apply stripped_path_spec|].
    intros Hroot Hn.
    exists {| Urllib.scheme := "https";
              Urllib.netloc := Urllib.netloc parsed; Urllib.path := "/";
              Urllib.params := ""; Urllib.query := Urllib.query parsed;
              Urllib.fragment := "" |}.
    split; [|reflexivity].
    pose proof (stripped_wf V _ _ _ "" Hparse eq_refl) as Hwf.
    rewrite Hroot in Hwf |- *.
    by apply urlparse_urlunparse.
Qed.

Lemma C8_trailing_slash_policy_witness :
  (ScrapeLinks.normalize_url Samples.V0 "/" "https://docs.example/guide/page"
     true = Ok (Some "https://docs.example/") /\
   exists absolute_url parsed,
     Urllib.urljoin Samples.V0 "https://docs.example/guide/page" "/"
       = Ok absolute_url /\
     Urllib.urlparse Samples.V0 absolute_url "" = Ok parsed /\
     "https://docs.example/" =
       Urllib.urlunparse (Urllib.scheme parsed) (Urllib.netloc parsed)
         (stripped_path (Urllib.path parsed)) "" (Urllib.query parsed) "") /\
  (ExtractLinks.normalize_url Samples.V0 "/docs/intro/"
     "https://docs.example/guide/page" "https://docs.example"
     = Ok (Some "https://docs.example/docs/intro") /\
   exists absolute_url parsed,
     Urllib.urljoin Samples.V0 "https://docs.example/guide/page" "/docs/intro/"
       = Ok absolute_url /\
     Urllib.urlparse Samples.V0 absolute_url "" = Ok parsed /\
     "https://docs.example/docs/intro" =
       Urllib.urlunparse "https" (Urllib.netloc parsed)
         (stripped_path (Urllib.path parsed)) "" (Urllib.query parsed) "").
Proof.
  destruct (C8_trailing_slash_policy Samples.V0) as (_ & _ & HS & HE).
  split.
  - assert (H : ScrapeLinks.normalize_url Samples.V0 "/"
                  "https://docs.example/guide/page" true
                = Ok (Some "https://docs.example/"))
      by (vm_compute; reflexivity).
    split; [exact H|].
    destruct (HS _ _ _ _ H) as (a & parsed & H1 & H2 & H3 & _).
    exists a, parsed. auto.
  - assert (H : ExtractLinks.normalize_url Samples.V0 "/docs/intro/"
                  "https://docs.example/guide/page" "https://docs.example"
                = Ok (Some "https://docs.example/docs/intro"))
      by (vm_compute; reflexivity).
    split; [exact H|].
    destruct (HE _ _ _ _ H) as (a & parsed & H1 & H2 & H3 & _).
    exists a, parsed. auto.
Defined.

(** * Further properties of the normalisers, the harvest and the runs *)

(** ** The shape of a normalized URL *)

Section Shape.

Import Urllib.

Context (V : validators).

Lemma no_delim_mem (s : string) : no_delim s -> Py.mem "#" s = false.
Proof.
  unfold no_delim. induction s as [|c s IH]; cbn [Py.all Py.mem]; [done|].
  intros [Hc Hs]%andb_prop. rewrite (IH Hs), orb_false_r.
  destruct (Ascii.eqb_spec "#" c) as [<-|]; done.
Qed.

(** [urlunsplit] adds no ['#'] of its own when the fragment is empty. *)
Lemma urlunsplit_no_hash (s n p q : string) :
  Py.mem "#" s = false -> Py.mem "#" n = false -> Py.mem "#" p = false ->
  Py.mem "#" q = false -> Py.mem "#" (urlunsplit s n p q "") = false.
Proof.
  intros Hs Hn Hp Hq. unfold urlunsplit. cbn [Py.is_empty].
  repeat match goal with
         | |- context [if ?b then _ else _] => destruct b
         end;
    rewrite ?mem_app, ?Hs, ?Hn, ?Hp, ?Hq; done.
Qed.

(** [urlunsplit] adds no tab, carriage return or line feed. *)
Lemma urlunsplit_clean (s n p q f : string) :
  clean s -> clean n -> clean p -> clean q -> clean f ->
  clean (urlunsplit s n p q f).
Proof.
  intros Hs Hn Hp Hq Hf. unfold urlunsplit.
  repeat match goal with
         | |- context [if ?b then _ else _] => destruct b
         end;
    repeat (apply clean_app; split); done.
Qed.

Lemma clean_mem_newline (s : string) : clean s -> Py.mem Py.newline s = false.
Proof.
  unfold clean. induction s as [|c s IH]; cbn [Py.all Py.mem]; [done|].
  intros [Hc Hs]%andb_prop. rewrite (IH Hs), orb_false_r.
  destruct (Ascii.eqb_spec Py.newline c) as [<-|]; done.
Qed.

End Shape.

(** ** What the harvest holds *)

Section Entries.

Import Urllib Bs4.

Context (V : validators).

Lemma kept_of_elem {A B : Type} (keep : A -> result (option B)) (l : list A) b :
  b ∈ kept_of keep l -> exists a, a ∈ l /\ keep a = Ok (Some b).
Proof.
  unfold kept_of. intros (a & Ha & Hk)%list_elem_of_omap. exists a.
  split; [done|]. destruct (keep a) as [o|e]; [by subst|done].
Qed.

(** Every link of the harvest of extract_links.py is the normalized URL
    of an anchor of the sidebar. *)
Lemma extract_harvest_elem sidebar start_url target_origin links u :
  ExtractLinks.harvest V sidebar start_url target_origin = Ok links ->
  u ∈ links ->
  exists a, a ∈ find_all_href sidebar "a" /\
    ExtractLinks.normalize_url V (get a "href") start_url target_origin
      = Ok (Some u).
Proof.
  intros [seen Hrun]%extract_harvest_loop Hu.
  apply dedup_loop in Hrun as (_ & _ & _ & Hsub & _).
  apply (elem_of_sublist _ _ _ Hu) in Hsub as Hk0. clear Hu. rename Hk0 into Hu.
  apply kept_of_elem in Hu as (a & Ha & Hk). exists a. split; [done|].
  unfold extract_link in Hk.
  destruct (ExtractLinks.normalize_url V (get a "href") start_url
              target_origin) as [[n|]|e]; cbn in Hk; [|done..].
  destruct (nonempty n); by inversion Hk.
Qed.

(** Every entry of the harvest of scrape_links.py comes from an anchor of
    the container: its URL is the normalized href, the scope accepts it,
    and its text is the anchor's when the text is asked for. *)
Lemma scrape_harvest_elem container url scope include_text results u text :
  ScrapeLinks.harvest V container url scope include_text = Ok results ->
  (u, text) ∈ results ->
  exists a is_internal, a ∈ find_all_href container "a" /\
    ScrapeLinks.normalize_url V (get a "href") url true = Ok (Some u) /\
    ScrapeLinks.is_internal_url V u url = Ok is_internal /\
    in_scope scope is_internal = true /\
    text = (if include_text then get_text a "" else "").
Proof.
  intros [seen Hrun]%scrape_harvest_loop Hu.
  apply dedup_loop in Hrun as (_ & _ & _ & Hsub & _).
  apply (elem_of_sublist _ _ _ Hu) in Hsub as Hk0. clear Hu. rename Hk0 into Hu.
  apply kept_of_elem in Hu as (a & Ha & Hk). exists a.
  unfold scrape_link in Hk.
  destruct (ScrapeLinks.normalize_url V (get a "href") url true)
    as [[n|]|e]; cbn in Hk; [|done..].
  destruct (nonempty n); [|done].
  destruct (ScrapeLinks.is_internal_url V n url) as [b|e] eqn:Hb; cbn in Hk;
    [|done].
  exists b. destruct (in_scope scope b) eqn:Hscope; [|done].
  injection Hk as <- <-. by split_and!.
Qed.

End Entries.

(** ** The lines of the output file *)

Section Lines.

Lemma split_cons (c : ascii) (s : string) :
  exists h t, Py.split c s = h :: t.
Proof.
  induction s as [|x s (h & t & IH)]; simpl; [eauto|]. rewrite IH.
  destruct (Ascii.eqb x c); eauto.
Qed.

(** Splitting at the first separator. *)
Lemma split_app (c : ascii) (a b : string) :
  Py.mem c a = false -> Py.split c (a +:+ String c b) = a :: Py.split c b.
Proof.
  induction a as [|x a IH]; cbn [Py.mem String.append Py.split].
  - intros _. destruct (split_cons c b) as (h & t & ->).
    by rewrite Ascii.eqb_refl.
  - intros [Hx Ha]%orb_false_elim. rewrite (IH Ha).
    rewrite Ascii.eqb_sym in Hx. by rewrite Hx.
Qed.

Lemma extract_output_text_lines (links : list string) :
  (forall l, l ∈ links -> Py.mem Py.newline l = false) ->
  Py.split Py.newline (ExtractLinks.output_text links) = links ++ [""].
Proof.
  induction links as [|l r IH]; intros Hl; [done|].
  cbn [ExtractLinks.output_text fold_right].
  rewrite split_app by (apply Hl; left).
  cbn [app]. f_equal. apply IH. intros l' Hl'. apply Hl. by right.
Qed.

Lemma scrape_output_text_plain (include_text : bool)
  (results : list (string * string)) :
  (forall r, r ∈ results -> include_text && Urllib.nonempty r.2 = false) ->
  ScrapeLinks.output_text include_text results =
  ExtractLinks.output_text results.*1.
Proof.
  induction results as [|[l t] r IH]; intros Hr; [done|].
  cbn [ScrapeLinks.output_text ExtractLinks.output_text fold_right fmap
       list_fmap fst].
  pose proof (Hr (l, t) ltac:(left)) as Hlt. cbn [snd] in Hlt.
  rewrite Hlt. f_equal. f_equal.
  apply IH. intros r' Hr'. apply Hr. by right.
Qed.

End Lines.

(** X1. A URL returned by either normaliser (with [strip_fragments] left
    at its default in scrape_links.py) holds no ['#']: the fragment is
    gone and nothing else of the URL contains that character. *)
Theorem X1_normalized_url_has_no_fragment (V : Urllib.validators) :
  (forall href base_url r,
     ScrapeLinks.normalize_url V href base_url true = Ok (Some r) ->
     Py.mem "#" r = false) /\
  (forall href base_url target_origin r,
     ExtractLinks.normalize_url V href base_url target_origin = Ok (Some r) ->
     Py.mem "#" r = false).
Proof.
  split.
  - intros href base_url r
      (_ & a & parsed & _ & Hp & Hs & ->)%scrape_normalize_url_some.
    pose proof (stripped_wf V _ _ _ "" Hp eq_refl) as W.
    apply urlunsplit_no_hash.
    + by apply http_or_https in Hs as [-> | ->].
    + apply no_delim_mem, W.
    + apply W.
    + apply W.
  - intros href base_url target_origin r
      (_ & a & parsed & tp & _ & Hp & _ & _ & ->)%extract_normalize_url_some.
    pose proof (stripped_wf V _ _ _ "" Hp eq_refl) as W.
    apply urlunsplit_no_hash; [done|apply no_delim_mem, W|apply W..].
Qed.

Lemma X1_normalized_url_has_no_fragment_witness :
  Py.mem "#" "https://docs.example/a/guide/setup?v=2" = false /\
  Py.mem "#" "https://docs.example/a/api" = false.
Proof.
  split.
  - apply (proj1 (X1_normalized_url_has_no_fragment Samples.V0)
             "guide/setup/?v=2#install" "https://docs.example/a/index.html").
    vm_compute; reflexivity.
  - apply (proj2 (X1_normalized_url_has_no_fragment Samples.V0)
             "api/#top" "http://docs.example/a/index.html"
             "http://docs.example").
    vm_compute; reflexivity.
Defined.

Section NormalizedShape.

Import Urllib.

Context (V : validators).

Lemma scrape_normalized_clean href base_url strip_fragments r :
  ScrapeLinks.normalize_url V href base_url strip_fragments = Ok (Some r) ->
  clean r.
Proof.
  intros (_ & a & parsed & _ & Hp & Hs & ->)%scrape_normalize_url_some.
  assert (Hf : clean (if strip_fragments then "" else fragment parsed)).
  { destruct strip_fragments; [done|]. by destruct (urlparse_wf V _ _ _ Hp). }
  pose proof (stripped_wf V _ _ _ _ Hp Hf) as W.
  apply urlunsplit_clean; try apply W.
  by apply http_or_https in Hs as [-> | ->].
Qed.

Lemma extract_normalized_clean href base_url target_origin r :
  ExtractLinks.normalize_url V href base_url target_origin = Ok (Some r) ->
  clean r.
Proof.
  intros (_ & a & parsed & tp & _ & Hp & _ & _ & ->)%extract_normalize_url_some.
  pose proof (stripped_wf V _ _ _ "" Hp eq_refl) as W.
  apply urlunsplit_clean; try apply W; done.
Qed.

Lemma startswith_same (s a b : string) :
  Py.startswith (s +:+ a) (s +:+ b) = Py.startswith a b.
Proof.
  induction s as [|c s IH]; [done|].
  cbn [String.append Py.startswith]. by rewrite Ascii.eqb_refl.
Qed.

(** With a scheme that takes a network location, [urlunsplit] writes the
    two slashes after the colon. *)
Lemma urlunsplit_slashes (s n p q f : string) :
  Py.is_empty s = false -> among s uses_netloc = true ->
  Py.startswith (s +:+ "://") (urlunsplit s n p q f) = true.
Proof.
  intros Hs Hnet. unfold urlunsplit. rewrite Hs, Hnet. cbn [negb andb].
  assert (H : forall x, Py.startswith "//" x = true ->
            Py.startswith (s +:+ "://")
              (let url := s +:+ ":" +:+ x in
               let url := if Py.is_empty q then url else url +:+ "?" +:+ q in
               if Py.is_empty f then url else url +:+ "#" +:+ f) = true).
  { intros x Hx. cbv zeta.
    assert (H0 : Py.startswith (s +:+ "://") (s +:+ ":" +:+ x) = true)
      by (rewrite startswith_same; cbn [String.append Py.startswith];
          by rewrite Ascii.eqb_refl).
    destruct (Py.is_empty q), (Py.is_empty f);
      first [exact H0 | apply startswith_app; exact H0
            | do 2 apply startswith_app; exact H0]. }
  destruct (Py.is_empty n) eqn:Hn; cbn [negb orb].
  - destruct (Py.startswith "//" p) eqn:Hp; cbn [negb].
    + by apply H.
    + apply H. done.
  - apply H. done.
Qed.

End NormalizedShape.

(** X2. The text that a run writes holds one line for each link of the
    harvest and nothing else: split at the line feeds it gives back the
    links, followed by the empty text after the last line feed. This
    holds for extract_links.py, and for scrape_links.py when the link text
    is not asked for; no normalized URL holds a line feed. *)
Theorem X2_output_lines_are_the_links (V : Urllib.validators) :
  (forall sidebar start_url target_origin links,
     ExtractLinks.harvest V sidebar start_url target_origin = Ok links ->
     Py.split Py.newline (ExtractLinks.output_text links) = links ++ [""]) /\
  (forall container url scope results,
     ScrapeLinks.harvest V container url scope false = Ok results ->
     (forall r, r ∈ results -> r.2 = "") /\
     Py.split Py.newline (ScrapeLinks.output_text false results)
       = results.*1 ++ [""]).
Proof.
  split.
  - intros sidebar start_url target_origin links Hrun.
    apply extract_output_text_lines. intros l Hl.
    destruct (extract_harvest_elem V _ _ _ _ _ Hrun Hl) as (a & _ & Ha).
    by apply extract_normalized_clean, clean_mem_newline in Ha.
  - intros container url scope results Hrun. split.
    + intros [u t] Hr.
      by destruct (scrape_harvest_elem V _ _ _ _ _ _ _ Hrun Hr)
        as (a & b & _ & _ & _ & _ & ->).
    + rewrite (scrape_output_text_plain false) by done.
      apply extract_output_text_lines.
      intros l ([u t] & -> & Hr)%list_elem_of_fmap.
      destruct (scrape_harvest_elem V _ _ _ _ _ _ _ Hrun Hr)
        as (a & b & _ & Ha & _).
      by apply scrape_normalized_clean, clean_mem_newline in Ha.
Qed.

Lemma X2_output_lines_are_the_links_witness :
  Py.split Py.newline
    (ExtractLinks.output_text
       ["https://docs.example/docs/intro"; "https://docs.example/docs/setup"])
  = ["https://docs.example/docs/intro"; "https://docs.example/docs/setup"; ""]
  /\
  Py.split Py.newline
    (ScrapeLinks.output_text false
       [("https://docs.example/docs/intro", "");
        ("https://docs.example/docs/setup", "");
        ("https://elsewhere.example/x", "")])
  = ["https://docs.example/docs/intro"; "https://docs.example/docs/setup";
     "https://elsewhere.example/x"; ""].
Proof.
  split.
  - apply (proj1 (X2_output_lines_are_the_links Samples.V0)
             (Samples.tag_at [0] Samples.repeats_sidebar)
             "https://docs.example/" "https://docs.example").
    vm_compute; reflexivity.
  - apply (proj2 (X2_output_lines_are_the_links Samples.V0)
             (Samples.tag_at [0] Samples.repeats_sidebar)
             "https://docs.example/" "all").
    vm_compute; reflexivity.
Defined.

(** X3. Every URL that scrape_links.py's normaliser returns starts with
    [http://] or [https://], and every URL that extract_links.py's
    returns starts with [https://], whatever the href and the base. *)
Theorem X3_normalized_url_is_absolute (V : Urllib.validators) :
  (forall href base_url strip_fragments r,
     ScrapeLinks.normalize_url V href base_url strip_fragments = Ok (Some r) ->
     Py.startswith_any ["http://"; "https://"] r = true) /\
  (forall href base_url target_origin r,
     ExtractLinks.normalize_url V href base_url target_origin = Ok (Some r) ->
     Py.startswith "https://" r = true).
Proof.
  split.
  - intros href base_url sf r
      (_ & a & parsed & _ & _ & Hs & ->)%scrape_normalize_url_some.
    unfold Py.startswith_any. cbn [existsb].
    destruct (http_or_https _ Hs) as [Hsch | Hsch]; rewrite Hsch.
    + pose proof (urlunsplit_slashes "http" (Urllib.netloc parsed)
                    (stripped_path (Urllib.path parsed)) (Urllib.query parsed)
                    (if sf then "" else Urllib.fragment parsed) eq_refl eq_refl) as H.
      change ("http" +:+ "://") with "http://" in H.
      unfold Urllib.urlunparse. cbn [Py.is_empty]. by rewrite H.
    + pose proof (urlunsplit_slashes "https" (Urllib.netloc parsed)
                    (stripped_path (Urllib.path parsed)) (Urllib.query parsed)
                    (if sf then "" else Urllib.fragment parsed) eq_refl eq_refl) as H.
      change ("https" +:+ "://") with "https://" in H.
      unfold Urllib.urlunparse. cbn [Py.is_empty]. rewrite H. by rewrite orb_true_r.
  - intros href base_url target_origin r
      (_ & a & parsed & tp & _ & _ & _ & _ & ->)%extract_normalize_url_some.
    by apply (urlunsplit_slashes "https").
Qed.

Lemma X3_normalized_url_is_absolute_witness :
  Py.startswith_any ["http://"; "https://"] "http://x/" = true /\
  Py.startswith "https://" "https://docs.example:8443/b" = true.
Proof.
  split.
  - apply (proj1 (X3_normalized_url_is_absolute Samples.V0)
             "////x/" "HTTP:/a/b" true).
    vm_compute; reflexivity.
  - apply (proj2 (X3_normalized_url_is_absolute Samples.V0)
             "ftp://docs.example:8443/b/" "https://docs.example/"
             "https://docs.example:8443").
    vm_compute; reflexivity.
Defined.

(** ** Parsing a normalized URL again *)

Section Reparse.

Import Urllib.

Context (V : validators).

(** With a network location, parsing what [urlunparse] wrote gives back
    the scheme, the network location, the query and the fragment; the
    path comes back up to the parameters of its last segment. *)
Lemma urlparse_rebuilt (s n p q f : string) :
  scheme_ok s -> n <> "" -> split_wf V n p q f ->
  exists rp,
    urlparse V (urlunparse s n p "" q f) "" = Ok rp /\
    scheme rp = s /\ netloc rp = n /\ query rp = q /\ fragment rp = f /\
    exists t, p = path rp +:+ t.
Proof.
  intros Hs Hn W. unfold urlparse, urlunparse. cbn [Py.is_empty].
  rewrite (urlsplit_urlunsplit V s n p q f "" Hs (fun _ => eq_refl) Hn W).
  cbn [mbind result_bind].
  destruct (among s uses_params && Py.mem ";" p).
  - destruct (splitparams_prefix p) as [t Ht].
    destruct (splitparams p) as [p' x] eqn:Hsp. cbn [fst] in Ht.
    eexists. split; [reflexivity|]. cbn. split_and!; try done. by exists t.
  - eexists. split; [reflexivity|]. cbn. split_and!; try done.
    exists "". by rewrite append_nil_r.
Qed.

Lemma lower_char_idem (c : ascii) :
  Py.lower_char (Py.lower_char c) = Py.lower_char c.
Proof. by destruct c as [[] [] [] [] [] [] [] []]. Qed.

Lemma lower_idem (s : string) : Py.lower (Py.lower s) = Py.lower s.
Proof.
  induction s as [|c s IH]; [done|]. cbn [Py.lower].
  by rewrite lower_char_idem, IH.
Qed.

Lemma lower_char_scheme (c : ascii) :
  scheme_char c = true ->
  scheme_char (Py.lower_char c) = true /\
  (Py.isascii_alpha c = true -> Py.isascii_alpha (Py.lower_char c) = true).
Proof. by destruct c as [[] [] [] [] [] [] [] []]. Qed.

Lemma lower_scheme (s : string) :
  Py.all scheme_char s = true -> Py.all scheme_char (Py.lower s) = true.
Proof.
  induction s as [|c s IH]; [done|]. cbn [Py.all Py.lower].
  intros [Hc Hs]%andb_prop. apply lower_char_scheme in Hc as [-> _].
  by rewrite IH.
Qed.

(** The scheme that [urlsplit] returns without a default is empty or a
    lower-case scheme. *)
Lemma urlsplit_scheme_ok url s n p q f :
  urlsplit V url "" = Ok (s, n, p, q, f) -> scheme_ok s.
Proof.
  unfold urlsplit.
  destruct (split_scheme _ _) as [s' u1] eqn:Hscheme.
  assert (Hs' : scheme_ok s').
  { unfold split_scheme in Hscheme.
    destruct (Py.partition ":" _) as [[[|c0 pre] rest]|];
      try (by injection Hscheme as <- _).
    destruct (Py.isascii_alpha c0 && Py.all scheme_char (String c0 pre))
      eqn:Htest; [|by injection Hscheme as <- _].
    injection Hscheme as <- _. apply andb_prop in Htest as [Ha Hall].
    cbn [Py.lower scheme_ok]. split_and!.
    - cbn [Py.all] in Hall. apply andb_prop in Hall as [Hc _].
      by apply lower_char_scheme.
    - by apply (lower_scheme (String c0 pre)).
    - apply (lower_idem (String c0 pre)). }
  destruct (if Py.startswith "//" u1 then _ else _) as [[n' rest]|e];
    cbn [mbind result_bind]; [|done].
  destruct (split_tail "#" rest) as [x f'].
  destruct (split_tail "?" x) as [p' q'].
  destruct (checknetloc V n'); [|done]. by intros [= <- _ _ _ _].
Qed.

Lemma urlparse_scheme_ok url r : urlparse V url "" = Ok r -> scheme_ok (scheme r).
Proof.
  unfold urlparse.
  destruct (urlsplit V url "") as [[[[[s n] p] q] f]|e] eqn:Hsplit; [|done].
  apply urlsplit_scheme_ok in Hsplit. cbn [mbind result_bind].
  destruct (if among s uses_params && Py.mem ";" p then _ else _).
  by intros [= <-].
Qed.

End Reparse.

(** X4. Both normalisers keep the network location and the query string:
    when the resolved URL has a network location, parsing the normalized
    URL gives the network location and the query of the resolved URL
    again, the scheme that the normaliser chose, and no fragment (or, in
    scrape_links.py with [strip_fragments=False], the fragment of the
    resolved URL). *)
Theorem X4_normalized_url_keeps_netloc_and_query (V : Urllib.validators) :
  (forall href base_url strip_fragments absolute_url parsed r,
     Urllib.urljoin V base_url href = Ok absolute_url ->
     Urllib.urlparse V absolute_url "" = Ok parsed ->
     Urllib.netloc parsed <> "" ->
     ScrapeLinks.normalize_url V href base_url strip_fragments = Ok (Some r) ->
     exists reparsed,
       Urllib.urlparse V r "" = Ok reparsed /\
       Urllib.scheme reparsed = Urllib.scheme parsed /\
       Urllib.netloc reparsed = Urllib.netloc parsed /\
       Urllib.query reparsed = Urllib.query parsed /\
       Urllib.fragment reparsed =
         (if strip_fragments then "" else Urllib.fragment parsed)) /\
  (forall href base_url target_origin absolute_url parsed r,
     Urllib.urljoin V base_url href = Ok absolute_url ->
     Urllib.urlparse V absolute_url "" = Ok parsed ->
     Urllib.netloc parsed <> "" ->
     ExtractLinks.normalize_url V href base_url target_origin = Ok (Some r) ->
     exists reparsed,
       Urllib.urlparse V r "" = Ok reparsed /\
       Urllib.scheme reparsed = "https" /\
       Urllib.netloc reparsed = Urllib.netloc parsed /\
       Urllib.query reparsed = Urllib.query parsed /\
       Urllib.fragment reparsed = "").
Proof.
  split.
  - intros href base_url sf absolute_url parsed r Hjoin Hparse Hn
      (_ & a' & p' & Hjoin' & Hparse' & Hs & ->)%scrape_normalize_url_some.
    rewrite Hjoin in Hjoin'. injection Hjoin' as <-.
    rewrite Hparse in Hparse'. injection Hparse' as <-.
    assert (Hf : clean (if sf then "" else Urllib.fragment parsed)).
    { destruct sf; [done|]. by destruct (urlparse_wf V _ _ _ Hparse). }
    pose proof (stripped_wf V _ _ _ _ Hparse Hf) as W.
    destruct (urlparse_rebuilt V _ _ _ _ _
                (urlparse_scheme_ok V _ _ Hparse) Hn W)
      as (rp & Hrp & ? & ? & ? & ? & _).
    by exists rp.
  - intros href base_url target_origin absolute_url parsed r Hjoin Hparse Hn
      (_ & a' & p' & tp & Hjoin' & Hparse' & _ & _ & ->)%extract_normalize_url_some.
    rewrite Hjoin in Hjoin'. injection Hjoin' as <-.
    rewrite Hparse in Hparse'. injection Hparse' as <-.
    pose proof (stripped_wf V _ _ _ "" Hparse eq_refl) as W.
    destruct (urlparse_rebuilt V "https" _ _ _ _ ltac:(done) Hn W)
      as (rp & Hrp & ? & ? & ? & ? & _).
    by exists rp.
Qed.

Lemma X4_normalized_url_keeps_netloc_and_query_witness :
  (exists reparsed,
     Urllib.urlparse Samples.V0 "http://docs.example:8080/a/b;v=1?x=1&y=2" ""
       = Ok reparsed /\
     Urllib.scheme reparsed = "http" /\
     Urllib.netloc reparsed = "docs.example:8080" /\
     Urllib.query reparsed = "x=1&y=2" /\
     Urllib.fragment reparsed = "") /\
  (exists reparsed,
     Urllib.urlparse Samples.V0 "https://docs.example:8080/a/b;v=1?x=1&y=2" ""
       = Ok reparsed /\
     Urllib.scheme reparsed = "https" /\
     Urllib.netloc reparsed = "docs.example:8080" /\
     Urllib.query reparsed = "x=1&y=2" /\
     Urllib.fragment reparsed = "").
Proof.
  split.
  - apply (proj1 (X4_normalized_url_keeps_netloc_and_query Samples.V0)
             "b;v=1/?x=1&y=2#frag" "HTTP://docs.example:8080/a/index.html" true
             "http://docs.example:8080/a/b;v=1/?x=1&y=2#frag"
             {| Urllib.scheme := "http"; Urllib.netloc := "docs.example:8080";
                Urllib.path := "/a/b;v=1/"; Urllib.params := "";
                Urllib.query := "x=1&y=2"; Urllib.fragment := "frag" |});
      [vm_compute; reflexivity|vm_compute; reflexivity|done
      |vm_compute; reflexivity].
  - apply (proj2 (X4_normalized_url_keeps_netloc_and_query Samples.V0)
             "b;v=1/?x=1&y=2#frag" "HTTP://docs.example:8080/a/index.html"
             "http://docs.example:8080"
             "http://docs.example:8080/a/b;v=1/?x=1&y=2#frag"
             {| Urllib.scheme := "http"; Urllib.netloc := "docs.example:8080";
                Urllib.path := "/a/b;v=1/"; Urllib.params := "";
                Urllib.query := "x=1&y=2"; Urllib.fragment := "frag" |});
      [vm_compute; reflexivity|vm_compute; reflexivity|done
      |vm_compute; reflexivity].
Defined.

(** X5. The internal test of scrape_links.py, made on the normalized
    URL, decides by the resolved URL: for an href whose resolution has a
    network location, [is_internal_url(normalize_url(href, url), url)]
    returns whether that network location is the one of the page URL, and
    does not raise. *)
Theorem X5_internal_test_of_normalized_url (V : Urllib.validators) :
  forall href url absolute_url parsed parsed_base r,
    Urllib.urljoin V url href = Ok absolute_url ->
    Urllib.urlparse V absolute_url "" = Ok parsed ->
    Urllib.netloc parsed <> "" ->
    Urllib.urlparse V url "" = Ok parsed_base ->
    ScrapeLinks.normalize_url V href url true = Ok (Some r) ->
    ScrapeLinks.is_internal_url V r url =
    Ok (String.eqb (Urllib.netloc parsed) (Urllib.netloc parsed_base)).
Proof.
  intros href url absolute_url parsed parsed_base r Hjoin Hparse Hn Hbase
    (_ & a' & p' & Hjoin' & Hparse' & Hs & ->)%scrape_normalize_url_some.
  rewrite Hjoin in Hjoin'. injection Hjoin' as <-.
  rewrite Hparse in Hparse'. injection Hparse' as <-.
  pose proof (stripped_wf V _ _ _ "" Hparse eq_refl) as W.
  destruct (urlparse_rebuilt V _ _ _ _ _
              (urlparse_scheme_ok V _ _ Hparse) Hn W)
    as (rp & Hrp & _ & Hnet & _).
  unfold ScrapeLinks.is_internal_url. rewrite Hrp, Hbase.
  cbn [mbind result_bind]. by rewrite Hnet.
Qed.

Lemma X5_internal_test_of_normalized_url_witness :
  ScrapeLinks.is_internal_url Samples.V0 "https://docs.example/guide"
    "https://docs.example:443/index.html" = Ok false.
Proof.
  apply (X5_internal_test_of_normalized_url Samples.V0
           "//docs.example/guide/#top" "https://docs.example:443/index.html"
           "https://docs.example/guide/#top"
           {| Urllib.scheme := "https"; Urllib.netloc := "docs.example";
              Urllib.path := "/guide/"; Urllib.params := "";
              Urllib.query := ""; Urllib.fragment := "top" |}
           {| Urllib.scheme := "https"; Urllib.netloc := "docs.example:443";
              Urllib.path := "/index.html"; Urllib.params := "";
              Urllib.query := ""; Urllib.fragment := "" |});
    [vm_compute; reflexivity|vm_compute; reflexivity|done
    |vm_compute; reflexivity|vm_compute; reflexivity].
Defined.

(** ** The target origin of extract_links.py *)

Section Origin.

Import Urllib.

Context (V : validators).

(** Parsing [scheme://netloc], built from the scheme and the network
    location of a parsed URL, gives the two back. *)
Lemma urlparse_origin (s n : string) :
  scheme_ok s -> s <> "" -> split_wf V n "" "" "" ->
  urlparse V (s +:+ "://" +:+ n) "" =
  Ok {| scheme := s; netloc := n; path := ""; params := "";
        query := ""; fragment := "" |}.
Proof.
  intros Hs Hne W. unfold urlparse.
  assert (Hsplit : urlsplit V (s +:+ "://" +:+ n) "" = Ok (s, n, "", "", "")).
  { destruct (decide (n = "")) as [->|Hn].
    - destruct (split_scheme_rebuilt s "" "/" Hs (fun _ => eq_refl) eq_refl)
        as [Hurl Hscheme].
      assert (Hsame : (if Py.is_empty s then "" else s +:+ ":") +:+ "//"
                      = s +:+ "://" +:+ "").
      { destruct s; [done|]. cbn [Py.is_empty]. by rewrite append_assoc. }
      cbv zeta in Hurl, Hscheme. rewrite Hsame in Hurl, Hscheme.
      unfold urlsplit. rewrite Hurl, Hscheme. reflexivity.
    - rewrite <- (urlsplit_urlunsplit V s n "" "" "" "" Hs (fun _ => eq_refl)
                    Hn W).
      f_equal. rewrite urlunsplit_netloc by auto.
      destruct s; [done|]. cbn [Py.is_empty].
      by rewrite !append_nil_r, append_assoc. }
  rewrite Hsplit. cbn [mbind result_bind Py.mem]. by rewrite andb_false_r.
Qed.

Lemma urlparse_netloc_wf url r :
  urlparse V url "" = Ok r -> split_wf V (netloc r) "" "" "".
Proof.
  intros W%urlparse_wf. destruct W. constructor; try done. by left.
Qed.

End Origin.

(** X6. extract_links.py builds its target origin as [scheme://netloc]
    from the start URL. When the start URL has a scheme, parsing that
    origin gives the network location of the start URL again, so the
    normaliser of a run keeps exactly the links whose resolution has the
    network location of the start URL: it returns [None] for any other,
    and a URL it returns comes from a resolution with that network
    location. *)
Theorem X6_target_origin_is_start_netloc (V : Urllib.validators) :
  forall start_url parsed_start,
    Urllib.urlparse V start_url "" = Ok parsed_start ->
    Urllib.scheme parsed_start <> "" ->
    let target_origin :=
      Urllib.scheme parsed_start +:+ "://" +:+ Urllib.netloc parsed_start in
    Urllib.urlparse V target_origin "" =
      Ok {| Urllib.scheme := Urllib.scheme parsed_start;
            Urllib.netloc := Urllib.netloc parsed_start;
            Urllib.path := ""; Urllib.params := "";
            Urllib.query := ""; Urllib.fragment := "" |} /\
    forall href absolute_url parsed,
      Urllib.urljoin V start_url href = Ok absolute_url ->
      Urllib.urlparse V absolute_url "" = Ok parsed ->
      (Urllib.netloc parsed <> Urllib.netloc parsed_start ->
       ExtractLinks.normalize_url V href start_url target_origin = Ok None) /\
      (forall r,
         ExtractLinks.normalize_url V href start_url target_origin
           = Ok (Some r) ->
         Urllib.netloc parsed = Urllib.netloc parsed_start).
Proof.
  intros start_url ps Hps Hscheme target_origin.
  assert (Horigin : Urllib.urlparse V target_origin "" =
            Ok {| Urllib.scheme := Urllib.scheme ps;
                  Urllib.netloc := Urllib.netloc ps;
                  Urllib.path := ""; Urllib.params := "";
                  Urllib.query := ""; Urllib.fragment := "" |}).
  { apply urlparse_origin; [by eapply urlparse_scheme_ok|done|].
    by eapply urlparse_netloc_wf. }
  split; [done|]. intros href absolute_url parsed Hjoin Hparse. split.
  - intros Hne.
    by apply (proj2 (normalize_url_gates V) href start_url target_origin
                absolute_url parsed _ Hjoin Hparse Horigin).
  - intros r (_ & a' & p' & tp & Hjoin' & Hparse' & Htp & Hsame & _)
      %extract_normalize_url_some.
    rewrite Hjoin in Hjoin'. injection Hjoin' as <-.
    rewrite Hparse in Hparse'. injection Hparse' as <-.
    rewrite Horigin in Htp. injection Htp as <-. done.
Qed.

Lemma X6_target_origin_is_start_netloc_witness :
  Urllib.urlparse Samples.V0 "https://docs.example:8443" "" =
    Ok {| Urllib.scheme := "https"; Urllib.netloc := "docs.example:8443";
          Urllib.path := ""; Urllib.params := "";
          Urllib.query := ""; Urllib.fragment := "" |} /\
  ExtractLinks.normalize_url Samples.V0 "//docs.example/guide"
    "HTTPS://docs.example:8443/start/?q=1" "https://docs.example:8443"
    = Ok None.
Proof.
  pose proof (X6_target_origin_is_start_netloc Samples.V0
                "HTTPS://docs.example:8443/start/?q=1"
                {| Urllib.scheme := "https";
                   Urllib.netloc := "docs.example:8443";
                   Urllib.path := "/start/"; Urllib.params := "";
                   Urllib.query := "q=1"; Urllib.fragment := "" |}
                ltac:(vm_compute; reflexivity) ltac:(done)) as [H1 H2].
  split; [exact H1|].
  apply (H2 "//docs.example/guide" "https://docs.example/guide"
           {| Urllib.scheme := "https"; Urllib.netloc := "docs.example";
              Urllib.path := "/guide"; Urllib.params := "";
              Urllib.query := ""; Urllib.fragment := "" |});
    [vm_compute; reflexivity|vm_compute; reflexivity|done].
Defined.

(** Without a scheme in the start URL the origin [://netloc] parses to
    an empty network location, and the links of the start host are taken
    for external ones. *)
Example origin_without_scheme :
  Urllib.urlparse Samples.V0 "//docs.example/start" "" =
    Ok {| Urllib.scheme := ""; Urllib.netloc := "docs.example";
          Urllib.path := "/start"; Urllib.params := "";
          Urllib.query := ""; Urllib.fragment := "" |} /\
  Urllib.urlparse Samples.V0 "://docs.example" "" =
    Ok {| Urllib.scheme := ""; Urllib.netloc := "";
          Urllib.path := "://docs.example"; Urllib.params := "";
          Urllib.query := ""; Urllib.fragment := "" |} /\
  ExtractLinks.normalize_url Samples.V0 "/guide" "//docs.example/start"
    "://docs.example" = Ok None.
Proof. split_and!; vm_compute; reflexivity. Qed.

(** ** The two normalisers side by side *)

Section SideBySide.

Import Urllib.

(** The scheme is the head of what [urlunsplit] writes, for the schemes
    that take a network location. *)
Lemma urlunsplit_http_https (n p q f : string) :
  urlunsplit "https" n p q f = "https" +:+ Py.drop 4 (urlunsplit "http" n p q f).
Proof.
  unfold urlunsplit. cbn [Py.is_empty negb andb among existsb uses_netloc].
  change (among "https" uses_netloc) with true.
  change (among "http" uses_netloc) with true. cbn [andb].
  destruct (negb (Py.is_empty n) || negb (Py.startswith "//" p)),
    (Py.is_empty q), (Py.is_empty f); reflexivity.
Qed.

End SideBySide.

(** X7. The two normalisers agree on the links of the target host: when
    scrape_links.py's normaliser returns [r] for an href and the
    resolution has the network location of extract_links.py's target
    origin, extract_links.py's normaliser returns a URL for the same href
    and base; that URL is [r] when the resolution has the scheme [https],
    and [r] with [https] in the place of [http] otherwise. *)
Theorem X7_normalisers_agree_on_target_host (V : Urllib.validators) :
  forall href base_url target_origin absolute_url parsed target_parsed r,
    Urllib.urljoin V base_url href = Ok absolute_url ->
    Urllib.urlparse V absolute_url "" = Ok parsed ->
    Urllib.urlparse V target_origin "" = Ok target_parsed ->
    Urllib.netloc parsed = Urllib.netloc target_parsed ->
    ScrapeLinks.normalize_url V href base_url true = Ok (Some r) ->
    exists r',
      ExtractLinks.normalize_url V href base_url target_origin = Ok (Some r') /\
      (Urllib.scheme parsed = "https" -> r' = r) /\
      (Urllib.scheme parsed = "http" -> r' = "https" +:+ Py.drop 4 r).
Proof.
  intros href base_url target_origin absolute_url parsed tp r Hjoin Hparse Htp
    Hsame Hnorm.
  unfold ScrapeLinks.normalize_url in Hnorm.
  unfold ExtractLinks.normalize_url.
  destruct (Py.is_empty href) eqn:Hempty; [done|].
  cbn [orb] in Hnorm |- *.
  destruct (Py.startswith_any ["mailto:"; "tel:"; "javascript:"; "data:"] href)
    eqn:Hgate; [done|].
  assert (Hgate' : Py.startswith_any ["mailto:"; "tel:"; "javascript:"] href
                   = false).
  { unfold Py.startswith_any in *. cbn [existsb] in *.
    repeat (apply orb_false_elim in Hgate as [? Hgate]).
    by repeat (apply orb_false_intro; [done|]). }
  rewrite Hgate'. destruct (Py.startswith "#" href); [done|].
  rewrite Hjoin in Hnorm |- *. cbn [mbind result_bind] in Hnorm |- *.
  rewrite Hparse in Hnorm |- *. cbn [mbind result_bind] in Hnorm |- *.
  rewrite Htp. cbn [mbind result_bind]. rewrite Hsame, String.eqb_refl.
  cbn [negb].
  destruct (Urllib.among (Urllib.scheme parsed) ["http"; "https"]) eqn:Hs;
    [|done].
  cbn [negb] in Hnorm. injection Hnorm as <-.
  eexists. split; [reflexivity|]. rewrite <- Hsame.
  unfold Urllib.urlunparse. cbn [Py.is_empty]. split.
  - by intros ->.
  - intros ->. apply urlunsplit_http_https.
Qed.

Lemma X7_normalisers_agree_on_target_host_witness :
  exists r',
    ExtractLinks.normalize_url Samples.V0 "../api/v1/?page=2#list"
      "http://docs.example/guide/start" "https://docs.example" = Ok (Some r') /\
    ("http" = "https" -> r' = "http://docs.example/api/v1?page=2") /\
    ("http" = "http" ->
     r' = "https" +:+ Py.drop 4 "http://docs.example/api/v1?page=2").
Proof.
  apply (X7_normalisers_agree_on_target_host Samples.V0
           "../api/v1/?page=2#list" "http://docs.example/guide/start"
           "https://docs.example" "http://docs.example/api/v1/?page=2#list"
           {| Urllib.scheme := "http"; Urllib.netloc := "docs.example";
              Urllib.path := "/api/v1/"; Urllib.params := "";
              Urllib.query := "page=2"; Urllib.fragment := "list" |}
           {| Urllib.scheme := "https"; Urllib.netloc := "docs.example";
              Urllib.path := ""; Urllib.params := "";
              Urllib.query := ""; Urllib.fragment := "" |});
    [vm_compute; reflexivity|vm_compute; reflexivity|vm_compute; reflexivity
    |done|vm_compute; reflexivity].
Defined.

(** ** The scopes of scrape_links.py *)

Section Scopes.

Import Urllib Bs4.

Context (V : validators) (url : string) (include_text : bool).

(** Whether a normalized URL is internal, as the harvest loop finds it. *)
Definition internal_to (n : string) : bool :=
  match ScrapeLinks.is_internal_url V n url with
  | Ok is_internal => is_internal
  | Raise _ => false
  end.

(** One turn of the harvest loop, case by case. *)
Lemma scrape_step_cases (scope : string) (seen : gset string)
  (results : list (string * string)) (a : Tag) :
  dedup_step (scrape_link V url scope include_text) fst (seen, results) a =
  match ScrapeLinks.normalize_url V (get a "href") url true with
  | Raise e => Raise e
  | Ok None => Ok (seen, results)
  | Ok (Some n) =>
      if nonempty n
      then match ScrapeLinks.is_internal_url V n url with
           | Raise e => Raise e
           | Ok b =>
               if in_scope scope b && negb (bool_decide (n ∈ seen))
               then Ok ({[n]} ∪ seen,
                        results ++
                        [(n, if include_text then get_text a "" else "")])
               else Ok (seen, results)
           end
      else Ok (seen, results)
  end.
Proof.
  unfold dedup_step, scrape_link.
  destruct (ScrapeLinks.normalize_url V (get a "href") url true)
    as [[n|]|e]; cbn [mbind result_bind]; [|done..].
  destruct (nonempty n); cbn [mbind result_bind]; [|done].
  destruct (ScrapeLinks.is_internal_url V n url) as [b|e];
    cbn [mbind result_bind]; [|done].
  destruct (in_scope scope b); cbn [fst snd andb]; [|done].
  by destruct (bool_decide (n ∈ seen)).
Qed.

(** The harvest under a scope that filters runs like the harvest under a
    scope that keeps everything, with the entries that the filter rejects
    left out. *)
Lemma scoped_loop (wide narrow : string) (l : list Tag) :
  (forall b, in_scope wide b = true) ->
  forall sA rA sA' rA' sS,
    for_each (dedup_step (scrape_link V url wide include_text) fst) l (sA, rA)
      = Ok (sA', rA') ->
    (forall u, u ∈ sS <-> u ∈ sA /\ in_scope narrow (internal_to u) = true) ->
    exists sS',
      for_each (dedup_step (scrape_link V url narrow include_text) fst) l
        (sS, filter (fun r => in_scope narrow (internal_to r.1) = true) rA)
      = Ok (sS', filter (fun r => in_scope narrow (internal_to r.1) = true) rA').
Proof.
  intros Hwide.
  induction l as [|a l IH]; intros sA rA sA' rA' sS; cbn [for_each].
  - intros [= <- <-] _. by exists sS.
  - rewrite !scrape_step_cases.
    destruct (ScrapeLinks.normalize_url V (get a "href") url true)
      as [[n|]|e]; cbn [mbind result_bind]; [| |done].
    2: { intros Hrun Hinv. by apply (IH _ _ _ _ _ Hrun). }
    destruct (nonempty n); cbn [mbind result_bind].
    2: { intros Hrun Hinv. by apply (IH _ _ _ _ _ Hrun). }
    destruct (ScrapeLinks.is_internal_url V n url) as [b|e] eqn:Hb;
      cbn [mbind result_bind]; [|done].
    rewrite Hwide. cbn [andb].
    assert (Hn : internal_to n = b) by (unfold internal_to; by rewrite Hb).
    set (text := if include_text then get_text a "" else "").
    destruct (in_scope narrow b) eqn:Hscope; cbn [andb].
    + destruct (bool_decide (n ∈ sA)) eqn:HA; cbn [negb mbind result_bind].
      * intros Hrun Hinv. apply bool_decide_eq_true in HA.
        rewrite bool_decide_eq_true_2 by (apply Hinv; by rewrite Hn).
        cbn [negb mbind result_bind]. by apply (IH _ _ _ _ _ Hrun).
      * intros Hrun Hinv. apply bool_decide_eq_false in HA.
        rewrite bool_decide_eq_false_2 by (rewrite Hinv; tauto).
        cbn [negb mbind result_bind].
        assert (Hfilter :
          filter (fun r => in_scope narrow (internal_to r.1) = true) rA
            ++ [(n, text)] =
          filter (fun r => in_scope narrow (internal_to r.1) = true)
            (rA ++ [(n, text)])).
        { rewrite filter_app. f_equal. rewrite filter_cons_True; [done|].
          cbn [fst]. by rewrite Hn. }
        rewrite Hfilter. apply (IH _ _ _ _ _ Hrun).
        intros u. rewrite !elem_of_union, !elem_of_singleton, Hinv.
        split; [|tauto]. intros [->|?]; [|tauto]. rewrite Hn. tauto.
    + cbn [mbind result_bind].
      destruct (bool_decide (n ∈ sA)) eqn:HA; cbn [negb mbind result_bind].
      * intros Hrun Hinv. by apply (IH _ _ _ _ _ Hrun).
      * intros Hrun Hinv.
        assert (Hfilter :
          filter (fun r => in_scope narrow (internal_to r.1) = true) rA =
          filter (fun r => in_scope narrow (internal_to r.1) = true)
            (rA ++ [(n, text)])).
        { rewrite filter_app, filter_cons_False, filter_nil, app_nil_r; [done|].
          cbn [fst]. by rewrite Hn, Hscope. }
        rewrite Hfilter. apply (IH _ _ _ _ _ Hrun).
        intros u. rewrite elem_of_union, elem_of_singleton, Hinv.
        split; [tauto|]. intros [[->|?] Hu]; [|tauto].
        rewrite Hn, Hscope in Hu. done.
Qed.

Lemma scoped_harvest (container : Tag) (wide narrow : string)
  (results : list (string * string)) :
  (forall b, in_scope wide b = true) ->
  ScrapeLinks.harvest V container url wide include_text = Ok results ->
  ScrapeLinks.harvest V container url narrow include_text =
  Ok (filter (fun r => in_scope narrow (internal_to r.1) = true) results).
Proof.
  intros Hwide [seen Hrun]%scrape_harvest_loop.
  destruct (scoped_loop wide narrow _ Hwide _ _ _ _ ∅ Hrun) as [sS' HS].
  { intros u. rewrite elem_of_empty. tauto. }
  unfold ScrapeLinks.harvest.
  rewrite (for_each_ext _ _ _ _ (scrape_harvest_step V url narrow include_text)).
  rewrite filter_nil in HS. by rewrite HS.
Qed.

End Scopes.

(** X8. The scopes of scrape_links.py filter one and the same harvest.
    On any container, when the harvest under a scope that keeps everything
    (['all'], or any text other than the three filtering scopes) returns
    [results], the harvest under ['internal'] (and under ['sidebar'])
    returns the internal entries of [results] and the harvest under
    ['external'] the others, in the same order and with the same texts. *)
Theorem X8_scopes_filter_the_full_harvest (V : Urllib.validators) :
  forall container url scope include_text results,
    scope <> "internal" -> scope <> "sidebar" -> scope <> "external" ->
    ScrapeLinks.harvest V container url scope include_text = Ok results ->
    ScrapeLinks.harvest V container url "internal" include_text =
      Ok (filter (fun r => internal_to V url r.1 = true) results) /\
    ScrapeLinks.harvest V container url "sidebar" include_text =
      Ok (filter (fun r => internal_to V url r.1 = true) results) /\
    ScrapeLinks.harvest V container url "external" include_text =
      Ok (filter (fun r => internal_to V url r.1 = false) results).
Proof.
  intros container url scope include_text results H1 H2 H3 Hrun.
  assert (Hwide : forall b, in_scope scope b = true).
  { intros b. unfold in_scope.
    by rewrite (proj2 (String.eqb_neq _ _) H1), (proj2 (String.eqb_neq _ _) H2),
      (proj2 (String.eqb_neq _ _) H3). }
  split_and!.
  - rewrite (scoped_harvest V url include_text container scope "internal"
               results Hwide Hrun). done.
  - rewrite (scoped_harvest V url include_text container scope "sidebar"
               results Hwide Hrun). done.
  - rewrite (scoped_harvest V url include_text container scope "external"
               results Hwide Hrun). f_equal.
    apply list_filter_iff. intros r. unfold in_scope. cbn.
    by destruct (internal_to V url r.1).
Qed.

Lemma X8_scopes_filter_the_full_harvest_witness :
  ScrapeLinks.harvest Samples.V0 Samples.doc_repeats "https://docs.example/"
    "internal" true =
    Ok [("https://docs.example/docs/intro", "Intro");
        ("https://docs.example/docs/setup", "Setup")] /\
  ScrapeLinks.harvest Samples.V0 Samples.doc_repeats "https://docs.example/"
    "external" true =
    Ok [("https://elsewhere.example/x", "Elsewhere")].
Proof.
  pose proof (X8_scopes_filter_the_full_harvest Samples.V0 Samples.doc_repeats
                "https://docs.example/" "all" true
                [("https://docs.example/docs/intro", "Intro");
                 ("https://docs.example/docs/setup", "Setup");
                 ("https://elsewhere.example/x", "Elsewhere")]
                ltac:(done) ltac:(done) ltac:(done)
                ltac:(vm_compute; reflexivity)) as (H1 & _ & H3).
  split; [exact H1|exact H3].
Defined.

(** ** When the harvest raises *)

Section Raising.

Import Urllib Bs4.

(** A loop returns exactly when each of its turns does, provided that
    whether a turn returns depends on the element alone. *)
Lemma for_each_returns_iff {A S : Type} (f : S -> A -> result S)
  (P : A -> Prop) (l : list A) (s : S) :
  (forall s x, (exists s', f s x = Ok s') <-> P x) ->
  (exists s', for_each f l s = Ok s') <-> (forall x, x ∈ l -> P x).
Proof.
  intros Hf. revert s. induction l as [|x l IH]; intros s; cbn [for_each].
  - split; [intros _ x Hx; by apply elem_of_nil in Hx|eauto].
  - split.
    + intros [s' Hrun]. destruct (f s x) as [s1|e] eqn:Hx; [|done].
      cbn [mbind result_bind] in Hrun.
      intros y [->|Hy]%elem_of_cons.
      * apply (Hf s). eauto.
      * eapply IH; eauto.
    + intros Hall. destruct (proj2 (Hf s x)) as [s1 ->]; [apply Hall; left|].
      cbn [mbind result_bind]. apply IH. intros y Hy. apply Hall. by right.
Qed.

End Raising.

(** X9. Neither harvest catches the [ValueError] of a URL that cannot be
    parsed: the harvest returns exactly when the normaliser returns (a
    URL or [None]) for the href of every anchor of the container and, in
    scrape_links.py, the internal test returns for every normalized URL.
    One anchor that makes either raise aborts the whole harvest. *)
Theorem X9_harvest_returns_iff_every_href_parses (V : Urllib.validators) :
  (forall sidebar start_url target_origin,
     (exists links,
        ExtractLinks.harvest V sidebar start_url target_origin = Ok links) <->
     (forall a, a ∈ Bs4.find_all_href sidebar "a" ->
        exists o,
          ExtractLinks.normalize_url V (Bs4.get a "href") start_url
            target_origin = Ok o)) /\
  (forall container url scope include_text,
     (exists results,
        ScrapeLinks.harvest V container url scope include_text = Ok results) <->
     (forall a, a ∈ Bs4.find_all_href container "a" ->
        exists o,
          ScrapeLinks.normalize_url V (Bs4.get a "href") url true = Ok o /\
          forall n, o = Some n -> n <> "" ->
            exists b, ScrapeLinks.is_internal_url V n url = Ok b)).
Proof.
  split.
  - intros sidebar start_url target_origin. unfold ExtractLinks.harvest.
    rewrite <- (for_each_returns_iff
                  (ExtractLinks.harvest_step V start_url target_origin)
                  _ _ (∅, [])).
    + split.
      * intros [links Hrun]. destruct (for_each _ _ _) as [st|e]; [eauto|done].
      * intros [st ->]. cbn. eauto.
    + intros [seen links] a. unfold ExtractLinks.harvest_step.
      destruct (ExtractLinks.normalize_url V (Bs4.get a "href") start_url
                  target_origin) as [[n|]|e]; cbn [mbind result_bind].
      * destruct (Urllib.nonempty n && negb (bool_decide (n ∈ seen))); split; eauto.
      * split; eauto.
      * split; intros [? ?]; done.
  - intros container url scope include_text. unfold ScrapeLinks.harvest.
    rewrite <- (for_each_returns_iff
                  (ScrapeLinks.harvest_step V url scope include_text)
                  _ _ (∅, [])).
    + split.
      * intros [links Hrun]. destruct (for_each _ _ _) as [st|e]; [eauto|done].
      * intros [st ->]. cbn. eauto.
    + intros [seen results] a.
      rewrite scrape_harvest_step, scrape_step_cases.
      destruct (ScrapeLinks.normalize_url V (Bs4.get a "href") url true)
        as [[n|]|e].
      * unfold Urllib.nonempty. destruct n as [|c n]; cbn [Py.is_empty negb].
        { split; [|eauto]. intros _. eexists. split; [done|].
          by intros ? [= <-]. }
        destruct (ScrapeLinks.is_internal_url V (String c n) url) as [b|e]
          eqn:Hint.
        -- split.
           ++ intros _. eexists. split; [done|]. intros ? [= <-] _. eauto.
           ++ intros _. destruct (in_scope scope b && _); eauto.
        -- split; [intros [? ?]; done|].
           intros (o & [= <-] & Hb).
           destruct (Hb _ eq_refl ltac:(done)) as [b Hb']. congruence.
      * split; [|eauto]. intros _. eexists. split; [done|]. by intros ? [=].
      * split; [intros [? ?]; done|]. by intros (o & ? & _).
Qed.

Lemma X9_harvest_returns_iff_every_href_parses_witness :
  (exists o,
     ExtractLinks.normalize_url Samples.V0 "/docs/setup" "https://docs.example/"
       "https://docs.example" = Ok o) /\
  ~ (exists results,
       ScrapeLinks.harvest Samples.V0
         (Bs4.BeautifulSoup
            [Samples.anchor "/docs/intro" "Intro";
             Samples.anchor "http://[::1/" "Broken"])
         "https://docs.example/" "all" false = Ok results).
Proof.
  split.
  - apply (proj1 (proj1 (X9_harvest_returns_iff_every_href_parses Samples.V0)
                    (Samples.tag_at [0] Samples.repeats_sidebar)
                    "https://docs.example/" "https://docs.example")
             ltac:(eexists; vm_compute; reflexivity)
             (Samples.tag_at [0; 1] (Samples.anchor "/docs/setup" "Setup"))).
    apply list_elem_of_In. vm_compute. right. left. reflexivity.
  - intros Hrun.
    destruct (proj1 (proj2 (X9_harvest_returns_iff_every_href_parses Samples.V0)
                       _ _ _ _) Hrun
                (Samples.tag_at [1] (Samples.anchor "http://[::1/" "Broken")))
      as (o & Ho & _).
    + apply list_elem_of_In. vm_compute. right. left. reflexivity.
    + vm_compute in Ho. discriminate Ho.
Defined.

(** ** The harvest and the link count of the scorer *)

Section Counts.

Import Urllib Bs4.

Context (V : validators).

(** The kept entries are as many as the elements that yield one. *)
Lemma kept_of_length {A B : Type} (keep : A -> result (option B))
  (test : A -> bool) (l : list A) :
  (forall a, test a = true <-> exists b, keep a = Ok (Some b)) ->
  length (kept_of keep l) = length (filter (fun a => test a = true) l).
Proof.
  intros Htest. unfold kept_of. induction l as [|a l IH]; [done|].
  cbn [omap list_omap]. rewrite filter_cons.
  destruct (decide (test a = true)) as [Ht|Ht].
  - destruct (proj1 (Htest a) Ht) as [b ->]. cbn [length]. by f_equal.
  - destruct (keep a) as [[b|]|e] eqn:Hk; [|done..].
    exfalso. apply Ht, Htest. eauto.
Qed.

(** A harvest without repeats of what is kept is empty or not with it,
    and never longer. *)
Lemma dedup_size {A B : Type} (keep : A -> result (option B))
  (key : B -> string) (l : list A) (seen : gset string) (res : list B) :
  for_each (dedup_step keep key) l (∅, []) = Ok (seen, res) ->
  length res <= length (kept_of keep l) /\
  (res = [] <-> kept_of keep l = []).
Proof.
  intros (_ & _ & Hmem & Hsub & _)%dedup_loop. split.
  - by apply sublist_length.
  - split.
    + intros ->. destruct (kept_of keep l) as [|b r]; [done|].
      specialize (proj2 (Hmem (key b))). rewrite fmap_cons.
      intros H. specialize (H ltac:(left)). by apply elem_of_nil in H.
    + intros Hk. rewrite Hk in Hsub. by apply sublist_nil_r.
Qed.

Lemma extract_kept_internal start_url target_origin (a : Tag) :
  ExtractFacts.internal_link V start_url target_origin a = true <->
  exists u, extract_link V start_url target_origin a = Ok (Some u).
Proof.
  unfold ExtractFacts.internal_link, extract_link.
  destruct (ExtractLinks.normalize_url V (get a "href") start_url
              target_origin) as [[n|]|e]; cbn [mbind result_bind].
  - destruct (nonempty n); split; eauto; try done. by intros [? ?].
  - split; [done|by intros [? ?]].
  - split; [done|by intros [? ?]].
Qed.

Lemma scrape_kept_internal url scope include_text (a : Tag) :
  scope = "internal" \/ scope = "sidebar" ->
  ScrapeFacts.internal_link V url a = true <->
  exists r, scrape_link V url scope include_text a = Ok (Some r).
Proof.
  intros Hscope. unfold ScrapeFacts.internal_link, scrape_link.
  assert (Hin : forall b, in_scope scope b = b)
    by (by destruct Hscope as [-> | ->]).
  destruct (ScrapeLinks.normalize_url V (get a "href") url true)
    as [[n|]|e]; cbn [mbind result_bind].
  - destruct (nonempty n); cbn [andb].
    + destruct (ScrapeLinks.is_internal_url V n url) as [b|e];
        cbn [mbind result_bind].
      * rewrite Hin. destruct b; split; eauto; try done. by intros [? ?].
      * split; [done|by intros [? ?]].
    + split; [done|by intros [? ?]].
  - split; [done|by intros [? ?]].
  - split; [done|by intros [? ?]].
Qed.

End Counts.

(** X10. The link count that scores a container bounds what the harvest
    takes from it: when [count_internal_links] returns [n] for an element
    and the harvest of that element (in scrape_links.py under the scope
    ['internal'] or ['sidebar']) returns, the harvest has at most [n]
    entries, and it is empty exactly when [n] is 0. *)
Theorem X10_harvest_bounded_by_link_count (V : Urllib.validators) :
  (forall element start_url target_origin n links,
     ExtractLinks.count_internal_links V element start_url target_origin
       = Ok n ->
     ExtractLinks.harvest V element start_url target_origin = Ok links ->
     (Z.of_nat (length links) <= n)%Z /\ (links = [] <-> n = 0%Z)) /\
  (forall element url scope include_text n results,
     scope = "internal" \/ scope = "sidebar" ->
     ScrapeLinks.count_internal_links V element url = Ok n ->
     ScrapeLinks.harvest V element url scope include_text = Ok results ->
     (Z.of_nat (length results) <= n)%Z /\ (results = [] <-> n = 0%Z)).
Proof.
  split.
  - intros element start_url target_origin n links Hn [seen Hrun]%extract_harvest_loop.
    apply ExtractFacts.extract_count_internal_links_spec in Hn as ->.
    apply dedup_size in Hrun as [Hle Hnil].
    unfold ExtractFacts.internal_links.
    rewrite <- (kept_of_length (extract_link V start_url target_origin))
      by apply extract_kept_internal.
    split; [lia|]. rewrite Hnil. rewrite <- length_zero_iff_nil. lia.
  - intros element url scope include_text n results Hscope Hn
      [seen Hrun]%scrape_harvest_loop.
    apply ScrapeFacts.scrape_count_internal_links_spec in Hn as ->.
    apply dedup_size in Hrun as [Hle Hnil].
    unfold ScrapeFacts.internal_links.
    rewrite <- (kept_of_length (scrape_link V url scope include_text))
      by (intros a; by apply scrape_kept_internal).
    split; [lia|]. rewrite Hnil. rewrite <- length_zero_iff_nil. lia.
Qed.

Lemma X10_harvest_bounded_by_link_count_witness :
  ((Z.of_nat (length ["https://docs.example/docs/intro";
                      "https://docs.example/docs/setup"]) <= 4)%Z /\
   (["https://docs.example/docs/intro"; "https://docs.example/docs/setup"]
      = [] <-> 4%Z = 0%Z)) /\
  ((Z.of_nat (length [("https://docs.example/docs/intro", "Intro");
                      ("https://docs.example/docs/setup", "Setup")]) <= 4)%Z /\
   ([("https://docs.example/docs/intro", "Intro");
     ("https://docs.example/docs/setup", "Setup")] = [] <-> 4%Z = 0%Z)).
Proof.
  split.
  - apply (proj1 (X10_harvest_bounded_by_link_count Samples.V0)
             (Samples.tag_at [0] Samples.repeats_sidebar)
             "https://docs.example/" "https://docs.example");
      vm_compute; reflexivity.
  - apply (proj2 (X10_harvest_bounded_by_link_count Samples.V0)
             (Samples.tag_at [0] Samples.repeats_sidebar)
             "https://docs.example/" "sidebar" true);
      [by right|vm_compute; reflexivity|vm_compute; reflexivity].
Defined.

(** ** What a run leaves on the disk *)

Section Disk.

Import Os.

Context (E : environment).

(** The two steps that touch the disk: the directory of the output file,
    then the file. *)
Definition write_output (output_file text : string) (fs : filesystem)
  : result Z * filesystem :=
  match
    (if Urllib.nonempty (dirname output_file)
     then makedirs E (dirname output_file) fs else Ok fs)
  with
  | Raise e => (Raise e, fs)
  | Ok fs1 =>
      match write_file E output_file text fs1 with
      | Some fs2 => (Ok 0%Z, fs2)
      | None => (Ok 1%Z, fs1)
      end
  end.

Lemma dirname_plain (p : string) : Py.mem "/" p = false -> dirname p = "".
Proof.
  intros Hp. unfold dirname.
  destruct (Py.rpartition "/" p) as [[head tail]|] eqn:Hr; [|done].
  apply rpartition_spec in Hr as [-> _]. rewrite mem_app in Hp.
  apply orb_false_elim in Hp as [_ Hp]. cbn [Py.mem] in Hp.
  by rewrite Ascii.eqb_refl in Hp.
Qed.

Lemma write_output_spec (output_file text : string) (fs : filesystem) :
  let run := write_output output_file text fs in
  (run.1 = Ok 0%Z -> files run.2 = <[output_file := text]> (files fs)) /\
  (run.1 <> Ok 0%Z -> files run.2 = files fs) /\
  (forall f, f <> output_file -> files run.2 !! f = files fs !! f) /\
  (Py.mem "/" output_file = false -> directories run.2 = directories fs) /\
  directories fs ⊆ directories run.2.
Proof.
  unfold write_output, makedirs, write_file.
  destruct (Urllib.nonempty (dirname output_file)) eqn:Hdir.
  - assert (Hslash : Py.mem "/" output_file = false -> False).
    { intros H%dirname_plain. by rewrite H in Hdir. }
    destruct (makedirs_fails E (dirname output_file)); cbn [fst snd].
    + split_and!; try done.
    + destruct (open_fails E output_file); cbn [fst snd files directories];
        split_and!; try done; try set_solver.
      intros f Hf. by rewrite lookup_insert_ne.
  - destruct (open_fails E output_file); cbn [fst snd files directories];
      split_and!; try done.
    intros f Hf. by rewrite lookup_insert_ne.
Qed.

End Disk.



(** X12. Asking for JavaScript rendering never loses a page. When
    Selenium is not installed, or the browser fails, [fetch_page_html]
    returns what the plain HTTP request returns; whenever the plain
    request returns a page, so does the rendered one; and without
    [use_js] the waiting time plays no part. *)
Theorem X12_rendered_fetch_falls_back (E : Os.environment) :
  forall url wait_time,
    (Os.selenium_available E = false \/
     Os.selenium_page E url wait_time = None ->
     ScrapeLinks.fetch_page_html E url true wait_time =
     ScrapeLinks.fetch_page_html E url false wait_time) /\
    (forall html,
       ScrapeLinks.fetch_page_html E url false wait_time = Some html ->
       exists rendered,
         ScrapeLinks.fetch_page_html E url true wait_time = Some rendered) /\
    (forall other_wait,
       ScrapeLinks.fetch_page_html E url false wait_time =
       ScrapeLinks.fetch_page_html E url false other_wait).
Proof.
  intros url wait_time. unfold ScrapeLinks.fetch_page_html. split_and!.
  - intros [Hno | Hpage].
    + by rewrite Hno.
    + destruct (Os.selenium_available E); cbn [negb]; [|done].
      by rewrite Hpage.
  - intros html Hplain.
    destruct (negb (Os.selenium_available E)); [eauto|].
    destruct (Os.selenium_page E url wait_time); eauto.
  - reflexivity.
Qed.

Lemma X12_rendered_fetch_falls_back_witness :
  ScrapeLinks.fetch_page_html (Samples.env (Os.Response "<html>") [])
    "https://docs.example/" true 3 =
  ScrapeLinks.fetch_page_html (Samples.env (Os.Response "<html>") [])
    "https://docs.example/" false 3.
Proof.
  apply (proj1 (X12_rendered_fetch_falls_back
                  (Samples.env (Os.Response "<html>") [])
                  "https://docs.example/" 3%Z)).
  left. reflexivity.
Defined.

(** ** Where the sidebar comes from *)

Section Containers.

Import Urllib Bs4.

Definition container_names : list string := ["nav"; "aside"; "div"; "ul"].

(** The selector asks for a [nav] element. *)
Definition selects_nav (sel : selector) : bool :=
  match sel with
  | SCompound c | SDescendant _ c =>
      existsb (fun s => match s with
                        | SName name => String.eqb name "nav"
                        | _ => false
                        end) c
  end.

Lemma select_nav (soup : Tag) (sel : selector) (el : Tag) :
  selects_nav sel = true -> el ∈ select soup sel ->
  el ∈ find_all soup container_names.
Proof.
  intros Hsel (d & -> & Hd)%list_elem_of_fmap.
  apply list_elem_of_filter in Hd as [Hm Hd].
  unfold find_all. apply list_elem_of_filter. split.
  - assert (Hc : exists c, match_compound c d.1 = true /\
                   existsb (fun s => match s with
                                     | SName name => String.eqb name "nav"
                                     | _ => false
                                     end) c = true).
    { destruct sel as [c|outer c]; cbn in Hm, Hsel; exists c.
      - done.
      - by apply andb_prop in Hm as [? _]. }
    destruct Hc as (c & Hc & Hnav).
    apply existsb_exists in Hnav as (s & Hs & Hname).
    destruct s as [name| | | |]; try done. apply String.eqb_eq in Hname as ->.
    unfold match_compound in Hc. rewrite forallb_forall in Hc.
    specialize (Hc _ Hs). cbn [match_simple] in Hc.
    apply String.eqb_eq in Hc. by rewrite Hc.
  - apply list_elem_of_fmap. by exists d.
Qed.

Lemma scan_fold_elem (wanted : Tag -> bool) (mk : Tag -> Tag * string * Z)
  (tags : list Tag) (init : list (Tag * string * Z)) c :
  (forall t, (mk t).1.1 = t) ->
  c ∈ fold_left (scan wanted mk) tags init -> c ∈ init \/ c.1.1 ∈ tags.
Proof.
  intros Hmk. revert init. induction tags as [|t r IH]; intros init;
    cbn [fold_left]; [by left|].
  intros [Hc|Hc]%IH; [|right; by right].
  unfold scan in Hc. destruct (wanted t); [|by left].
  destruct (negb (tag_in t _)); [|by left].
  apply elem_of_app in Hc as [Hc|Hc]; [by left|].
  apply list_elem_of_singleton in Hc as ->. right. rewrite Hmk. left.
Qed.

Lemma selector_candidates_elem (strategies : list (selector * string))
  (soup : Tag) c :
  forallb (fun s => selects_nav s.1) strategies = true ->
  c ∈ flat_map
        (fun '(sel, description) =>
           (fun el => (el, description, 0%Z)) <$> select soup sel) strategies ->
  c.1.1 ∈ find_all soup container_names.
Proof.
  intros Hall Hc. apply list_elem_of_In, in_flat_map in Hc
    as ([sel description] & Hs & Hc).
  rewrite forallb_forall in Hall. specialize (Hall _ Hs).
  apply list_elem_of_In, list_elem_of_fmap in Hc as (el & -> & Hel).
  by eapply select_nav.
Qed.

Lemma extract_candidates_elem (soup : Tag) c :
  c ∈ ExtractLinks.find_candidates soup ->
  ExtractLinks.element_of c ∈ find_all soup container_names.
Proof.
  rewrite extract_find_candidates_scan.
  intros [Hc|Hc]%scan_fold_elem; [|done|done].
  by apply (selector_candidates_elem ExtractLinks.selector_strategies).
Qed.

Lemma scrape_candidates_elem (soup : Tag) c :
  c ∈ ScrapeLinks.find_candidates soup ->
  ScrapeLinks.element_of c ∈ find_all soup container_names.
Proof.
  rewrite scrape_find_candidates_scan.
  intros [Hc|Hc]%scan_fold_elem; [|done|done].
  by apply (selector_candidates_elem ScrapeLinks.selector_strategies).
Qed.

(** What the scorer picks is the element of a candidate. *)
Lemma pick_elem (excluded : Tag -> bool) (bonus : Tag -> Z)
  (count : Tag -> result Z) (cands : list (Tag * string * Z)) (best : Tag) :
  pick excluded bonus count cands = Ok (Some best) ->
  exists c, c ∈ cands /\ c.1.1 = best.
Proof.
  intros (scored & b & _ & HF & <- & Hmax)%pick_some.
  apply first_max_elem in Hmax as [Hb _].
  destruct (scored_as_elem excluded bonus count
              (fun el => match count el with Ok n => n | Raise _ => 0%Z end)
              ltac:(intros el n H; cbv beta; by rewrite H) cands scored b HF Hb)
    as (_ & _ & c & Hc & Heq).
  exists c. by rewrite Heq.
Qed.

Lemma nil_or_elem {A : Type} (l : list A) : l = [] \/ exists x, x ∈ l.
Proof. destruct l as [|x r]; [by left|right; exists x; left]. Qed.

End Containers.

(** X13. The sidebar that either script finds is an element of the
    document named [nav], [aside], [div] or [ul]: one of
    [soup.find_all(['nav', 'aside', 'div', 'ul'])]. A document without
    such an element has no sidebar: the finder returns [None] and does
    not raise. *)
Theorem X13_sidebar_is_a_container_element (V : Urllib.validators) :
  (forall soup base_url target_origin,
     (forall best,
        ExtractLinks.find_sidebar_container V soup base_url target_origin
          = Ok (Some best) ->
        best ∈ Bs4.find_all soup ["nav"; "aside"; "div"; "ul"]) /\
     (Bs4.find_all soup ["nav"; "aside"; "div"; "ul"] = [] ->
      ExtractLinks.find_sidebar_container V soup base_url target_origin
        = Ok None)) /\
  (forall soup base_url,
     (forall best,
        ScrapeLinks.find_sidebar_container V soup base_url = Ok (Some best) ->
        best ∈ Bs4.find_all soup ["nav"; "aside"; "div"; "ul"]) /\
     (Bs4.find_all soup ["nav"; "aside"; "div"; "ul"] = [] ->
      ScrapeLinks.find_sidebar_container V soup base_url = Ok None)).
Proof.
  split.
  - intros soup base_url target_origin. split.
    + intros best Hfind.
      rewrite ExtractFacts.extract_find_sidebar_container_pick in Hfind.
      apply pick_elem in Hfind as (c & Hc & <-).
      by apply extract_candidates_elem.
    + intros Hnone. unfold ExtractLinks.find_sidebar_container.
      destruct (nil_or_elem (ExtractLinks.find_candidates soup))
        as [-> | [c Hc]]; [done|].
      apply extract_candidates_elem in Hc. unfold container_names in Hc.
      rewrite Hnone in Hc. by apply elem_of_nil in Hc.
  - intros soup base_url. split.
    + intros best Hfind.
      rewrite ScrapeFacts.scrape_find_sidebar_container_pick in Hfind.
      apply pick_elem in Hfind as (c & Hc & <-).
      by apply scrape_candidates_elem.
    + intros Hnone. unfold ScrapeLinks.find_sidebar_container.
      destruct (nil_or_elem (ScrapeLinks.find_candidates soup))
        as [-> | [c Hc]]; [done|].
      apply scrape_candidates_elem in Hc. unfold container_names in Hc.
      rewrite Hnone in Hc. by apply elem_of_nil in Hc.
Qed.

Lemma X13_sidebar_is_a_container_element_witness :
  Samples.tag_at [1] Samples.tie_first
    ∈ Bs4.find_all Samples.doc_tie ["nav"; "aside"; "div"; "ul"] /\
  ScrapeLinks.find_sidebar_container Samples.V0
    (Bs4.BeautifulSoup
       [Bs4.Element "section" (Samples.attrs [("id", "sidebar")] [])
          [Samples.anchor "/a" "A"]])
    "https://docs.example/" = Ok None.
Proof.
  split.
  - apply (proj1 (proj1 (X13_sidebar_is_a_container_element Samples.V0)
                    Samples.doc_tie "https://docs.example/"
                    "https://docs.example")).
    vm_compute; reflexivity.
  - apply (proj2 (proj2 (X13_sidebar_is_a_container_element Samples.V0) _ _)).
    vm_compute; reflexivity.
Defined.

(** ** The fragment switch of scrape_links.py *)

Section Fragments.

Import Urllib.

Lemma urlunsplit_fragment (s n p q f : string) :
  urlunsplit s n p q f =
  urlunsplit s n p q "" +:+ (if Py.is_empty f then "" else "#" +:+ f).
Proof.
  unfold urlunsplit. cbn [Py.is_empty].
  destruct (Py.is_empty f); [by rewrite append_nil_r|done].
Qed.

End Fragments.

(** X14. In scrape_links.py's normaliser [strip_fragments] decides about
    the fragment and nothing else. When the call with
    [strip_fragments=True] returns a URL, the call with
    [strip_fragments=False] returns that URL followed by ['#'] and the
    fragment of the resolved URL, or the same URL when that fragment is
    empty; when the former returns [None] or raises, so does the
    latter. *)
Theorem X14_strip_fragments_only_drops_the_fragment (V : Urllib.validators) :
  forall href base_url,
    match ScrapeLinks.normalize_url V href base_url true with
    | Ok (Some r) =>
        exists absolute_url parsed,
          Urllib.urljoin V base_url href = Ok absolute_url /\
          Urllib.urlparse V absolute_url "" = Ok parsed /\
          ScrapeLinks.normalize_url V href base_url false =
          Ok (Some (r +:+ (if Py.is_empty (Urllib.fragment parsed) then ""
                           else "#" +:+ Urllib.fragment parsed)))
    | other => ScrapeLinks.normalize_url V href base_url false = other
    end.
Proof.
  intros href base_url. unfold ScrapeLinks.normalize_url.
  destruct (Py.is_empty href || _); [done|].
  destruct (Py.startswith "#" href); [done|].
  destruct (Urllib.urljoin V base_url href) as [a|e]; [|done].
  cbn [mbind result_bind].
  destruct (Urllib.urlparse V a "") as [parsed|e] eqn:Hparse; [|done].
  cbn [mbind result_bind].
  destruct (negb (Urllib.among (Urllib.scheme parsed) ["http"; "https"]));
    [done|].
  exists a, parsed. split_and!; [done..|].
  do 2 f_equal. unfold Urllib.urlunparse. cbn [Py.is_empty].
  apply urlunsplit_fragment.
Qed.

(** X15. The harvest respects the scope. In extract_links.py, with a
    target origin that has a network location, every harvested link
    parses to the scheme [https] and the network location of the target.
    In scrape_links.py the internal test returns [True] for every URL
    harvested under ['internal'] or ['sidebar'] and [False] for every URL
    harvested under ['external']. *)
Theorem X15_harvest_respects_the_scope (V : Urllib.validators) :
  (forall sidebar start_url target_origin target_parsed links u,
     Urllib.urlparse V target_origin "" = Ok target_parsed ->
     Urllib.netloc target_parsed <> "" ->
     ExtractLinks.harvest V sidebar start_url target_origin = Ok links ->
     u ∈ links ->
     exists reparsed,
       Urllib.urlparse V u "" = Ok reparsed /\
       Urllib.scheme reparsed = "https" /\
       Urllib.netloc reparsed = Urllib.netloc target_parsed) /\
  (forall container url scope include_text results u text,
     ScrapeLinks.harvest V container url scope include_text = Ok results ->
     (u, text) ∈ results ->
     (scope = "internal" \/ scope = "sidebar" ->
      ScrapeLinks.is_internal_url V u url = Ok true) /\
     (scope = "external" -> ScrapeLinks.is_internal_url V u url = Ok false)).
Proof.
  split.
  - intros sidebar start_url target_origin tp links u Htp Hn Hrun Hu.
    destruct (extract_harvest_elem V _ _ _ _ _ Hrun Hu) as (a & _ & Ha).
    apply extract_normalize_url_some in Ha
      as (_ & a' & parsed & tp' & _ & Hparse & Htp' & Hsame & ->).
    rewrite Htp in Htp'. injection Htp' as <-.
    pose proof (stripped_wf V _ _ _ "" Hparse eq_refl) as W.
    rewrite <- Hsame in Hn |- *.
    destruct (urlparse_rebuilt V "https" _ _ _ _ ltac:(done) Hn W)
      as (rp & Hrp & ? & ? & _).
    by exists rp.
  - intros container url scope include_text results u text Hrun Hu.
    destruct (scrape_harvest_elem V _ _ _ _ _ _ _ Hrun Hu)
      as (a & b & _ & _ & Hb & Hscope & _).
    rewrite Hb. split.
    + intros [-> | ->]; by destruct b.
    + intros ->. by destruct b.
Qed.

Lemma X15_harvest_respects_the_scope_witness :
  (exists reparsed,
     Urllib.urlparse Samples.V0 "https://docs.example/docs/setup" ""
       = Ok reparsed /\
     Urllib.scheme reparsed = "https" /\
     Urllib.netloc reparsed = "docs.example") /\
  ScrapeLinks.is_internal_url Samples.V0 "https://elsewhere.example/x"
    "https://docs.example/" = Ok false.
Proof.
  split.
  - apply (proj1 (X15_harvest_respects_the_scope Samples.V0)
             (Samples.tag_at [0] Samples.repeats_sidebar)
             "http://docs.example/" "http://docs.example"
             {| Urllib.scheme := "http"; Urllib.netloc := "docs.example";
                Urllib.path := ""; Urllib.params := "";
                Urllib.query := ""; Urllib.fragment := "" |}
             ["https://docs.example/docs/intro";
              "https://docs.example/docs/setup"]);
      [vm_compute; reflexivity|done|vm_compute; reflexivity|].
    right. left.
  - apply (proj2 (X15_harvest_respects_the_scope Samples.V0)
             Samples.doc_repeats "https://docs.example/" "external" true
             [("https://elsewhere.example/x", "Elsewhere")]
             "https://elsewhere.example/x" "Elsewhere");
      [vm_compute; reflexivity|left|reflexivity].
Defined.

(** ** No eligible element is overlooked *)

Section Completeness.

Import Urllib Bs4.

Context (wanted : Tag -> bool) (mk : Tag -> Tag * string * Z).
Hypothesis mk_element : forall t, (mk t).1.1 = t.

Lemma tag_in_app (t : Tag) (l l' : list Tag) :
  tag_in t l = true -> tag_in t (l ++ l') = true.
Proof. unfold tag_in. rewrite existsb_app. by intros ->. Qed.

Lemma tag_in_self (t : Tag) (l : list Tag) : tag_in t (l ++ [t]) = true.
Proof.
  unfold tag_in. rewrite existsb_app. cbn [existsb]. unfold same_object.
  rewrite bool_decide_eq_true_2 by done. by rewrite orb_true_r.
Qed.

Lemma scan_tag_in (cands : list (Tag * string * Z)) (t tag : Tag) :
  tag_in t ((fun c => c.1.1) <$> cands) = true ->
  tag_in t ((fun c => c.1.1) <$> scan wanted mk cands tag) = true.
Proof.
  intros Ht. unfold scan. destruct (wanted tag); [|done].
  destruct (negb (tag_in tag _)); [|done].
  rewrite fmap_app. by apply tag_in_app.
Qed.

Lemma scan_fold_tag_in (tags : list Tag) (cands : list (Tag * string * Z)) t :
  tag_in t ((fun c => c.1.1) <$> cands) = true ->
  tag_in t ((fun c => c.1.1) <$> fold_left (scan wanted mk) tags cands) = true.
Proof.
  revert cands. induction tags as [|tag r IH]; intros cands Ht;
    cbn [fold_left]; [done|].
  by apply IH, scan_tag_in.
Qed.

Lemma scan_fold_incl (tags : list Tag) (cands : list (Tag * string * Z)) c :
  c ∈ cands -> c ∈ fold_left (scan wanted mk) tags cands.
Proof.
  revert cands. induction tags as [|tag r IH]; intros cands Hc;
    cbn [fold_left]; [done|].
  apply IH. unfold scan. destruct (wanted tag); [|done].
  destruct (negb (tag_in tag _)); [|done]. apply elem_of_app. by left.
Qed.

(** After the scan every wanted tag is [in] the candidates. *)
Lemma scan_fold_complete (tags : list Tag) (cands : list (Tag * string * Z)) t :
  t ∈ tags -> wanted t = true ->
  tag_in t ((fun c => c.1.1) <$> fold_left (scan wanted mk) tags cands) = true.
Proof.
  revert cands. induction tags as [|tag r IH]; intros cands Ht Hw.
  { by apply elem_of_nil in Ht. }
  cbn [fold_left]. apply elem_of_cons in Ht as [<-|Ht]; [|by apply IH].
  apply scan_fold_tag_in. unfold scan. rewrite Hw.
  destruct (tag_in t ((fun c => c.1.1) <$> cands)) eqn:Hin; cbn [negb]; [done|].
  rewrite fmap_app. cbn [fmap list_fmap]. rewrite mk_element.
  apply tag_in_self.
Qed.

End Completeness.

(** X16. The candidate list overlooks no eligible element. In both
    scripts every match of every selector rule is a candidate, with the
    description of the rule and the score 0; and every [nav], [aside],
    [div] or [ul] whose id and classes hold one of the sidebar patterns
    is [in] the elements of the candidates (itself or an equal tag). *)
Theorem X16_no_eligible_element_is_overlooked (soup : Bs4.Tag) :
  ((forall sel description el,
      (sel, description) ∈ ExtractLinks.selector_strategies ->
      el ∈ Bs4.select soup sel ->
      (el, description, 0%Z) ∈ ExtractLinks.find_candidates soup) /\
   (forall tag,
      tag ∈ Bs4.find_all soup ["nav"; "aside"; "div"; "ul"] ->
      (let combined :=
         Py.lower (Bs4.get tag "id" +:+ " " +:+
                   Py.join " " (Bs4.get_list tag "class")) in
       Py.contains "sidebar" combined || Py.contains "md-nav" combined ||
       Py.contains "site-nav" combined) = true ->
      Bs4.tag_in tag
        (ExtractLinks.element_of <$> ExtractLinks.find_candidates soup) = true))
  /\
  ((forall sel description el,
      (sel, description) ∈ ScrapeLinks.selector_strategies ->
      el ∈ Bs4.select soup sel ->
      (el, description, 0%Z) ∈ ScrapeLinks.find_candidates soup) /\
   (forall tag,
      tag ∈ Bs4.find_all soup ["nav"; "aside"; "div"; "ul"] ->
      (let combined :=
         Py.lower (Bs4.get tag "id" +:+ " " +:+
                   Py.join " " (Bs4.get_list tag "class")) in
       Py.contains "sidebar" combined || Py.contains "sidenav" combined ||
       Py.contains "site-nav" combined) = true ->
      Bs4.tag_in tag
        (ScrapeLinks.element_of <$> ScrapeLinks.find_candidates soup) = true)).
Proof.
  assert (Hsel : forall (strategies : list (Bs4.selector * string))
                   sel description el,
    (sel, description) ∈ strategies -> el ∈ Bs4.select soup sel ->
    (el, description, 0%Z) ∈
      flat_map (fun '(sel, description) =>
                  (fun el => (el, description, 0%Z)) <$> Bs4.select soup sel)
        strategies).
  { intros strategies sel description el Hs Hel.
    apply list_elem_of_In, in_flat_map. exists (sel, description).
    split; [by apply list_elem_of_In|].
    apply list_elem_of_In, list_elem_of_fmap. by exists el. }
  split; split.
  - intros sel description el Hs Hel. rewrite extract_find_candidates_scan.
    apply scan_fold_incl.
    exact (Hsel ExtractLinks.selector_strategies sel description el Hs Hel).
  - intros tag Htag Hw. rewrite extract_find_candidates_scan.
    unfold ExtractLinks.element_of.
    eapply scan_fold_complete; [done|exact Htag|exact Hw].
  - intros sel description el Hs Hel. rewrite scrape_find_candidates_scan.
    apply scan_fold_incl.
    exact (Hsel ScrapeLinks.selector_strategies sel description el Hs Hel).
  - intros tag Htag Hw. rewrite scrape_find_candidates_scan.
    unfold ScrapeLinks.element_of.
    eapply scan_fold_complete; [done|exact Htag|exact Hw].
Qed.

Lemma X16_no_eligible_element_is_overlooked_witness :
  Bs4.tag_in (Samples.tag_at [1] Samples.toc_sidebar)
    (ExtractLinks.element_of <$> ExtractLinks.find_candidates Samples.doc_toc)
    = true.
Proof.
  apply (proj2 (proj1 (X16_no_eligible_element_is_overlooked Samples.doc_toc))).
  - apply list_elem_of_In. vm_compute. right. left. reflexivity.
  - vm_compute; reflexivity.
Defined.

(** ** From the start URL to the output file *)

Section EndToEnd.

Import Urllib.

Context (V : validators).

(** A link that extract_links.py's normaliser returns for a target with
    a network location. *)
Lemma extract_link_of_target href base_url target_origin tp u :
  urlparse V target_origin "" = Ok tp -> netloc tp <> "" ->
  ExtractLinks.normalize_url V href base_url target_origin = Ok (Some u) ->
  Py.mem Py.newline u = false /\ Py.startswith "https://" u = true /\
  exists reparsed,
    urlparse V u "" = Ok reparsed /\ netloc reparsed = netloc tp.
Proof.
  intros Htp Hn Hu. split_and!.
  - by apply extract_normalized_clean, clean_mem_newline in Hu.
  - apply extract_normalize_url_some in Hu
      as (_ & a & parsed & tp' & _ & _ & _ & _ & ->).
    by apply (urlunsplit_slashes "https").
  - apply extract_normalize_url_some in Hu
      as (_ & a & parsed & tp' & _ & Hparse & Htp' & Hsame & ->).
    rewrite Htp in Htp'. injection Htp' as <-.
    pose proof (stripped_wf V _ _ _ "" Hparse eq_refl) as W.
    rewrite <- Hsame in Hn |- *.
    destruct (urlparse_rebuilt V "https" _ _ _ _ ltac:(done) Hn W)
      as (rp & Hrp & _ & ? & _).
    by exists rp.
Qed.

End EndToEnd.

(** X17. What a successful run of extract_links.py writes. For a start
    URL with a scheme and a network location, when
    [extract_sidebar_links] returns 0 the output file holds one line for
    each harvested link and nothing else, no link occurs twice, and every
    link starts with [https://] and parses to the network location of the
    start URL. *)
Theorem X17_extract_output_is_https_links_of_start_host
  (V : Urllib.validators) (E : Os.environment) (fs : Os.filesystem) :
  forall start_url output_file parsed_start,
    Urllib.urlparse V start_url "" = Ok parsed_start ->
    Urllib.scheme parsed_start <> "" ->
    Urllib.netloc parsed_start <> "" ->
    let run := ExtractLinks.extract_sidebar_links V E start_url output_file fs in
    run.1 = Ok 0%Z ->
    exists text links,
      Os.files run.2 !! output_file = Some text /\
      Py.split Py.newline text = links ++ [""] /\
      NoDup links /\
      forall u, u ∈ links ->
        Py.startswith "https://" u = true /\
        exists reparsed,
          Urllib.urlparse V u "" = Ok reparsed /\
          Urllib.netloc reparsed = Urllib.netloc parsed_start.
Proof.
  intros start_url output_file ps Hps Hscheme Hnetloc run Hz. subst run.
  unfold ExtractLinks.extract_sidebar_links in Hz |- *.
  rewrite Hps in Hz |- *.
  set (target_origin := Urllib.scheme ps +:+ "://" +:+ Urllib.netloc ps) in *.
  destruct (Os.http_get E start_url) as [| | | |content]; try done.
  destruct (ExtractLinks.find_sidebar_container V _ start_url target_origin)
    as [[sidebar|]|e]; try done.
  destruct (ExtractLinks.harvest V sidebar start_url target_origin)
    as [links|e] eqn:Hrun; [|done].
  fold (write_output E output_file (ExtractLinks.output_text links) fs) in Hz |- *.
  destruct (write_output_spec E output_file (ExtractLinks.output_text links) fs)
    as (Hfiles & _).
  assert (Horigin : Urllib.urlparse V target_origin "" =
            Ok {| Urllib.scheme := Urllib.scheme ps;
                  Urllib.netloc := Urllib.netloc ps;
                  Urllib.path := ""; Urllib.params := "";
                  Urllib.query := ""; Urllib.fragment := "" |}).
  { apply urlparse_origin; [by eapply urlparse_scheme_ok|done|].
    by eapply urlparse_netloc_wf. }
  assert (Hlinks : forall u, u ∈ links ->
            Py.mem Py.newline u = false /\ Py.startswith "https://" u = true /\
            exists reparsed,
              Urllib.urlparse V u "" = Ok reparsed /\
              Urllib.netloc reparsed = Urllib.netloc ps).
  { intros u Hu.
    destruct (extract_harvest_elem V _ _ _ _ _ Hrun Hu) as (a & _ & Ha).
    by apply (extract_link_of_target V _ _ _ _ _ Horigin Hnetloc Ha). }
  exists (ExtractLinks.output_text links), links. split_and!.
  - rewrite (Hfiles Hz). by rewrite lookup_insert_eq.
  - apply extract_output_text_lines. intros u Hu. by apply Hlinks.
  - apply extract_harvest_loop in Hrun as [seen Hrun].
    apply dedup_loop in Hrun as (_ & Hnd & _). by rewrite list_fmap_id in Hnd.
  - intros u Hu. by destruct (Hlinks u Hu) as (_ & ? & ?).
Qed.

Lemma X17_extract_output_is_https_links_of_start_host_witness :
  exists text links,
    Os.files
      (ExtractLinks.extract_sidebar_links Samples.V0
         (Samples.env (Os.Response "<html>") [Samples.repeats_sidebar])
         "http://docs.example/start" "out/links.txt" Samples.fs0).2
      !! "out/links.txt" = Some text /\
    Py.split Py.newline text = links ++ [""] /\
    NoDup links /\
    forall u, u ∈ links ->
      Py.startswith "https://" u = true /\
      exists reparsed,
        Urllib.urlparse Samples.V0 u "" = Ok reparsed /\
        Urllib.netloc reparsed = "docs.example".
Proof.
  apply (X17_extract_output_is_https_links_of_start_host Samples.V0
           (Samples.env (Os.Response "<html>") [Samples.repeats_sidebar])
           Samples.fs0 "http://docs.example/start" "out/links.txt"
           {| Urllib.scheme := "http"; Urllib.netloc := "docs.example";
              Urllib.path := "/start"; Urllib.params := "";
              Urllib.query := ""; Urllib.fragment := "" |});
    [vm_compute; reflexivity|done|done|vm_compute; reflexivity].
Defined.
